(** * btrfs-manager: the state-aggregation and mutation layer

    A shallow embedding of the collectors and actions of
    [btrfs-manager.py] (the functions between [run_command] and
    [api_create_snapshot], but for [get_io_stats] and the routes that
    only wrap a collector), the properties of its specification, and
    further properties of the code.

    Conventions of the embedding.
    - A Python [str] is a Rocq [string]; a character is a code point
      below 256.
    - A value read from a JSON object is a [pyval]: [None] or a [str]
      (the objects of the requests and of the device listing hold
      strings and nulls).
    - A Python float is a [spec_float] of the binary64 format.
    - A Python call that can raise returns a [PyResult].  The
      [IndexError] of [line.split()[0]] on a line without token has a
      value of its own in the result of the search or function where
      it can arise ([NoToken], [SysIndexError]), and so has the
      [AttributeError] of [data.get] on the body of a request that is
      no object ([route]).
    - Code that spawns processes or touches the file system runs in the
      monad [M]: it threads the chronological log of the host events
      and asks a [Host] what each of them answers, given the log so far.
    - What a handler prints on the program's own output is left out. *)

From Stdlib Require Import ZArith NArith String Ascii List Lia SpecFloat.
From Stdlib Require Import DecimalString.
From stdpp Require Import base option list gmap strings.

Local Open Scope string_scope.
(* in string_scope [++] is String.append; lists are appended in list_scope *)

(** ** Python strings *)

Module Py.

(** [str.isspace] on one character (code points below 256). *)
Definition is_space (c : ascii) : bool :=
  let n := N_of_ascii c in
  ((9 <=? n) && (n <=? 13) || (28 <=? n) && (n <=? 32)
   || (n =? 133) || (n =? 160))%N.

Fixpoint lstrip (s : string) : string :=
  match s with
  | String c s' => if is_space c then lstrip s' else s
  | EmptyString => EmptyString
  end.

Fixpoint rstrip (s : string) : string :=
  match s with
  | EmptyString => EmptyString
  | String c s' =>
      match rstrip s' with
      | EmptyString => if is_space c then EmptyString else String c EmptyString
      | r => String c r
      end
  end.

(** [s.strip()] *)
Definition strip (s : string) : string := rstrip (lstrip s).

(** [s.strip(chars)] for a one-character [chars]. *)
Fixpoint lstrip_char (a : ascii) (s : string) : string :=
  match s with
  | String c s' => if Ascii.eqb c a then lstrip_char a s' else s
  | EmptyString => EmptyString
  end.

Fixpoint rstrip_char (a : ascii) (s : string) : string :=
  match s with
  | EmptyString => EmptyString
  | String c s' =>
      match rstrip_char a s' with
      | EmptyString => if Ascii.eqb c a then EmptyString else String c EmptyString
      | r => String c r
      end
  end.

Definition strip_char (a : ascii) (s : string) : string :=
  rstrip_char a (lstrip_char a s).

(** [s.split(sep)] for a one-character separator: never empty. *)
Fixpoint split (sep : ascii) (s : string) : list string :=
  match s with
  | EmptyString => [EmptyString]
  | String c s' =>
      if Ascii.eqb c sep then EmptyString :: split sep s'
      else match split sep s' with
           | w :: ws => String c w :: ws
           | [] => [String c EmptyString]
           end
  end.

(** [s.split()]: the maximal runs of non-space characters. *)
Fixpoint split_ws (s : string) : list string :=
  match s with
  | EmptyString => []
  | String c s' =>
      if is_space c then split_ws s'
      else match s' with
           | EmptyString => [String c EmptyString]
           | String c' _ =>
               if is_space c' then String c EmptyString :: split_ws s'
               else match split_ws s' with
                    | w :: ws => String c w :: ws
                    | [] => [String c EmptyString]
                    end
           end
  end.

(** [sep.join(l)] *)
Fixpoint join (sep : string) (l : list string) : string :=
  match l with
  | [] => EmptyString
  | [x] => x
  | x :: l' => x ++ sep ++ join sep l'
  end.

(** [s.startswith(p)] *)
Definition startswith (s p : string) : bool := String.prefix p s.

(** [s.endswith(p)] *)
Definition endswith (s p : string) : bool :=
  let n := String.length s in
  let m := String.length p in
  (m <=? n)%nat && String.eqb (String.substring (n - m) m s) p.

(** [sub in s] *)
Fixpoint contains (sub s : string) : bool :=
  String.prefix sub s ||
  match s with
  | EmptyString => false
  | String _ s' => contains sub s'
  end.

(** [s[:n]] *)
Definition take (n : nat) (s : string) : string := String.substring 0 n s.

(** [s[:-1]] *)
Definition drop_last (s : string) : string :=
  String.substring 0 (String.length s - 1) s.

(** [str.upper] on one character.  Two lower-case letters below 256 have
    their capital above 255 (the micro sign and y with diaeresis); they
    are left as they are: like their capitals they are neither spaces,
    digits, nor letters that any function below looks for. *)
Definition upper_char (c : ascii) : string :=
  let n := N_of_ascii c in
  if ((97 <=? n) && (n <=? 122))%N then String (ascii_of_N (n - 32)) EmptyString
  else if ((224 <=? n) && (n <=? 254) && negb (n =? 247))%N
       then String (ascii_of_N (n - 32)) EmptyString
  else if (n =? 223)%N then "SS"
  else String c EmptyString.

Fixpoint upper (s : string) : string :=
  match s with
  | EmptyString => EmptyString
  | String c s' => upper_char c ++ upper s'
  end.

Definition is_digit (c : ascii) : bool :=
  let n := N_of_ascii c in ((48 <=? n) && (n <=? 57))%N.

Definition digit_val (c : ascii) : Z := Z.of_N (N_of_ascii c) - 48.

(** One hexadecimal digit, in lower case. *)
Definition hex_digit (n : N) : ascii :=
  if (n <? 10)%N then ascii_of_N (48 + n) else ascii_of_N (87 + n).

(** How [repr] writes one character between the quotes [quote]: the
    quote and the backslash after a backslash, the tabulator, the line
    feed and the carriage return by their letter, every other
    character that is not printable (the control characters, the
    no-break space and the soft hyphen) by its code. *)
Definition repr_char (quote c : ascii) : string :=
  let n := N_of_ascii c in
  if Ascii.eqb c quote || Ascii.eqb c "092" then String "092" (String c EmptyString)
  else if (n =? 9)%N then String "092" (String "t" EmptyString)
  else if (n =? 10)%N then String "092" (String "n" EmptyString)
  else if (n =? 13)%N then String "092" (String "r" EmptyString)
  else if ((n <? 32) || (n =? 127) || (128 <=? n) && (n <=? 160) || (n =? 173))%N then
    String "092" (String "x" (String (hex_digit (n / 16)) (String (hex_digit (n mod 16))
                                                             EmptyString)))
  else String c EmptyString.

Fixpoint repr_chars (quote : ascii) (s : string) : string :=
  match s with
  | EmptyString => EmptyString
  | String c s' => repr_char quote c ++ repr_chars quote s'
  end.

(** [repr(s)]: between double quotes when [s] has a single quote and no
    double one, between single quotes otherwise. *)
Definition repr (s : string) : string :=
  let quote :=
    if contains "'" s && negb (contains (String "034" EmptyString) s)
    then "034"%char else "'"%char in
  String quote (repr_chars quote s) ++ String quote EmptyString.

End Py.

(** ** Values, exceptions, results *)

(** What [dict.get] gives on a JSON object of strings and nulls. *)
Inductive pyval :=
| PNone
| PStr (s : string).

(** [str(v)], which is also how an f-string formats [v]. *)
Definition py_str (v : pyval) : string :=
  match v with PNone => "None" | PStr s => s end.

(** Truthiness: [None] and the empty string are false. *)
Definition truthy (v : pyval) : bool :=
  match v with PNone | PStr EmptyString => false | PStr _ => true end.

Record CompletedProcess := {
  returncode : Z;
  stdout : string;
  stderr : string
}.

Inductive exn :=
| CalledProcessError (p : CompletedProcess)
| ValueError (msg : string)
| OverflowError (msg : string)
| TypeError (msg : string)
| OSError (msg : string).

(** [str(e)], the text that an action shows.  No action sees a
    [CalledProcessError]: the actions run their commands without
    [check]; its text here is without the command and the status. *)
Definition exn_str (e : exn) : string :=
  match e with
  | CalledProcessError p => "Command returned non-zero exit status"
  | ValueError m | OverflowError m | TypeError m | OSError m => m
  end.

Inductive PyResult (A : Type) :=
| Return (a : A)
| Raise (e : exn).
Arguments Return {A} a.
Arguments Raise {A} e.

(** ** The host and the effect monad *)

Inductive command :=
| Argv (args : list string)     (* subprocess.run([...]) *)
| Shell (cmd : string).         (* subprocess.run(cmd, shell=True) *)

Inductive event :=
| Spawn (c : command)
| MakeDirs (path : string).     (* os.makedirs(path, exist_ok=True) *)

(** The machine the program runs on: what a process does and whether a
    directory can be made, after the events so far.  A process that
    could not be started is an [OSError]. *)
Record Host := {
  host_run : list event -> command -> PyResult CompletedProcess;
  host_makedirs : list event -> string -> PyResult unit
}.

Definition M (A : Type) : Type := list event -> PyResult A * list event.

#[global] Instance M_ret : MRet M := fun A a tr => (Return a, tr).

#[global] Instance M_bind : MBind M := fun A B f m tr =>
  match m tr with
  | (Return a, tr') => f a tr'
  | (Raise e, tr') => (Raise e, tr')
  end.

Definition raise {A} (e : exn) : M A := fun tr => (Raise e, tr).

(** [try: m  except Exception as e: h e] *)
Definition try_except {A} (m : M A) (h : exn -> M A) : M A := fun tr =>
  match m tr with
  | (Return a, tr') => (Return a, tr')
  | (Raise e, tr') => h e tr'
  end.

(** [for x in l: st = body st x], stopping at the first exception. *)
Fixpoint for_each {A S} (body : S -> A -> M S) (l : list A) (st : S) : M S :=
  match l with
  | [] => mret st
  | x :: l' => st' ← body st x; for_each body l' st'
  end.

Section Subprocess.
Context (host : Host).

(** [subprocess.run(cmd, shell=True, capture_output=True, text=True)],
    with [check=True] when [check] is set: a non-zero exit status then
    raises [CalledProcessError]. *)
Definition run_shell (check : bool) (cmd : string) : M CompletedProcess :=
  fun tr =>
    let tr' := (tr ++ [Spawn (Shell cmd)])%list in
    match host_run host tr (Shell cmd) with
    | Return p =>
        if check && negb (returncode p =? 0)%Z
        then (Raise (CalledProcessError p), tr')
        else (Return p, tr')
    | Raise e => (Raise e, tr')
    end.

(** The argument vector of [subprocess.run([...])] holding a value that
    is not a string is refused before anything is started. *)
Fixpoint argv_strings (args : list pyval) : option (list string) :=
  match args with
  | [] => Some []
  | PStr s :: r => option_map (cons s) (argv_strings r)
  | PNone :: _ => None
  end.

(** [subprocess.run(args, capture_output=True, text=True)] *)
Definition run_argv (args : list pyval) : M CompletedProcess :=
  fun tr =>
    match argv_strings args with
    | None =>
        (Raise (TypeError "expected str, bytes or os.PathLike object, not NoneType"), tr)
    | Some a =>
        let tr' := (tr ++ [Spawn (Argv a)])%list in
        match host_run host tr (Argv a) with
        | Return p => (Return p, tr')
        | Raise e => (Raise e, tr')
        end
    end.

(** [os.makedirs(path, exist_ok=True)] *)
Definition makedirs (path : string) : M unit :=
  fun tr => (host_makedirs host tr path, (tr ++ [MakeDirs path])%list).

(** [run_command(cmd)] *)
Definition run_command (cmd : string) : M string :=
  try_except
    (result ← run_shell true cmd;
     mret (Py.strip (stdout result)))
    (fun e =>
       match e with
       | CalledProcessError p => mret ("Error: " ++ stderr p)
       | _ => raise e
       end).

End Subprocess.

#[global] Instance PyResult_ret : MRet PyResult := fun A a => Return a.

#[global] Instance PyResult_bind : MBind PyResult := fun A B f r =>
  match r with
  | Return a => f a
  | Raise e => Raise e
  end.

(** ** Python floats: IEEE 754 binary64, as [spec_float] *)

Module Float.

Local Open Scope Z_scope.

Definition prec : Z := 53.
Definition emax : Z := 1024.

(** The float nearest to [n / d] (ties to even), for [0 <= n], [0 < d]. *)
Definition of_ratio (neg : bool) (n d : Z) : spec_float :=
  if n =? 0 then S754_zero neg
  else
    let '(q, e, l) := SFdiv_core_binary prec emax n 0 d 0 in
    binary_round_aux prec emax neg q e l.

(** The float nearest to [m * 10 ^ e10]. *)
Definition of_decimal (neg : bool) (m e10 : Z) : spec_float :=
  if 0 <=? e10 then of_ratio neg (m * 10 ^ e10) 1
  else of_ratio neg m (10 ^ (- e10)).

(** [float(z)] for an integer that a float holds exactly. *)
Definition of_int (z : Z) : spec_float := binary_normalize prec emax z 0 false.

Definition mul (x y : spec_float) : spec_float := SFmul prec emax x y.

(** Reads a run of decimal digits: the number read after [acc], how many
    digits there were, and what follows them. *)
Fixpoint read_digits (s : string) (acc n : Z) : Z * Z * string :=
  match s with
  | String c s' =>
      if Py.is_digit c then read_digits s' (10 * acc + Py.digit_val c) (n + 1)
      else (acc, n, s)
  | EmptyString => (acc, n, EmptyString)
  end.

Definition read_sign (s : string) : bool * string :=
  match s with
  | String "-" s' => (true, s')
  | String "+" s' => (false, s')
  | _ => (false, s)
  end.

(** Underscores may stand between two digits only; they are removed. *)
Fixpoint remove_underscores (prev : ascii) (s : string) : option string :=
  match s with
  | EmptyString => if Ascii.eqb prev "_" then None else Some EmptyString
  | String c s' =>
      if Ascii.eqb c "_" then
        if Py.is_digit prev then remove_underscores c s' else None
      else if Ascii.eqb prev "_" && negb (Py.is_digit c) then None
      else option_map (String c) (remove_underscores c s')
  end.

Definition ascii_upper_char (c : ascii) : ascii :=
  let n := N_of_ascii c in
  if ((97 <=? n) && (n <=? 122))%N then ascii_of_N (n - 32) else c.

Fixpoint ascii_upper (s : string) : string :=
  match s with
  | EmptyString => EmptyString
  | String c s' => String (ascii_upper_char c) (ascii_upper s')
  end.

(** digits [. digits] [e [sign] digits], with a digit before or after
    the point; an [e] that no digit follows is not part of the number. *)
Definition parse_decimal (neg : bool) (s : string) : option spec_float :=
  let '(ip, ni, s1) := read_digits s 0 0 in
  let '(m, nf, s2) :=
    match s1 with
    | String "." s1' => read_digits s1' ip 0
    | _ => (ip, 0, s1)
    end in
  if ni + nf =? 0 then None
  else
    let '(ex, s3) :=
      match s2 with
      | String c s2' =>
          if Ascii.eqb (ascii_upper_char c) "E" then
            let '(eneg, s2'') := read_sign s2' in
            let '(ev, ne, r) := read_digits s2'' 0 0 in
            if ne =? 0 then (0, s2) else (if eneg then - ev else ev, r)
          else (0, s2)
      | EmptyString => (0, EmptyString)
      end in
    match s3 with
    | EmptyString => Some (of_decimal neg m (ex - nf))
    | _ => None
    end.

(** The blanks that [float] skips around a number.  It turns the
    spaces above the ASCII range into ASCII blanks and then skips the
    ASCII blanks: the separators U+001C to U+001F, which [str.strip]
    removes, are no blanks here. *)
Definition is_blank (c : ascii) : bool :=
  let n := N_of_ascii c in
  ((9 <=? n) && (n <=? 13) || (n =? 32) || (n =? 133) || (n =? 160))%N.

Fixpoint lstrip_blanks (s : string) : string :=
  match s with
  | String c s' => if is_blank c then lstrip_blanks s' else s
  | EmptyString => EmptyString
  end.

Fixpoint rstrip_blanks (s : string) : string :=
  match s with
  | EmptyString => EmptyString
  | String c s' =>
      match rstrip_blanks s' with
      | EmptyString => if is_blank c then EmptyString else String c EmptyString
      | r => String c r
      end
  end.

Definition strip_blanks (s : string) : string := rstrip_blanks (lstrip_blanks s).

(** The [ValueError] of [float(s)]. *)
Definition not_a_float (s : string) : exn :=
  ValueError (String.append "could not convert string to float: " (Py.repr s)).

(** [float(s)] *)
Definition of_string (s : string) : PyResult spec_float :=
  match remove_underscores "000" (strip_blanks s) with
  | None => Raise (not_a_float s)
  | Some t =>
      let '(neg, t') := read_sign t in
      let u := ascii_upper t' in
      if String.eqb u "INF" || String.eqb u "INFINITY" then Return (S754_infinity neg)
      else if String.eqb u "NAN" then Return S754_nan
      else match parse_decimal neg t' with
           | Some f => Return f
           | None => Raise (not_a_float s)
           end
  end.

(** [int(x)]: truncation towards zero. *)
Definition to_int (x : spec_float) : PyResult Z :=
  match x with
  | S754_zero _ => Return 0
  | S754_finite s m e =>
      let a := if 0 <=? e then Zpos m * 2 ^ e else Zpos m / 2 ^ (- e) in
      Return (if s then - a else a)
  | S754_infinity _ => Raise (OverflowError "cannot convert float infinity to integer")
  | S754_nan => Raise (ValueError "cannot convert float NaN to integer")
  end.

End Float.

(** ** Size parser *)

(** The dictionary [units], in the order of its items. *)
Definition units : list (string * Z) :=
  [("B", 1); ("K", 1024); ("M", 1024 ^ 2); ("G", 1024 ^ 3); ("T", 1024 ^ 4)]%Z.

(** The loop over [units.items()] of [parse_size], on the upper-cased
    and stripped string. *)
Fixpoint parse_size_loop (size_str : string) (us : list (string * Z)) : PyResult Z :=
  match us with
  | [] => Return 0%Z
  | (unit, multiplier) :: us' =>
      if Py.endswith size_str unit then
        match
          num ← Float.of_string (Py.drop_last size_str);
          Float.to_int (Float.mul num (Float.of_int multiplier))
        with
        | Raise (ValueError _) => Return 0%Z
        | r => r
        end
      else parse_size_loop size_str us'
  end.

(** [parse_size(size_str)] *)
Definition parse_size (size_str : pyval) : PyResult Z :=
  match size_str with
  | PNone => Return 0%Z
  | PStr s =>
      if negb (truthy size_str) || String.eqb s "0" then Return 0%Z
      else parse_size_loop (Py.strip (Py.upper s)) units
  end.

(** ** Device inventory collector *)

#[local] Unset Elimination Schemes.
(** One node of the tree that the block-device listing tool prints: the
    object's string and null entries, and the list under its [children]
    key (empty when the key is absent: the loop over it then does
    nothing, which is what the test ['children' in device] achieves). *)
Inductive device :=
| Device (attrs : gmap string pyval) (children : list device).
#[local] Set Elimination Schemes.

(** [d.get(key, default)] *)
Definition dict_get (d : gmap string pyval) (key : string) (default : pyval) : pyval :=
  match d !! key with
  | Some v => v
  | None => default
  end.

Record dev_info := {
  dev_name : pyval;
  dev_size : Z;
  dev_type : pyval;
  dev_mount_point : pyval;
  dev_fstype : pyval;
  dev_model : pyval;
  dev_serial : pyval
}.

(** [for device in l: devices += f device], stopping at an exception. *)
Definition for_devices (f : device -> PyResult (list dev_info)) :
    list device -> PyResult (list dev_info) :=
  fix go (l : list device) : PyResult (list dev_info) :=
    match l with
    | [] => Return []
    | d :: l' => out ← f d; more ← go l'; Return (out ++ more)%list
    end.

(** The name that the loop of [extract_devices] gives to a device. *)
Definition device_name (parent : string) (attrs : gmap string pyval) : pyval :=
  let name := dict_get attrs "name" (PStr EmptyString) in
  if truthy (PStr parent) then PStr (parent ++ py_str name) else name.

(** The record [dev_info] that the loop builds for a device. *)
Definition device_record (parent : string) (attrs : gmap string pyval) :
    PyResult dev_info :=
  size ← parse_size (dict_get attrs "size" (PStr "0"));
  Return {|
    dev_name := device_name parent attrs;
    dev_size := size;
    dev_type := dict_get attrs "type" (PStr EmptyString);
    dev_mount_point := dict_get attrs "mountpoint" (PStr EmptyString);
    dev_fstype := dict_get attrs "fstype" (PStr EmptyString);
    dev_model := dict_get attrs "model" (PStr EmptyString);
    dev_serial := dict_get attrs "serial" (PStr EmptyString)
  |}.

(** The body of the loop of [extract_devices]: the records that one
    device appends to [devices], its own and then, by the recursive
    call with its name as parent, its children's. *)
Fixpoint extract_device (parent : string) (d : device) : PyResult (list dev_info) :=
  match d with
  | Device attrs children =>
      info ← device_record parent attrs;
      sub ← for_devices (extract_device (py_str (device_name parent attrs))) children;
      Return (info :: sub)
  end.

(** [extract_devices(blockdevices, parent)]: what it appends to [devices]. *)
Definition extract_devices (blockdevices : list device) (parent : string) :
    PyResult (list dev_info) :=
  for_devices (extract_device parent) blockdevices.

(** Lifts a call that can raise into [M]. *)
Definition lift {A} (r : PyResult A) : M A := fun tr => (r, tr).

(** ** Records of the collectors and responses of the actions *)

Record filesystem := {
  fs_label : string;
  fs_uuid : string;
  fs_id : Z;
  fs_devices : list string;
  fs_total_size : Z;
  fs_used : Z;
  fs_free : Z;
  fs_status : string;
  fs_mount_point : string;
  fs_mount_options : string
}.

(** [fs['devices'].append(line)] *)
Definition append_device (fs : filesystem) (line : string) : filesystem :=
  {| fs_label := fs_label fs; fs_uuid := fs_uuid fs; fs_id := fs_id fs;
     fs_devices := (fs_devices fs ++ [line])%list;
     fs_total_size := fs_total_size fs; fs_used := fs_used fs; fs_free := fs_free fs;
     fs_status := fs_status fs;
     fs_mount_point := fs_mount_point fs; fs_mount_options := fs_mount_options fs |}.

(** [fs['status'] = status] *)
Definition set_status (fs : filesystem) (status : string) : filesystem :=
  {| fs_label := fs_label fs; fs_uuid := fs_uuid fs; fs_id := fs_id fs;
     fs_devices := fs_devices fs;
     fs_total_size := fs_total_size fs; fs_used := fs_used fs; fs_free := fs_free fs;
     fs_status := status;
     fs_mount_point := fs_mount_point fs; fs_mount_options := fs_mount_options fs |}.

(** [fs['mount_point'] = mount_point] *)
Definition set_mount_point (fs : filesystem) (mount_point : string) : filesystem :=
  {| fs_label := fs_label fs; fs_uuid := fs_uuid fs; fs_id := fs_id fs;
     fs_devices := fs_devices fs;
     fs_total_size := fs_total_size fs; fs_used := fs_used fs; fs_free := fs_free fs;
     fs_status := fs_status fs;
     fs_mount_point := mount_point; fs_mount_options := fs_mount_options fs |}.

(** [fs['mount_options'] = mount_options] *)
Definition set_mount_options (fs : filesystem) (mount_options : string) : filesystem :=
  {| fs_label := fs_label fs; fs_uuid := fs_uuid fs; fs_id := fs_id fs;
     fs_devices := fs_devices fs;
     fs_total_size := fs_total_size fs; fs_used := fs_used fs; fs_free := fs_free fs;
     fs_status := fs_status fs;
     fs_mount_point := fs_mount_point fs; fs_mount_options := mount_options |}.

Record raid_profile := {
  raid_fs : string;
  data_profile : string;
  metadata_profile : string;
  global_reserve : Z
}.

Record snapshot := {
  snap_id : string;
  snap_type : string;
  snap_pre_num : option string;
  snap_description : string;
  snap_date : string;
  snap_user_name : string;
  snap_used_space : Z;
  snap_config : string
}.

(** The JSON object of a response and its HTTP status. *)
Inductive body :=
| Message (text : string)     (* {'message': text} *)
| Error (text : string).      (* {'error': text} *)

Definition response : Type := body * Z.

(** [jsonify(b)], [jsonify(b), status] *)
Definition ok (text : string) : response := (Message text, 200%Z).
Definition fail (text : string) (status : Z) : response := (Error text, status).

Section Collectors.
Context (host : Host).

(** [json.loads] on the listing, as far as the collector looks at the
    document: the list under [blockdevices] ([None] when the key is
    absent), or the exception of a malformed document. *)
Context (json_loads : string -> PyResult (option (list device))).

(** [get_block_devices()] *)
Definition get_block_devices : M (list dev_info) :=
  try_except
    (result ← run_shell host false "lsblk -J -o NAME,SIZE,TYPE,MOUNTPOINT,FSTYPE,MODEL,SERIAL";
     if negb (returncode result =? 0)%Z then mret []
     else
       data ← lift (json_loads (stdout result));
       match data with
       | Some blockdevices => lift (extract_devices blockdevices "")
       | None => mret []
       end)
    (fun _ => mret []).

(** *** Filesystem inventory collector *)

(** The mount-table lookups made for a new record.  Both calls stand in
    one [try] whose handler does nothing: an exception of the second
    call leaves the mount point that the first one has set. *)
Definition lookup_mount (uuid : string) (fs : filesystem) : M filesystem :=
  try_except
    (mount_result ← run_shell host false
       ("findmnt -t btrfs -n -o TARGET,SOURCE | grep '" ++ uuid ++ "'");
     if (returncode mount_result =? 0)%Z then
       match Py.split_ws (Py.strip (stdout mount_result)) with
       | target :: _ =>
           let fs1 := set_mount_point fs target in
           try_except
             (opts_result ← run_shell host false
                ("findmnt -t btrfs -n -o OPTIONS,SOURCE | grep '" ++ uuid ++ "'");
              if (returncode opts_result =? 0)%Z then
                match Py.split_ws (Py.strip (stdout opts_result)) with
                | opts :: _ => mret (set_mount_options fs1 opts)
                | [] => mret fs1
                end
              else mret fs1)
             (fun _ => mret fs1)
       | [] => mret fs
       end
     else mret fs)
    (fun _ => mret fs).

(** The state of the block parser: [filesystems] and [current_fs]. *)
Definition fs_state : Type := list filesystem * option filesystem.

Definition new_filesystem (label uuid : string) (filesystems : list filesystem) : filesystem :=
  {| fs_label := label; fs_uuid := uuid;
     fs_id := Z.of_nat (length filesystems) + 1;
     fs_devices := [];
     fs_total_size := 0; fs_used := 0; fs_free := 0;
     fs_status := "active";
     fs_mount_point := ""; fs_mount_options := "" |}.

(** The body of [for line in output.split('\n')]. *)
Definition fs_line (st : fs_state) (raw : string) : M fs_state :=
  let '(filesystems, current_fs) := st in
  let line := Py.strip raw in
  if Py.startswith line "Label:" then
    let parts := Py.split_ws line in
    if (4 <=? length parts)%nat then
      let label := Py.strip_char "'" (nth 1 parts "") in
      let uuid := nth 3 parts "" in
      fs ← lookup_mount uuid (new_filesystem label uuid filesystems);
      mret (filesystems, Some fs)
    else mret st
  else if Py.startswith line "Total devices:" || Py.startswith line "devid"
          || Py.startswith line "Device location:" then
    match current_fs with
    | Some fs =>
        if Py.contains "devid" line
        then mret (filesystems, Some (append_device fs line))
        else mret st
    | None => mret st
    end
  else if Py.startswith line "*** Some devices missing" then
    match current_fs with
    | Some fs => mret (filesystems, Some (set_status fs "degraded"))
    | None => mret st
    end
  else
    match current_fs with
    | Some fs =>
        if String.eqb line "" then mret ((filesystems ++ [fs])%list, None)
        else mret st
    | None => mret st
    end.

(** The parse of the listing's lines, with the record still open at the
    end appended. *)
Definition parse_filesystems (lines : list string) : M (list filesystem) :=
  st ← for_each fs_line lines ([], None);
  match st with
  | (filesystems, Some fs) => mret (filesystems ++ [fs])%list
  | (filesystems, None) => mret filesystems
  end.

(** The usage query per record: its rows are looked at and nothing is
    stored. *)
Definition query_usage (_ : unit) (fs : filesystem) : M unit :=
  try_except
    (_ ← run_shell host false
       ("btrfs filesystem usage -T "
        ++ (if truthy (PStr (fs_mount_point fs)) then fs_mount_point fs else "/tmp"));
     mret tt)
    (fun _ => mret tt).

(** [get_btrfs_filesystems()] *)
Definition get_btrfs_filesystems : M (list filesystem) :=
  try_except
    (result ← run_shell host false "btrfs filesystem show";
     if negb (returncode result =? 0)%Z then mret []
     else
       filesystems ← parse_filesystems (Py.split "010" (stdout result));
       _ ← for_each query_usage filesystems tt;
       mret filesystems)
    (fun _ => mret []).

(** *** RAID profile collector *)

(** The loop over the listing's lines, which fills [raid_info]. *)
Definition raid_line (raid_info : list raid_profile) (line : string) : list raid_profile :=
  if Py.contains "Label:" line then
    let parts := Py.split_ws line in
    if (4 <=? length parts)%nat then
      (raid_info ++ [{| raid_fs := nth 3 parts ""; data_profile := "single";
                        metadata_profile := "single"; global_reserve := 0 |}])%list
    else raid_info
  else raid_info.

Definition placeholder : raid_profile :=
  {| raid_fs := "main-filesystem"; data_profile := "single";
     metadata_profile := "single"; global_reserve := 0 |}.

(** [get_raid_status()] *)
Definition get_raid_status : M (list raid_profile) :=
  try_except
    (result ← run_shell host false "btrfs filesystem show";
     if negb (returncode result =? 0)%Z then mret []
     else
       let lines := Py.split "010" (stdout result) in
       let raid_info := fold_left raid_line lines [] in
       (* raid_info is not returned *)
       mret [placeholder])
    (fun _ => mret []).

(** *** Snapshot collector *)

(** The body of [for line in lines[1:]] over the configurations. *)
Definition config_line (configs : list string) (line : string) : list string :=
  match Py.split_ws (Py.strip line) with
  | name :: _ => (configs ++ [name])%list
  | [] => configs
  end.

(** The body of [for snap_line in snap_lines]. *)
Definition snapshot_line (config : string) (snapshots : list snapshot)
    (snap_line : string) : list snapshot :=
  let parts := Py.split "|" (Py.strip snap_line) in
  if (6 <=? length parts)%nat then
    let id_part := Py.strip (nth 0 parts "") in
    let type_part := Py.strip (nth 1 parts "") in
    let pre_num :=
      if negb (String.eqb (Py.strip (nth 2 parts "")) "-")
      then Some (Py.strip (nth 2 parts "")) else None in
    let description := Py.strip (nth 5 parts "") in
    let date_part := Py.strip (nth 3 parts "") in
    let user_part := Py.strip (nth 4 parts "") in
    (snapshots ++ [{| snap_id := id_part; snap_type := type_part;
                      snap_pre_num := pre_num; snap_description := description;
                      snap_date := date_part; snap_user_name := user_part;
                      snap_used_space := 0; snap_config := config |}])%list
  else snapshots.

(** The snapshots that the listing [snaps_output] of one configuration
    adds to [snapshots]. *)
Definition parse_snapshots (config : string) (snapshots : list snapshot)
    (snaps_output : string) : list snapshot :=
  let snap_lines := tail (Py.split "010" snaps_output) in
  fold_left (snapshot_line config) snap_lines snapshots.

(** The body of [for config in configs]. *)
Definition snapshots_of_config (snapshots : list snapshot) (config : string) :
    M (list snapshot) :=
  try_except
    (snaps_output ← run_command host ("snapper -c " ++ config ++ " list");
     mret (parse_snapshots config snapshots snaps_output))
    (fun _ => mret snapshots).

(** [get_snapshots()] *)
Definition get_snapshots : M (list snapshot) :=
  try_except
    (configs_output ← run_command host "snapper list-configs";
     let lines := Py.split "010" configs_output in
     let configs := fold_left config_line (tail lines) [] in
     for_each snapshots_of_config configs [])
    (fun _ => mret []).

(** ** Mutation orchestrator *)

(** [api_mount()], on the JSON object of the request. *)
Definition api_mount (data : gmap string pyval) : M response :=
  let uuid := dict_get data "uuid" PNone in
  try_except
    (result ← run_argv host [PStr "blkid"; PStr "-U"; uuid];
     let device_path := Py.strip (stdout result) in
     if negb (truthy (PStr device_path)) then
       mret (fail ("Device with UUID " ++ py_str uuid ++ " not found") 404)
     else
       let mount_point := "/mnt/btrfs_" ++ Py.take 8 (py_str uuid) in
       _ ← makedirs host mount_point;
       result ← run_argv host [PStr "mount"; PStr device_path; PStr mount_point];
       if (returncode result =? 0)%Z then
         mret (ok ("Successfully mounted " ++ device_path ++ " to " ++ mount_point))
       else
         mret (fail ("Mount failed: " ++ stderr result) 500))
    (fun e => mret (fail (exn_str e) 500)).

Definition valid_profiles : list string :=
  ["single"; "raid0"; "raid1"; "raid5"; "raid6"; "raid10"].

(** [profile in valid_profiles] *)
Definition is_valid_profile (profile : pyval) : bool :=
  match profile with
  | PStr s => existsb (String.eqb s) valid_profiles
  | PNone => false
  end.

(** [api_change_raid()], on the JSON object of the request. *)
Definition api_change_raid (data : gmap string pyval) : M response :=
  let filesystem := dict_get data "filesystem" PNone in
  let profile := dict_get data "profile" PNone in
  try_except
    (if negb (is_valid_profile profile) then
       mret (fail ("Invalid RAID profile: " ++ py_str profile) 400)
     else
       result ← run_argv host
         [PStr "btrfs"; PStr "filesystem"; PStr "resize";
          PStr (py_str profile ++ ":"); filesystem];
       if (returncode result =? 0)%Z then
         mret (ok ("Successfully changed RAID profile to " ++ py_str profile))
       else
         result_alt ← run_argv host
           [PStr "btrfs"; PStr "balance"; PStr "start";
            PStr ("-dconvert=" ++ py_str profile);
            PStr ("-mconvert=" ++ py_str profile); filesystem];
         if (returncode result_alt =? 0)%Z then
           mret (ok ("Successfully started RAID conversion to " ++ py_str profile))
         else
           mret (fail ("RAID change failed: " ++ stderr result
                       ++ String "010" "Alternative: " ++ stderr result_alt) 500))
    (fun e => mret (fail (exn_str e) 500)).

End Collectors.

(** ** The other actions *)

(** What the loop over the lines of the mount table leaves in
    [mount_point]. *)
Inductive mount_lookup :=
| Mounted (mount_point : string)  (* the loop breaks at a line that holds the UUID *)
| NotMounted                      (* no line holds it: [mount_point] stays [None] *)
| NoToken.                        (* [line.split()[0]] raises IndexError *)

(** [for line in lines: if uuid in line: mount_point = line.split()[0]; break],
    for a UUID that is a string. *)
Fixpoint find_mount_point (uuid : string) (lines : list string) : mount_lookup :=
  match lines with
  | [] => NotMounted
  | line :: lines' =>
      if Py.contains uuid line then
        match Py.split_ws line with
        | target :: _ => Mounted target
        | [] => NoToken
        end
      else find_mount_point uuid lines'
  end.

(** The same loop for the value of the request: [None in line] raises
    [TypeError] at the first line. *)
Definition lookup_mount_point (uuid : pyval) (lines : list string) : PyResult mount_lookup :=
  match uuid with
  | PStr u => Return (find_mount_point u lines)
  | PNone =>
      match lines with
      | [] => Return NotMounted
      | _ :: _ =>
          Raise (TypeError "'in <string>' requires string as left operand, not NoneType")
      end
  end.

(** The text of the IndexError that the handler of an action shows. *)
Definition index_error : string := "list index out of range".

(** The argument vector of the mount-table query. *)
Definition findmnt_command : list string :=
  ["findmnt"; "-t"; "btrfs"; "-n"; "-o"; "TARGET,SOURCE"].

Section OtherActions.
Context (host : Host).

(** [api_umount()], on the JSON object of the request. *)
Definition api_umount (data : gmap string pyval) : M response :=
  let uuid := dict_get data "uuid" PNone in
  try_except
    (result ← run_argv host (map PStr findmnt_command);
     found ← lift (lookup_mount_point uuid
                     (Py.split "010" (Py.strip (stdout result))));
     match found with
     | NoToken => mret (fail index_error 500)
     | NotMounted =>
         mret (fail ("No mounted filesystem found with UUID " ++ py_str uuid) 404)
     | Mounted mount_point =>
         if negb (truthy (PStr mount_point)) then
           mret (fail ("No mounted filesystem found with UUID " ++ py_str uuid) 404)
         else
           result ← run_argv host [PStr "umount"; PStr mount_point];
           if (returncode result =? 0)%Z then
             mret (ok ("Successfully unmounted " ++ mount_point))
           else
             mret (fail ("Unmount failed: " ++ stderr result) 500)
     end)
    (fun e => mret (fail (exn_str e) 500)).

(** [api_add_device()], on the JSON object of the request. *)
Definition api_add_device (data : gmap string pyval) : M response :=
  let device := dict_get data "device" PNone in
  let fs_uuid := dict_get data "fs_uuid" PNone in
  try_except
    (result ← run_argv host [PStr "blkid"; PStr "-U"; fs_uuid];
     let fs_device := Py.strip (stdout result) in
     if negb (truthy (PStr fs_device)) then
       mret (fail ("Filesystem with UUID " ++ py_str fs_uuid ++ " not found") 404)
     else
       result ← run_argv host (map PStr findmnt_command);
       found ← lift (lookup_mount_point fs_uuid
                       (Py.split "010" (Py.strip (stdout result))));
       match found with
       | NoToken => mret (fail index_error 500)
       | NotMounted =>
           mret (fail ("Filesystem with UUID " ++ py_str fs_uuid ++ " is not mounted") 400)
       | Mounted fs_mount_point =>
           if negb (truthy (PStr fs_mount_point)) then
             mret (fail ("Filesystem with UUID " ++ py_str fs_uuid ++ " is not mounted") 400)
           else
             result ← run_argv host
               [PStr "btrfs"; PStr "device"; PStr "add"; device; PStr fs_mount_point];
             if (returncode result =? 0)%Z then
               mret (ok ("Successfully added " ++ py_str device ++ " to Btrfs filesystem"))
             else
               mret (fail ("Adding device failed: " ++ stderr result) 500)
       end)
    (fun e => mret (fail (exn_str e) 500)).

(** [api_delete_snapshot()], on the JSON object of the request.  The
    id enters through [str(snap_id)] only: a number is the string of
    its digits here. *)
Definition api_delete_snapshot (data : gmap string pyval) : M response :=
  let config := dict_get data "config" PNone in
  let snap_id := dict_get data "id" PNone in
  try_except
    (result ← run_argv host
       [PStr "snapper"; PStr "-c"; config; PStr "delete"; PStr (py_str snap_id)];
     if (returncode result =? 0)%Z then
       mret (ok ("Successfully deleted snapshot " ++ py_str snap_id
                 ++ " from config " ++ py_str config))
     else
       mret (fail ("Deletion failed: " ++ stderr result) 500))
    (fun e => mret (fail (exn_str e) 500)).

(** [api_create_btrfs()], on the JSON object of the request. *)
Definition api_create_btrfs (data : gmap string pyval) : M response :=
  let device := dict_get data "device" PNone in
  let label := dict_get data "label" (PStr EmptyString) in
  try_except
    (let cmd := [PStr "mkfs.btrfs"] in
     let cmd := if truthy label then (cmd ++ [PStr "-L"; label])%list else cmd in
     let cmd := (cmd ++ [device])%list in
     result ← run_argv host cmd;
     if (returncode result =? 0)%Z then
       mret (ok ("Successfully created Btrfs filesystem on " ++ py_str device))
     else
       mret (fail ("Creation failed: " ++ stderr result) 500))
    (fun e => mret (fail (exn_str e) 500)).

(** [api_create_snapshot()], on the JSON object of the request. *)
Definition api_create_snapshot (data : gmap string pyval) : M response :=
  let config := dict_get data "config" PNone in
  let description := dict_get data "description" (PStr "Created via Web UI") in
  try_except
    (result ← run_argv host
       [PStr "snapper"; PStr "-c"; config; PStr "create"; PStr "--description";
        description];
     if (returncode result =? 0)%Z then
       mret (ok ("Successfully created snapshot in config " ++ py_str config))
     else
       mret (fail ("Creation failed: " ++ stderr result) 500))
    (fun e => mret (fail (exn_str e) 500)).

End OtherActions.

(** ** Requests *)




(** ** System information *)

Record sys_info := {
  sys_hostname : string;
  sys_uptime : string;
  sys_loadavg : list spec_float
}.

(** What [get_system_info] returns, or the IndexError of
    [uptime_raw.split()[0]] on an output without token. *)
Inductive sys_result :=
| SysInfo (info : sys_info)
| SysIndexError.

(** [str(z)] for an integer. *)
Definition int_str (z : Z) : string := NilZero.string_of_int (Z.to_int z).

(** [[float(x) for x in l]] *)
Fixpoint floats (l : list string) : PyResult (list spec_float) :=
  match l with
  | [] => Return []
  | x :: l' => f ← Float.of_string x; fs ← floats l'; Return (f :: fs)
  end.

(** The text [f"{days}d {hours}h {minutes}m"] for a number of seconds. *)
Definition format_uptime (uptime_seconds : Z) : string :=
  let days := (uptime_seconds / 86400)%Z in
  let hours := ((uptime_seconds mod 86400) / 3600)%Z in
  let minutes := ((uptime_seconds mod 3600) / 60)%Z in
  int_str days ++ "d " ++ int_str hours ++ "h " ++ int_str minutes ++ "m".

(** [get_system_info()]: no handler stands around it. *)
Definition get_system_info (host : Host) : M sys_result :=
  hostname ← run_command host "hostname";
  uptime_raw ← run_command host "cat /proc/uptime";
  match Py.split_ws uptime_raw with
  | [] => mret SysIndexError
  | first :: _ =>
      uptime_seconds ← lift (x ← Float.of_string first; Float.to_int x);
      let uptime := format_uptime uptime_seconds in
      loadavg_raw ← run_command host "cat /proc/loadavg";
      loadavg ← lift (floats (firstn 3 (Py.split_ws loadavg_raw)));
      mret (SysInfo {| sys_hostname := hostname; sys_uptime := uptime;
                       sys_loadavg := loadavg |})
  end.

(** * Vocabulary of the properties *)

(** ** Hosts used in the examples *)

Definition completed (rc : Z) (out err : string) : CompletedProcess :=
  {| returncode := rc; stdout := out; stderr := err |}.

(** A host on which every process gives the same answer. *)
Definition const_host (p : CompletedProcess) : Host :=
  {| host_run := fun _ _ => Return p;
     host_makedirs := fun _ _ => Return tt |}.

(** A host on which the commands of [answers] give the listed answer and
    every other command fails with status 1. *)
Fixpoint answer_of (answers : list (command * CompletedProcess)) (c : command) :
    CompletedProcess :=
  match answers with
  | [] => completed 1 EmptyString "not found"
  | (c', p) :: r =>
      match c, c' with
      | Shell a, Shell b => if String.eqb a b then p else answer_of r c
      | Argv a, Argv b => if bool_decide (a = b) then p else answer_of r c
      | _, _ => answer_of r c
      end
  end.

Definition table_host (answers : list (command * CompletedProcess)) : Host :=
  {| host_run := fun _ c => Return (answer_of answers c);
     host_makedirs := fun _ _ => Return tt |}.

Definition nl : string := String "010" EmptyString.

(** A host that knows no mounted file system: every lookup in the mount
    table finds nothing. *)
Definition unmounted_host : Host := table_host [].

(** A host without the [btrfs] program. *)
Definition no_btrfs_host : Host :=
  {| host_run := fun _ _ => Raise (OSError "[Errno 2] No such file or directory: 'btrfs'");
     host_makedirs := fun _ _ => Return tt |}.

(** ** Change of RAID profile *)

(** The two argument vectors that [api_change_raid] builds. *)
Definition resize_command (profile filesystem : string) : list string :=
  ["btrfs"; "filesystem"; "resize"; profile ++ ":"; filesystem].

Definition balance_command (profile filesystem : string) : list string :=
  ["btrfs"; "balance"; "start"; "-dconvert=" ++ profile; "-mconvert=" ++ profile;
   filesystem].

Definition started_conversion (profile : string) : string :=
  "Successfully started RAID conversion to " ++ profile.

Definition changed_profile (profile : string) : string :=
  "Successfully changed RAID profile to " ++ profile.

(** A host on which the resize form is refused and the balance form
    works. *)
Definition balance_only_host : Host :=
  table_host
    [(Argv (balance_command "raid1" "/mnt/data"),
      completed 0 "Done, had to relocate 3 out of 3 chunks" EmptyString)].

(** ** Lines and blocks of the file system listing *)

(** A line that the parser takes for the start of a record. *)
Definition opens_record (raw : string) : bool :=
  Py.startswith (Py.strip raw) "Label:"
  && (4 <=? length (Py.split_ws (Py.strip raw)))%nat.

(** A line that the parser adds to the devices of the open record. *)
Definition is_device_line (raw : string) : bool :=
  (Py.startswith (Py.strip raw) "Total devices:"
   || Py.startswith (Py.strip raw) "devid"
   || Py.startswith (Py.strip raw) "Device location:")
  && Py.contains "devid" (Py.strip raw).

(** A line that marks the open record as degraded. *)
Definition is_missing_line (raw : string) : bool :=
  Py.startswith (Py.strip raw) "*** Some devices missing".

(** What a line inside a block does to the open record. *)
Definition body_step (fs : filesystem) (raw : string) : filesystem :=
  if is_device_line raw then append_device fs (Py.strip raw)
  else if is_missing_line raw then set_status fs "degraded"
  else fs.

(** The entries of a record that the mount-table lookups leave alone. *)
Definition same_core (a b : filesystem) : Prop :=
  fs_label a = fs_label b /\ fs_uuid a = fs_uuid b /\ fs_id a = fs_id b
  /\ fs_devices a = fs_devices b /\ fs_status a = fs_status b
  /\ fs_total_size a = fs_total_size b /\ fs_used a = fs_used b
  /\ fs_free a = fs_free b.

(** A block of the listing: the lines before its opening line that
    belong to no block before it, the line that opens its record, the
    lines up to the blank line or the end of the listing, and the
    blank line if there is one. *)
Record block := {
  b_before : list string;
  b_label : string;
  b_body : list string;
  b_close : string
}.

Definition block_lines (b : block) : list string :=
  (b_before b ++ b_label b :: b_body b)%list.

(** Lines that open no record. *)
Definition idle (lines : list string) : bool :=
  forallb (fun raw => negb (opens_record raw)) lines.

(** Lines that close no record: none of them is blank while a record is
    open, [open] telling whether one is open before them. *)
Fixpoint no_close (open : bool) (lines : list string) : bool :=
  match lines with
  | [] => true
  | raw :: lines' =>
      if opens_record raw then no_close true lines'
      else if open && String.eqb (Py.strip raw) EmptyString then false
      else no_close open lines'
  end.

(** The lines before the block close no record (a record that they
    leave open is replaced by the block's); the opening line opens a
    record; no line of the body does, and none is blank. *)
Definition block_ok (b : block) : bool :=
  no_close false (b_before b)
  && opens_record (b_label b)
  && forallb (fun raw => negb (opens_record raw)
                         && negb (String.eqb (Py.strip raw) EmptyString))
       (b_body b).

(** A block that its blank line closes. *)
Definition closed_ok (b : block) : bool :=
  block_ok b && String.eqb (Py.strip (b_close b)) EmptyString.

Definition closed_lines (b : block) : list string :=
  (block_lines b ++ [b_close b])%list.

(** How a listing ends: in a block that is still open, or in lines
    outside any block. *)
Inductive ending :=
| Open (b : block)
| Idle (trailing : list string).

Definition ending_lines (e : ending) : list string :=
  match e with Open b => block_lines b | Idle trailing => trailing end.

Definition ending_ok (e : ending) : bool :=
  match e with Open b => block_ok b | Idle trailing => idle trailing end.

(** The lines of a listing: blocks that a blank line closes, then its
    ending. *)
Definition listing_lines (closed : list block) (e : ending) : list string :=
  (flat_map closed_lines closed ++ ending_lines e)%list.

(** The record that the [n]-th completed block (from 0) gives. *)
Definition describes (n : nat) (b : block) (r : filesystem) : Prop :=
  fs_id r = (Z.of_nat n + 1)%Z
  /\ fs_label r = Py.strip_char "'" (nth 1 (Py.split_ws (Py.strip (b_label b))) EmptyString)
  /\ fs_uuid r = nth 3 (Py.split_ws (Py.strip (b_label b))) EmptyString
  /\ fs_devices r = map Py.strip (List.filter is_device_line (b_body b))
  /\ fs_status r = (if existsb is_missing_line (b_body b) then "degraded" else "active")
  /\ fs_total_size r = 0%Z /\ fs_used r = 0%Z /\ fs_free r = 0%Z.

Fixpoint described (n : nat) (bs : list block) (rs : list filesystem) : Prop :=
  match bs, rs with
  | [], [] => True
  | b :: bs', r :: rs' => describes n b r /\ described (S n) bs' rs'
  | _, _ => False
  end.

(** The blocks of a listing in order, the open one included. *)
Definition all_blocks (closed : list block) (e : ending) : list block :=
  (closed ++ match e with Open b => [b] | Idle _ => [] end)%list.

(** The listing of two file systems. *)
Definition two_filesystems : string :=
  "Label: 'data'  uuid: 6a1f0c52-1111-4c7e-8d1c-0a52a1f4e001" ++ nl ++
  String "009" "Total devices 2 FS bytes used 1.00GiB" ++ nl ++
  String "009" "devid    1 size 10.00GiB used 2.00GiB path /dev/sda1" ++ nl ++
  String "009" "devid    2 size 10.00GiB used 2.00GiB path /dev/sdb1" ++ nl ++
  nl ++
  "Label: none  uuid: 9b2e7d13-2222-4f0a-b7a9-5c0de4b8f002" ++ nl ++
  String "009" "Total devices 1 FS bytes used 3.00GiB" ++ nl ++
  String "009" "devid    1 size 20.00GiB used 4.00GiB path /dev/sdc1" ++ nl ++
  nl.

(** The host of the listing [two_filesystems], nothing being mounted. *)
Definition two_filesystems_host : Host :=
  table_host [(Shell "btrfs filesystem show", completed 0 two_filesystems EmptyString)].

Definition data_block : block :=
  {| b_before := [];
     b_label := "Label: 'data'  uuid: 6a1f0c52-1111-4c7e-8d1c-0a52a1f4e001";
     b_body := [String "009" "Total devices 2 FS bytes used 1.00GiB";
                String "009" "devid    1 size 10.00GiB used 2.00GiB path /dev/sda1";
                String "009" "devid    2 size 10.00GiB used 2.00GiB path /dev/sdb1"];
     b_close := EmptyString |}.

Definition none_block : block :=
  {| b_before := [];
     b_label := "Label: none  uuid: 9b2e7d13-2222-4f0a-b7a9-5c0de4b8f002";
     b_body := [String "009" "Total devices 1 FS bytes used 3.00GiB";
                String "009" "devid    1 size 20.00GiB used 4.00GiB path /dev/sdc1"];
     b_close := EmptyString |}.

(** ** Snapshot listing *)

(** [a in s] for one character [a]. *)
Fixpoint has_char (a : ascii) (s : string) : bool :=
  match s with
  | EmptyString => false
  | String c s' => Ascii.eqb c a || has_char a s'
  end.

(** The snapshot that a list of fields gives: with at least six fields
    one snapshot, whose id, type, pre-number, date, user and
    description are the first to sixth field, the pre-number being
    absent when the third field is [-]. *)
Definition snapshot_of_fields (config : string) (fields : list string) : list snapshot :=
  match fields with
  | f1 :: f2 :: f3 :: f4 :: f5 :: f6 :: _ =>
      [{| snap_id := f1; snap_type := f2;
          snap_pre_num := if String.eqb f3 "-" then None else Some f3;
          snap_description := f6; snap_date := f4; snap_user_name := f5;
          snap_used_space := 0; snap_config := config |}]
  | _ => []
  end.

(** Follows the specification's words to the letter: the fields of a
    line are what the split on [|] gives. *)
Definition literal_snapshot (config line : string) : list snapshot :=
  snapshot_of_fields config (Py.split "|" line).

(** Follows the specification's words, with fields that are taken
    without their surrounding whitespace. *)
Definition spec_snapshot (config line : string) : list snapshot :=
  snapshot_of_fields config (map Py.strip (Py.split "|" (Py.strip line))).

(** The host of the example: one configuration with one snapshot. *)
Definition snapper_host : Host :=
  table_host
    [(Shell "snapper list-configs",
      completed 0 ("Config | Subvolume" ++ nl ++ "root   | /" ++ nl) EmptyString);
     (Shell "snapper -c root list",
      completed 0 ("# | Type | Pre # | Date | User | Description" ++ nl ++
                   "1|single|-|2024-01-01|root|init snapshot" ++ nl) EmptyString)].

(** A listing with padded fields and a line of five fields. *)
Definition padded_listing : string :=
  "# | Type | Pre # | Date | User | Description" ++ nl ++
  "1|single|-|2024-01-01|root|init snapshot" ++ nl ++
  "2 | pre | | 2024-01-02 | root" ++ nl ++
  " 3 | post | 2 | 2024-01-02 | root | after update | number " ++ nl.

Definition padded_host : Host :=
  table_host [(Shell "snapper -c root list", completed 0 padded_listing EmptyString)].

(** ** Device trees *)

(** Induction on a device tree: a property of the children gives it to
    the node. *)
Fixpoint device_tree_ind (P : device -> Prop)
    (step : forall attrs children, Forall P children -> P (Device attrs children))
    (d : device) : P d :=
  match d with
  | Device attrs children =>
      step attrs children
        ((fix all (l : list device) : Forall P l :=
            match l with
            | [] => @List.Forall_nil device P
            | c :: l' =>
                @List.Forall_cons device P c l' (device_tree_ind P step c) (all l')
            end) children)
  end.

(** The results of a list of calls, up to the first exception. *)
Fixpoint collect {A} (l : list (PyResult A)) : PyResult (list A) :=
  match l with
  | [] => Return []
  | r :: l' => a ← r; rest ← collect l'; Return (a :: rest)
  end.

(** Follows the specification's words: the depth-first traversal of a
    tree, a node before its children and the children in order, each
    node with the name that is prepended to its own: the parent's
    name, itself so built. *)
Fixpoint preorder (parent : string) (d : device) : list (string * gmap string pyval) :=
  match d with
  | Device attrs children =>
      (parent, attrs)
        :: flat_map (preorder (py_str (device_name parent attrs))) children
  end.

Definition record_of (node : string * gmap string pyval) : PyResult dev_info :=
  device_record (fst node) (snd node).

(** The tree of the example, as the listing tool prints it. *)
Definition sda1 : device :=
  Device (<[ "name" := PStr "sda1" ]> (<[ "size" := PStr "5G" ]>
         (<[ "type" := PStr "part" ]> (<[ "mountpoint" := PStr "/" ]>
         (<[ "fstype" := PStr "btrfs" ]> (<[ "model" := PNone ]>
         {[ "serial" := PNone ]})))))) [].

Definition sda : device :=
  Device (<[ "name" := PStr "sda" ]> (<[ "size" := PStr "10G" ]>
         (<[ "type" := PStr "disk" ]> (<[ "mountpoint" := PNone ]>
         (<[ "fstype" := PNone ]> (<[ "model" := PStr "Virtual disk" ]>
         {[ "serial" := PStr "0123" ]})))))) [sda1].

(** The same tree with the partition named by its number alone. *)
Definition sda_numbered : device :=
  Device (<[ "name" := PStr "sda" ]> {[ "size" := PStr "10G" ]})
    [Device (<[ "name" := PStr "1" ]> {[ "size" := PStr "5G" ]}) []].

(** A string as JSON writes it, between quotation marks. *)
Definition jstr (s : string) : string := String "034" s ++ String "034" EmptyString.

(** The listing of the tree [sda] as JSON text. *)
Definition sda_json : string :=
  "{" ++ jstr "blockdevices" ++ ": [{" ++
  jstr "name" ++ ":" ++ jstr "sda" ++ ", " ++ jstr "size" ++ ":" ++ jstr "10G" ++ ", " ++
  jstr "type" ++ ":" ++ jstr "disk" ++ ", " ++ jstr "mountpoint" ++ ":null, " ++
  jstr "fstype" ++ ":null, " ++ jstr "model" ++ ":" ++ jstr "Virtual disk" ++ ", " ++
  jstr "serial" ++ ":" ++ jstr "0123" ++ ", " ++ jstr "children" ++ ": [{" ++
  jstr "name" ++ ":" ++ jstr "sda1" ++ ", " ++ jstr "size" ++ ":" ++ jstr "5G" ++ ", " ++
  jstr "type" ++ ":" ++ jstr "part" ++ ", " ++ jstr "mountpoint" ++ ":" ++ jstr "/" ++ ", " ++
  jstr "fstype" ++ ":" ++ jstr "btrfs" ++ ", " ++ jstr "model" ++ ":null, " ++
  jstr "serial" ++ ":null}]}]}".

(** A reader of JSON that knows this one document. *)
Definition sda_loads (text : string) : PyResult (option (list device)) :=
  if String.eqb text sda_json then Return (Some [sda])
  else Raise (ValueError "Expecting value").

(** A device whose size entry has a minus sign. *)
Definition negative_device : device :=
  Device (<[ "name" := PStr "loop9" ]> {[ "size" := PStr "-1K" ]}) [].

(** ** Sizes *)

(** A float that is not below zero: its sign bit is clear. *)
Definition nonneg_float (x : spec_float) : Prop :=
  match x with
  | S754_zero s | S754_infinity s | S754_finite s _ _ => s = false
  | S754_nan => True
  end.

(** A digit or the decimal point: what a number begins with. *)
Definition starts_number (c : ascii) : bool := Py.is_digit c || Ascii.eqb c ".".

(** The rest of a string that begins with a minus sign and then a
    number. *)
Definition after_minus (s : string) : option string :=
  match s with
  | String "-" (String c x) => if starts_number c then Some (String c x) else None
  | _ => None
  end.

(** The size entry without the minus sign of its number, when it has
    one: the entry begins, after its leading whitespace, with a minus
    sign and then a digit or a point. *)
Definition without_minus (v : pyval) : option string :=
  match v with
  | PStr s => after_minus (Py.lstrip s)
  | PNone => None
  end.

(** How the size of a record follows from the size entry of its node:
    it is not below zero, but for an entry with a minus sign before
    its number, whose size is that of the entry without the sign,
    negated. *)
Definition size_of_entry (v : pyval) (size : Z) : Prop :=
  match without_minus v with
  | Some x => exists z, parse_size (PStr x) = Return z /\ (0 <= z)%Z /\ size = (- z)%Z
  | None => (0 <= size)%Z
  end.

(** The size entry of a node of the listing's tree. *)
Definition size_entry (node : string * gmap string pyval) : pyval :=
  dict_get (snd node) "size" (PStr "0").

(** The result with the opposite number. *)
Definition opp_result (r : PyResult Z) : PyResult Z :=
  match r with
  | Return z => Return (- z)%Z
  | Raise e => Raise e
  end.

(** ** Answers of the actions *)

(** The answer that an action makes from the exit status of its last
    command. *)
Definition answer (p : CompletedProcess) (message failure : string) : response :=
  if (returncode p =? 0)%Z then ok message else fail (failure ++ stderr p) 500.




(** The lines of the mount table that the actions search. *)
Definition mount_lines (p : CompletedProcess) : list string :=
  Py.split "010" (Py.strip (stdout p)).

(** A mount table with two file systems, the second one mounted below
    a directory whose name holds the UUID of the first. *)
Definition mount_table : string :=
  "/mnt/data /dev/sdb1[/@] 5f3c" ++ nl ++ "/srv/5f3c-copy /dev/sdc1".

(** The directory under which [api_mount] mounts a file system. *)
Definition mount_directory (uuid : string) : string := "/mnt/btrfs_" ++ Py.take 8 uuid.

(** The lookup of a device by the UUID of its file system. *)
Definition blkid_command (uuid : string) : list string := ["blkid"; "-U"; uuid].


(** ** What holds of every record of the file system inventory *)





(** ** Sizes that the parser cannot convert *)

Definition lsblk_command : string :=
  "lsblk -J -o NAME,SIZE,TYPE,MOUNTPOINT,FSTYPE,MODEL,SERIAL".

(** The size entry of a node makes [parse_size] raise. *)
Definition size_raises (attrs : gmap string pyval) : bool :=
  match parse_size (dict_get attrs "size" (PStr "0")) with
  | Raise _ => true
  | Return _ => false
  end.

(** Some node of the tree has such a size entry. *)
Fixpoint some_size_raises (d : device) : bool :=
  match d with
  | Device attrs children => size_raises attrs || existsb some_size_raises children
  end.

(** A disk of which one partition has a size beyond the floats. *)
Definition huge_partition : device :=
  Device (<[ "name" := PStr "sdb" ]> {[ "size" := PStr "1T" ]})
    [Device (<[ "name" := PStr "sdb1" ]> {[ "size" := PStr "1e400K" ]}) []].

(** ** What holds of every snapshot *)






(** ** System information *)

(** A host with the three sources of [get_system_info]. *)
Definition proc_host : Host :=
  table_host
    [(Shell "hostname", completed 0 ("nas" ++ nl) EmptyString);
     (Shell "cat /proc/uptime", completed 0 ("93784.12 1234.50" ++ nl) EmptyString);
     (Shell "cat /proc/loadavg",
      completed 0 ("0.52 0.58 0.59 1/467 12345" ++ nl) EmptyString)].

(** ** Hosts of the further examples *)

Definition example_uuid : string := "0c3e4a55-7b0e-4d4e-9f59-2f1d6c0a1b77".

(** A mount table of three file systems: the second has the UUID of
    the example in its source, the third in its mount point. *)
Definition example_table : string :=
  "/home /dev/sda3" ++ nl
  ++ "/mnt/data /dev/disk/by-uuid/" ++ example_uuid ++ nl
  ++ "/srv/" ++ example_uuid ++ " /dev/sdc1" ++ nl.

(** A host on which the file system of the example is known and
    mounted, and on which the commands of the actions work. *)
Definition mounted_host : Host :=
  table_host
    [(Argv (blkid_command example_uuid), completed 0 ("/dev/sdb1" ++ nl) EmptyString);
     (Argv findmnt_command, completed 0 example_table EmptyString);
     (Argv ["mount"; "/dev/sdb1"; mount_directory example_uuid],
      completed 0 EmptyString EmptyString);
     (Argv ["umount"; "/mnt/data"], completed 0 EmptyString EmptyString);
     (Argv ["btrfs"; "device"; "add"; "/dev/sdd"; "/mnt/data"],
      completed 0 EmptyString EmptyString);
     (Argv ["mkfs.btrfs"; "/dev/sdd"], completed 0 EmptyString EmptyString);
     (Argv ["snapper"; "-c"; "root"; "delete"; "None"],
      completed 1 EmptyString "Invalid snapshot 'None'.");
     (Argv (resize_command "raid1" "/mnt/data"), completed 0 EmptyString EmptyString)].

(** A host on which the file system of the example is known and not
    mounted. *)
Definition known_host : Host :=
  table_host
    [(Argv (blkid_command example_uuid), completed 0 ("/dev/sdb1" ++ nl) EmptyString);
     (Argv findmnt_command, completed 0 ("/home /dev/sda3" ++ nl) EmptyString)].

(** The host [mounted_host] with a file system root that cannot be
    written. *)
Definition readonly_host : Host :=
  {| host_run := host_run mounted_host;
     host_makedirs := fun _ path =>
       Raise (OSError "[Errno 30] Read-only file system: '/mnt'") |}.

(** A host on which the uptime cannot be read. *)
Definition no_proc_host : Host :=
  table_host [(Shell "hostname", completed 0 ("nas" ++ nl) EmptyString)].

(** * Properties *)

(** ** Command executor *)

Section Executor.
Context (host : Host).

Lemma run_shell_completed check cmd tr p :
  host_run host tr (Shell cmd) = Return p ->
  run_shell host check cmd tr =
    (if check && negb (returncode p =? 0)%Z
     then Raise (CalledProcessError p) else Return p,
     (tr ++ [Spawn (Shell cmd)])%list).
Proof.
  intros Hp. unfold run_shell. rewrite Hp.
  destruct (check && negb (returncode p =? 0)%Z); reflexivity.
Qed.

Lemma run_shell_raised check cmd tr e :
  host_run host tr (Shell cmd) = Raise e ->
  run_shell host check cmd tr = (Raise e, (tr ++ [Spawn (Shell cmd)])%list).
Proof. intros Hp. unfold run_shell. rewrite Hp. reflexivity. Qed.

Lemma run_command_returns cmd tr p :
  host_run host tr (Shell cmd) = Return p ->
  run_command host cmd tr =
    (Return (if (returncode p =? 0)%Z
             then Py.strip (stdout p)
             else "Error: " ++ stderr p),
     (tr ++ [Spawn (Shell cmd)])%list).
Proof.
  intros Hp. unfold run_command, try_except, mbind, M_bind.
  rewrite (run_shell_completed true cmd tr p Hp). simpl.
  destruct (returncode p =? 0)%Z; reflexivity.
Qed.

(** C2 (as amended).  [run_command] never raises on a non-zero exit
    status: when the process completes, it returns the standard output
    without its surrounding whitespace if the status is zero, and the
    text [Error: ] followed by the standard error otherwise.  The exit
    status is no part of what it returns. *)
Theorem run_command_completed cmd tr p :
  host_run host tr (Shell cmd) = Return p ->
  run_command host cmd tr =
    (Return (if (returncode p =? 0)%Z
             then Py.strip (stdout p)
             else "Error: " ++ stderr p),
     (tr ++ [Spawn (Shell cmd)])%list).
Proof. exact (run_command_returns cmd tr p). Qed.

End Executor.

Lemma run_command_completed_witness :
  run_command (const_host (completed 2 "partial" "no such device"))
    "btrfs filesystem show" [] =
  (Return "Error: no such device", [Spawn (Shell "btrfs filesystem show")]).
Proof.
  exact (run_command_completed
           (const_host (completed 2 "partial" "no such device"))
           "btrfs filesystem show" []
           (completed 2 "partial" "no such device") eq_refl).
Defined.

(** C2 (as stated) fails: nothing computed from the result of
    [run_command] is the exit status.  A command that exits with 1 and
    [boom] on its standard error, and one that exits with 0 and prints
    [Error: boom], give the same result. *)
Lemma run_command_hides_exit_status :
  ~ exists status_of : string -> Z,
      forall host cmd tr p out tr',
        host_run host tr (Shell cmd) = Return p ->
        run_command host cmd tr = (Return out, tr') ->
        status_of out = returncode p.
Proof.
  intros [status_of H].
  pose proof (H (const_host (completed 1 EmptyString "boom")) "snapper list-configs" []
                (completed 1 EmptyString "boom") "Error: boom" _ eq_refl eq_refl) as H1.
  pose proof (H (const_host (completed 0 "Error: boom" EmptyString)) "snapper list-configs" []
                (completed 0 "Error: boom" EmptyString) "Error: boom" _ eq_refl eq_refl) as H0.
  simpl in H0, H1. congruence.
Qed.

(** ** Mount *)

Section Actions.
Context (host : Host).

Lemma run_argv_completed args a tr p :
  argv_strings args = Some a ->
  host_run host tr (Argv a) = Return p ->
  run_argv host args tr = (Return p, (tr ++ [Spawn (Argv a)])%list).
Proof. intros Ha Hp. unfold run_argv. rewrite Ha, Hp. reflexivity. Qed.

Lemma run_argv_raised args a tr e :
  argv_strings args = Some a ->
  host_run host tr (Argv a) = Raise e ->
  run_argv host args tr = (Raise e, (tr ++ [Spawn (Argv a)])%list).
Proof. intros Ha Hp. unfold run_argv. rewrite Ha, Hp. reflexivity. Qed.

Lemma run_argv_refused args tr :
  argv_strings args = None ->
  exists msg, run_argv host args tr = (Raise (TypeError msg), tr).
Proof. intros Ha. unfold run_argv. rewrite Ha. eauto. Qed.

(** C4.  When the lookup of the request's UUID completes with an empty
    device path (standard output empty or blank), [api_mount] answers
    with status 404 and the message [Device with UUID ... not found],
    and the lookup is the only host event of the call: no directory is
    made and no mount process is started. *)
Theorem api_mount_unresolved data uuid tr p :
  dict_get data "uuid" PNone = PStr uuid ->
  host_run host tr (Argv ["blkid"; "-U"; uuid]) = Return p ->
  Py.strip (stdout p) = EmptyString ->
  api_mount host data tr =
    (Return (Error ("Device with UUID " ++ uuid ++ " not found"), 404%Z),
     (tr ++ [Spawn (Argv ["blkid"; "-U"; uuid])])%list).
Proof.
  intros Hu Hp Hempty.
  unfold api_mount, try_except, mbind, M_bind. rewrite Hu.
  rewrite (run_argv_completed [PStr "blkid"; PStr "-U"; PStr uuid]
             ["blkid"; "-U"; uuid] tr p eq_refl Hp).
  rewrite Hempty. reflexivity.
Qed.

End Actions.

Lemma api_mount_unresolved_witness :
  api_mount (const_host (completed 2 nl EmptyString))
    {[ "uuid" := PStr "0c3e4a55-7b0e-4d4e-9f59-2f1d6c0a1b77" ]} [] =
  (Return (Error "Device with UUID 0c3e4a55-7b0e-4d4e-9f59-2f1d6c0a1b77 not found", 404%Z),
   [Spawn (Argv ["blkid"; "-U"; "0c3e4a55-7b0e-4d4e-9f59-2f1d6c0a1b77"])]).
Proof.
  exact (api_mount_unresolved (const_host (completed 2 nl EmptyString))
           {[ "uuid" := PStr "0c3e4a55-7b0e-4d4e-9f59-2f1d6c0a1b77" ]}
           "0c3e4a55-7b0e-4d4e-9f59-2f1d6c0a1b77" []
           (completed 2 nl EmptyString) eq_refl eq_refl eq_refl).
Defined.

(** ** Change of RAID profile *)

Lemma is_valid_profile_In profile :
  In profile valid_profiles -> is_valid_profile (PStr profile) = true.
Proof.
  intros H. unfold is_valid_profile. apply existsb_exists.
  exists profile. split; [exact H | apply String.eqb_refl].
Qed.

Section ChangeRaid.
Context (host : Host).

(** C1 (as amended).  For a request whose profile is one of the six
    valid ones: (1) when the resize command exits non-zero and the
    balance command exits zero, the answer is the success message of
    the conversion path, with status 200; (2) that message is not the
    one of the resize path; (3) when both commands exit non-zero, the
    answer is an error with status 500 whose text holds the standard
    error of both; (4) an error answer has status 500 and is returned
    only when both commands exit non-zero, with that text, or when
    running a command raises an exception (the file system of the
    request is no string, or the process cannot be started), its text
    then being the exception's. *)
Theorem api_change_raid_outcomes data profile tr :
  dict_get data "profile" PNone = PStr profile ->
  In profile valid_profiles ->
  (forall fs p1 p2,
      dict_get data "filesystem" PNone = PStr fs ->
      host_run host tr (Argv (resize_command profile fs)) = Return p1 ->
      returncode p1 <> 0%Z ->
      host_run host (tr ++ [Spawn (Argv (resize_command profile fs))])%list
        (Argv (balance_command profile fs)) = Return p2 ->
      returncode p2 = 0%Z ->
      api_change_raid host data tr =
        (Return (Message (started_conversion profile), 200%Z),
         (tr ++ [Spawn (Argv (resize_command profile fs));
                 Spawn (Argv (balance_command profile fs))])%list))
  /\ started_conversion profile <> changed_profile profile
  /\ (forall fs p1 p2,
         dict_get data "filesystem" PNone = PStr fs ->
         host_run host tr (Argv (resize_command profile fs)) = Return p1 ->
         returncode p1 <> 0%Z ->
         host_run host (tr ++ [Spawn (Argv (resize_command profile fs))])%list
           (Argv (balance_command profile fs)) = Return p2 ->
         returncode p2 <> 0%Z ->
         api_change_raid host data tr =
           (Return (Error ("RAID change failed: " ++ stderr p1 ++ nl ++ "Alternative: "
                           ++ stderr p2), 500%Z),
            (tr ++ [Spawn (Argv (resize_command profile fs));
                    Spawn (Argv (balance_command profile fs))])%list))
  /\ (forall text status tr',
         api_change_raid host data tr = (Return (Error text, status), tr') ->
         status = 500%Z /\
         ((exists fs p1 p2,
              dict_get data "filesystem" PNone = PStr fs /\
              host_run host tr (Argv (resize_command profile fs)) = Return p1 /\
              returncode p1 <> 0%Z /\
              host_run host (tr ++ [Spawn (Argv (resize_command profile fs))])%list
                (Argv (balance_command profile fs)) = Return p2 /\
              returncode p2 <> 0%Z /\
              text = "RAID change failed: " ++ stderr p1 ++ nl ++ "Alternative: "
                     ++ stderr p2)
          \/ (exists e,
                 text = exn_str e /\
                 (dict_get data "filesystem" PNone = PNone
                  \/ (exists fs,
                         dict_get data "filesystem" PNone = PStr fs /\
                         host_run host tr (Argv (resize_command profile fs)) = Raise e)
                  \/ (exists fs p1,
                         dict_get data "filesystem" PNone = PStr fs /\
                         host_run host tr (Argv (resize_command profile fs)) = Return p1 /\
                         returncode p1 <> 0%Z /\
                         host_run host (tr ++ [Spawn (Argv (resize_command profile fs))])%list
                           (Argv (balance_command profile fs)) = Raise e))))).
Proof.
  intros Hprofile Hvalid.
  pose proof (is_valid_profile_In profile Hvalid) as Hv.
  unfold resize_command, balance_command.
  split; [| split; [| split]].
  - intros fs p1 p2 Hfs H1 Hrc1 H2 Hrc2.
    unfold api_change_raid, try_except, mbind, M_bind, run_argv.
    rewrite Hprofile, Hfs, Hv. cbn [negb py_str argv_strings option_map].
    rewrite H1. apply Z.eqb_neq in Hrc1. rewrite Hrc1, H2, Hrc2.
    cbn. rewrite <- app_assoc. reflexivity.
  - unfold started_conversion, changed_profile. cbn. intros H. discriminate H.
  - intros fs p1 p2 Hfs H1 Hrc1 H2 Hrc2.
    unfold api_change_raid, try_except, mbind, M_bind, run_argv.
    rewrite Hprofile, Hfs, Hv. cbn [negb py_str argv_strings option_map].
    rewrite H1. apply Z.eqb_neq in Hrc1. apply Z.eqb_neq in Hrc2.
    rewrite Hrc1, H2, Hrc2.
    cbn. rewrite <- app_assoc. reflexivity.
  - intros text status tr'.
    unfold api_change_raid, try_except, mbind, M_bind, run_argv.
    rewrite Hprofile, Hv. cbn [negb py_str].
    destruct (dict_get data "filesystem" PNone) as [|fs] eqn:Hfs;
      cbn [argv_strings option_map].
    + cbn. intros H. injection H as <- <- <-. split; [reflexivity|].
      right. exists (TypeError "expected str, bytes or os.PathLike object, not NoneType").
      split; [reflexivity|]. left. reflexivity.
    + destruct (host_run host tr _) as [p1|e1] eqn:H1.
      * destruct (returncode p1 =? 0)%Z eqn:Hrc1; [cbn; intros H; discriminate H|].
        apply Z.eqb_neq in Hrc1.
        destruct (host_run host (tr ++ _)%list _) as [p2|e2] eqn:H2.
        -- destruct (returncode p2 =? 0)%Z eqn:Hrc2; [cbn; intros H; discriminate H|].
           apply Z.eqb_neq in Hrc2.
           cbn. intros H. injection H as <- <- <-. split; [reflexivity|].
           left. exists fs, p1, p2. repeat split; auto.
        -- cbn. intros H. injection H as <- <- <-. split; [reflexivity|].
           right. exists e2. split; [reflexivity|]. right. right.
           exists fs, p1. auto.
      * cbn. intros H. injection H as <- <- <-. split; [reflexivity|].
        right. exists e1. split; [reflexivity|]. right. left. exists fs. auto.
Qed.

End ChangeRaid.

Lemma api_change_raid_outcomes_witness :
  api_change_raid balance_only_host
    (<[ "filesystem" := PStr "/mnt/data" ]> {[ "profile" := PStr "raid1" ]}) [] =
  (Return (Message "Successfully started RAID conversion to raid1", 200%Z),
   [Spawn (Argv (resize_command "raid1" "/mnt/data"));
    Spawn (Argv (balance_command "raid1" "/mnt/data"))]).
Proof.
  refine (proj1 (api_change_raid_outcomes balance_only_host
                   (<[ "filesystem" := PStr "/mnt/data" ]> {[ "profile" := PStr "raid1" ]})
                   "raid1" [] eq_refl _)
            "/mnt/data"
            (completed 1 EmptyString "not found")
            (completed 0 "Done, had to relocate 3 out of 3 chunks" EmptyString)
            eq_refl eq_refl _ eq_refl eq_refl);
    [simpl; tauto | discriminate].
Defined.

(** C1 (as stated) fails: an error is returned although no command has
    exited non-zero.  A request with a valid profile and no
    [filesystem] entry is answered with status 500 before any process
    is started, on a host where every command would exit with zero; so
    is every request on a host without the [btrfs] program. *)
Lemma api_change_raid_error_without_exit :
  api_change_raid (const_host (completed 0 EmptyString EmptyString))
    {[ "profile" := PStr "raid1" ]} [] =
  (Return (Error "expected str, bytes or os.PathLike object, not NoneType", 500%Z), [])
  /\ api_change_raid no_btrfs_host
       (<[ "filesystem" := PStr "/mnt/data" ]> {[ "profile" := PStr "raid1" ]}) [] =
     (Return (Error "[Errno 2] No such file or directory: 'btrfs'", 500%Z),
      [Spawn (Argv (resize_command "raid1" "/mnt/data"))]).
Proof. split; reflexivity. Qed.

(** ** RAID profile collector *)

Section Raid.
Context (host : Host).

(** C8 (as amended).  When the listing tool completes, [get_raid_status]
    returns the one placeholder record if the exit status is zero,
    whatever the tool has printed, and the empty list otherwise. *)
Theorem get_raid_status_placeholder tr p :
  host_run host tr (Shell "btrfs filesystem show") = Return p ->
  get_raid_status host tr =
    (Return (if (returncode p =? 0)%Z then [placeholder] else []),
     (tr ++ [Spawn (Shell "btrfs filesystem show")])%list).
Proof.
  intros Hp. unfold get_raid_status, try_except, mbind, M_bind.
  rewrite (run_shell_completed host false _ tr p Hp). cbn [andb].
  destruct (returncode p =? 0)%Z; reflexivity.
Qed.

End Raid.

Lemma get_raid_status_placeholder_witness :
  get_raid_status (const_host (completed 0 two_filesystems EmptyString)) [] =
  (Return [placeholder], [Spawn (Shell "btrfs filesystem show")]).
Proof.
  exact (get_raid_status_placeholder
           (const_host (completed 0 two_filesystems EmptyString)) []
           (completed 0 two_filesystems EmptyString) eq_refl).
Defined.

(** C8 (as stated) fails: when the listing tool exits non-zero the
    collector returns no record at all, whatever the tool has printed,
    here the listing of two file systems. *)
Lemma get_raid_status_tool_failure :
  get_raid_status
    (const_host (completed 1 two_filesystems "ERROR: cannot scan /dev/sdd")) [] =
  (Return [], [Spawn (Shell "btrfs filesystem show")]).
Proof. reflexivity. Qed.

(** ** Filesystem inventory collector *)

Lemma for_each_app {A S} (body : S -> A -> M S) (l1 l2 : list A) (st : S) tr :
  for_each body (l1 ++ l2)%list st tr =
  match for_each body l1 st tr with
  | (Return st', tr') => for_each body l2 st' tr'
  | (Raise e, tr') => (Raise e, tr')
  end.
Proof.
  revert st tr. induction l1 as [|x l1 IH]; intros st tr.
  - reflexivity.
  - cbn [for_each app]. unfold mbind, M_bind.
    destruct (body st x tr) as [[st'|e] tr']; [apply IH | reflexivity].
Qed.

Section Filesystems.
Context (host : Host).

(** C10.  A line that begins with [Label:] (as the parser reads it,
    without its surrounding whitespace) and has fewer than four
    whitespace-separated tokens changes nothing: the parser state after
    it is the state before it (the open record, if any, stays open and
    no record is appended) and no host event happens; hence the parse of
    a listing with such a line is the parse of the listing without it,
    and the lines after it apply to the record that was open before. *)
Theorem truncated_label_dropped raw :
  Py.startswith (Py.strip raw) "Label:" = true ->
  (length (Py.split_ws (Py.strip raw)) < 4)%nat ->
  (forall st tr, fs_line host st raw tr = (Return st, tr))
  /\ (forall pre post st tr,
         for_each (fs_line host) (pre ++ raw :: post)%list st tr =
         for_each (fs_line host) (pre ++ post)%list st tr)
  /\ (forall pre post tr,
         parse_filesystems host (pre ++ raw :: post)%list tr =
         parse_filesystems host (pre ++ post)%list tr).
Proof.
  intros Hlabel Hshort.
  assert (Hstep : forall st tr, fs_line host st raw tr = (Return st, tr)).
  { intros [filesystems current_fs] tr. unfold fs_line. rewrite Hlabel.
    apply Nat.leb_gt in Hshort. rewrite Hshort. reflexivity. }
  assert (Hloop : forall pre post st tr,
             for_each (fs_line host) (pre ++ raw :: post)%list st tr =
             for_each (fs_line host) (pre ++ post)%list st tr).
  { intros pre post st tr. rewrite !for_each_app.
    destruct (for_each (fs_line host) pre st tr) as [[st'|e] tr']; [|reflexivity].
    cbn [for_each]. unfold mbind, M_bind. rewrite Hstep. reflexivity. }
  split; [exact Hstep | split; [exact Hloop |]].
  intros pre post tr. unfold parse_filesystems, mbind, M_bind.
  rewrite Hloop. reflexivity.
Qed.

End Filesystems.

Lemma truncated_label_dropped_witness :
  parse_filesystems unmounted_host
    ["Label: none  uuid: 9b2e7d13-2222-4f0a-b7a9-5c0de4b8f002";
     "Label: none";
     "devid    1 size 20.00GiB used 4.00GiB path /dev/sdc1";
     "*** Some devices missing"; EmptyString] [] =
  parse_filesystems unmounted_host
    ["Label: none  uuid: 9b2e7d13-2222-4f0a-b7a9-5c0de4b8f002";
     "devid    1 size 20.00GiB used 4.00GiB path /dev/sdc1";
     "*** Some devices missing"; EmptyString] [].
Proof.
  refine (proj2 (proj2 (truncated_label_dropped unmounted_host "Label: none" eq_refl _))
            ["Label: none  uuid: 9b2e7d13-2222-4f0a-b7a9-5c0de4b8f002"]
            ["devid    1 size 20.00GiB used 4.00GiB path /dev/sdc1";
             "*** Some devices missing"; EmptyString] []).
  vm_compute. lia.
Defined.

Lemma startswith_other_first s c p c' p' :
  Py.startswith s (String c p) = true -> c <> c' ->
  Py.startswith s (String c' p') = false.
Proof.
  unfold Py.startswith. destruct s as [|a s]; cbn; [discriminate|].
  destruct (Ascii.ascii_dec c a) as [->|]; [|discriminate].
  intros _ Hne. destruct (Ascii.ascii_dec c' a) as [->|]; [congruence|reflexivity].
Qed.

Lemma same_core_refl a : same_core a a.
Proof. repeat split. Qed.

Lemma same_core_trans a b c : same_core a b -> same_core b c -> same_core a c.
Proof. unfold same_core. intuition congruence. Qed.

Lemma body_step_devices fs raw :
  fs_devices (body_step fs raw) =
  (fs_devices fs ++ (if is_device_line raw then [Py.strip raw] else []))%list.
Proof.
  unfold body_step. destruct (is_device_line raw); [reflexivity|].
  destruct (is_missing_line raw); cbn; rewrite app_nil_r; reflexivity.
Qed.

Lemma body_step_status fs raw :
  fs_status (body_step fs raw) =
  if negb (is_device_line raw) && is_missing_line raw then "degraded" else fs_status fs.
Proof.
  unfold body_step. destruct (is_device_line raw); [reflexivity|].
  destruct (is_missing_line raw); reflexivity.
Qed.

Lemma body_step_fixed fs raw :
  fs_label (body_step fs raw) = fs_label fs
  /\ fs_uuid (body_step fs raw) = fs_uuid fs
  /\ fs_id (body_step fs raw) = fs_id fs
  /\ fs_total_size (body_step fs raw) = fs_total_size fs
  /\ fs_used (body_step fs raw) = fs_used fs
  /\ fs_free (body_step fs raw) = fs_free fs.
Proof.
  unfold body_step. destruct (is_device_line raw); [repeat split|].
  destruct (is_missing_line raw); repeat split.
Qed.

Lemma device_line_not_missing raw :
  is_device_line raw = true -> is_missing_line raw = false.
Proof.
  unfold is_device_line, is_missing_line. intros H.
  apply andb_prop in H as [H _].
  apply orb_prop in H as [H|H]; [apply orb_prop in H as [H|H]|];
    (eapply startswith_other_first; [exact H | discriminate]).
Qed.

Section FilesystemBlocks.
Context (host : Host).

Lemma lookup_mount_core uuid fs tr :
  exists fs' tr', lookup_mount host uuid fs tr = (Return fs', tr') /\ same_core fs fs'.
Proof.
  unfold lookup_mount, try_except, mbind, M_bind, run_shell. cbn [andb].
  destruct (host_run host tr _) as [p|e]; [|eauto using same_core_refl].
  destruct (returncode p =? 0)%Z; [|eauto using same_core_refl].
  destruct (Py.split_ws (Py.strip (stdout p))) as [|target ?];
    [eauto using same_core_refl|].
  destruct (host_run host _ _) as [q|e]; [|eexists _, _; split; [reflexivity|repeat split]].
  destruct (returncode q =? 0)%Z; [|eexists _, _; split; [reflexivity|repeat split]].
  destruct (Py.split_ws (Py.strip (stdout q))) as [|opts ?];
    eexists _, _; (split; [reflexivity|repeat split]).
Qed.

(** A line that opens a record: the new record replaces the open one. *)
Lemma fs_line_opens filesystems current_fs raw tr :
  opens_record raw = true ->
  exists fs tr',
    fs_line host (filesystems, current_fs) raw tr = (Return (filesystems, Some fs), tr')
    /\ same_core
         (new_filesystem
            (Py.strip_char "'" (nth 1 (Py.split_ws (Py.strip raw)) EmptyString))
            (nth 3 (Py.split_ws (Py.strip raw)) EmptyString) filesystems) fs.
Proof.
  unfold opens_record. intros H. apply andb_prop in H as [Hlabel Hlen].
  unfold fs_line. rewrite Hlabel, Hlen. unfold mbind, M_bind.
  destruct (lookup_mount_core
              (nth 3 (Py.split_ws (Py.strip raw)) EmptyString)
              (new_filesystem
                 (Py.strip_char "'" (nth 1 (Py.split_ws (Py.strip raw)) EmptyString))
                 (nth 3 (Py.split_ws (Py.strip raw)) EmptyString) filesystems) tr)
    as (fs' & tr' & Heq & Hcore).
  rewrite Heq. eauto.
Qed.

(** A line inside a block: neither the start of a record nor blank. *)
Lemma fs_line_body filesystems fs raw tr :
  opens_record raw = false ->
  Py.strip raw <> EmptyString ->
  fs_line host (filesystems, Some fs) raw tr =
  (Return (filesystems, Some (body_step fs raw)), tr).
Proof.
  intros Hopen Hblank. unfold fs_line, body_step.
  destruct (Py.startswith (Py.strip raw) "Label:") eqn:Hlabel.
  - unfold opens_record in Hopen. rewrite Hlabel, andb_true_l in Hopen.
    rewrite Hopen.
    assert (Hdev : is_device_line raw = false).
    { unfold is_device_line.
      rewrite !(startswith_other_first _ _ _ _ _ Hlabel) by discriminate.
      reflexivity. }
    assert (Hmiss : is_missing_line raw = false).
    { unfold is_missing_line.
      eapply startswith_other_first; [exact Hlabel | discriminate]. }
    rewrite Hdev, Hmiss. reflexivity.
  - unfold is_device_line.
    destruct (Py.startswith (Py.strip raw) "Total devices:"
              || Py.startswith (Py.strip raw) "devid"
              || Py.startswith (Py.strip raw) "Device location:") eqn:Hprefix.
    + cbn [andb]. destruct (Py.contains "devid" (Py.strip raw)) eqn:Hin; [reflexivity|].
      assert (Hmiss : is_missing_line raw = false).
      { unfold is_missing_line.
        apply orb_prop in Hprefix as [Hp|Hp]; [apply orb_prop in Hp as [Hp|Hp]|];
          (eapply startswith_other_first; [exact Hp | discriminate]). }
      rewrite Hmiss. reflexivity.
    + cbn [andb]. unfold is_missing_line.
      destruct (Py.startswith (Py.strip raw) "*** Some devices missing"); [reflexivity|].
      destruct (String.eqb (Py.strip raw) EmptyString) eqn:Hempty; [|reflexivity].
      apply String.eqb_eq in Hempty. contradiction.
Qed.

(** A line outside any block that opens no record does nothing. *)
Lemma fs_line_idle filesystems raw tr :
  opens_record raw = false ->
  fs_line host (filesystems, None) raw tr = (Return (filesystems, None), tr).
Proof.
  intros Hopen. unfold fs_line.
  destruct (Py.startswith (Py.strip raw) "Label:") eqn:Hlabel.
  - unfold opens_record in Hopen. rewrite Hlabel, andb_true_l in Hopen.
    rewrite Hopen. reflexivity.
  - destruct (_ || _); [reflexivity|].
    destruct (Py.startswith (Py.strip raw) "*** Some devices missing"); reflexivity.
Qed.

End FilesystemBlocks.

Lemma fold_body_devices body fs :
  fs_devices (fold_left body_step body fs) =
  (fs_devices fs ++ map Py.strip (List.filter is_device_line body))%list.
Proof.
  revert fs. induction body as [|raw body IH]; intros fs; cbn [fold_left List.filter map].
  - rewrite app_nil_r. reflexivity.
  - rewrite IH, body_step_devices.
    destruct (is_device_line raw); cbn [map]; rewrite <- app_assoc; reflexivity.
Qed.

Lemma fold_body_status body fs :
  fs_status (fold_left body_step body fs) =
  if existsb is_missing_line body then "degraded" else fs_status fs.
Proof.
  revert fs. induction body as [|raw body IH]; intros fs; cbn [fold_left existsb].
  - reflexivity.
  - rewrite IH, body_step_status.
    destruct (is_device_line raw) eqn:Hdev.
    + rewrite (device_line_not_missing raw Hdev). reflexivity.
    + destruct (is_missing_line raw); cbn [negb andb orb]; [|reflexivity].
      destruct (existsb is_missing_line body); reflexivity.
Qed.

Lemma fold_body_fixed body fs :
  fs_label (fold_left body_step body fs) = fs_label fs
  /\ fs_uuid (fold_left body_step body fs) = fs_uuid fs
  /\ fs_id (fold_left body_step body fs) = fs_id fs
  /\ fs_total_size (fold_left body_step body fs) = fs_total_size fs
  /\ fs_used (fold_left body_step body fs) = fs_used fs
  /\ fs_free (fold_left body_step body fs) = fs_free fs.
Proof.
  revert fs. induction body as [|raw body IH]; intros fs; cbn [fold_left].
  - repeat split.
  - destruct (IH (body_step fs raw)) as (H1 & H2 & H3 & H4 & H5 & H6).
    destruct (body_step_fixed fs raw) as (G1 & G2 & G3 & G4 & G5 & G6).
    repeat split; congruence.
Qed.

Section Listing.
Context (host : Host).

Lemma for_each_body filesystems fs body tr :
  forallb (fun raw => negb (opens_record raw)
                      && negb (String.eqb (Py.strip raw) EmptyString)) body = true ->
  for_each (fs_line host) body (filesystems, Some fs) tr =
  (Return (filesystems, Some (fold_left body_step body fs)), tr).
Proof.
  revert fs. induction body as [|raw body IH]; intros fs Hok; cbn [for_each fold_left].
  - reflexivity.
  - cbn [forallb] in Hok. apply andb_prop in Hok as [Hraw Hok].
    apply andb_prop in Hraw as [Hopen Hblank].
    apply negb_true_iff in Hopen. apply negb_true_iff in Hblank.
    apply String.eqb_neq in Hblank.
    unfold mbind, M_bind. rewrite (fs_line_body host filesystems fs raw tr Hopen Hblank).
    apply IH. exact Hok.
Qed.

Lemma fs_line_blank filesystems fs raw tr :
  Py.strip raw = EmptyString ->
  fs_line host (filesystems, Some fs) raw tr =
  (Return ((filesystems ++ [fs])%list, None), tr).
Proof. intros H. unfold fs_line. rewrite H. reflexivity. Qed.

Lemma for_each_idle filesystems lines tr :
  idle lines = true ->
  for_each (fs_line host) lines (filesystems, None) tr =
  (Return (filesystems, None), tr).
Proof.
  induction lines as [|raw lines IH]; cbn [for_each idle forallb]; [reflexivity|].
  intros H. apply andb_prop in H as [Hraw Hrest]. apply negb_true_iff in Hraw.
  unfold mbind, M_bind. rewrite (fs_line_idle host filesystems raw tr Hraw).
  exact (IH Hrest).
Qed.

Lemma for_each_no_close filesystems (current_fs : option filesystem) lines tr :
  no_close (match current_fs with Some _ => true | None => false end) lines = true ->
  exists current_fs' tr',
    for_each (fs_line host) lines (filesystems, current_fs) tr =
    (Return (filesystems, current_fs'), tr').
Proof.
  revert current_fs tr.
  induction lines as [|raw lines IH]; intros current_fs tr; cbn [for_each no_close].
  - eauto.
  - unfold mbind, M_bind. destruct (opens_record raw) eqn:Hopen.
    + intros H.
      destruct (fs_line_opens host filesystems current_fs raw tr Hopen)
        as (fs & tr1 & -> & _).
      exact (IH (Some fs) tr1 H).
    + destruct current_fs as [fs|]; cbn [andb].
      * destruct (String.eqb (Py.strip raw) EmptyString) eqn:Hblank; [discriminate|].
        apply String.eqb_neq in Hblank. intros H.
        rewrite (fs_line_body host filesystems fs raw tr Hopen Hblank).
        exact (IH (Some (body_step fs raw)) tr H).
      * intros H. rewrite (fs_line_idle host filesystems raw tr Hopen).
        exact (IH None tr H).
Qed.

(** An open block: the record it leaves open. *)
Lemma for_each_block filesystems b tr :
  block_ok b = true ->
  exists r tr',
    for_each (fs_line host) (block_lines b) (filesystems, None) tr =
    (Return (filesystems, Some r), tr')
    /\ describes (length filesystems) b r.
Proof.
  unfold block_ok. intros Hok. apply andb_prop in Hok as [Hok Hbody].
  apply andb_prop in Hok as [Hbefore Hlabel].
  destruct (for_each_no_close filesystems None (b_before b) tr Hbefore)
    as (current_fs & tr0 & Hprefix).
  destruct (fs_line_opens host filesystems current_fs (b_label b) tr0 Hlabel)
    as (fs & tr' & Hline & Hcore).
  exists (fold_left body_step (b_body b) fs), tr'. split.
  - unfold block_lines. rewrite for_each_app, Hprefix.
    cbn [for_each]. unfold mbind, M_bind. rewrite Hline.
    apply for_each_body. exact Hbody.
  - destruct Hcore as (C1 & C2 & C3 & C4 & C5 & C6 & C7 & C8).
    destruct (fold_body_fixed (b_body b) fs) as (F1 & F2 & F3 & F4 & F5 & F6).
    unfold describes.
    rewrite fold_body_devices, fold_body_status, F1, F2, F3, F4, F5, F6.
    rewrite <- C1, <- C2, <- C3, <- C4, <- C5, <- C6, <- C7, <- C8.
    cbn. repeat split.
Qed.

Lemma described_app n bs1 rs1 bs2 rs2 :
  described n bs1 rs1 -> described (n + length bs1) bs2 rs2 ->
  described n (bs1 ++ bs2)%list (rs1 ++ rs2)%list.
Proof.
  revert n rs1. induction bs1 as [|b bs1 IH]; intros n [|r rs1]; cbn; try tauto.
  - rewrite Nat.add_0_r. tauto.
  - intros [Hb Hrest] H2. split; [exact Hb|]. apply IH; [exact Hrest|].
    replace (S n + length bs1)%nat with (n + S (length bs1))%nat by lia. exact H2.
Qed.

Lemma described_length n bs rs : described n bs rs -> length rs = length bs.
Proof.
  revert n rs. induction bs as [|b bs IH]; intros n [|r rs]; cbn; try tauto.
  intros [_ H]. f_equal. eapply IH. exact H.
Qed.

(** Blocks that a blank line closes: one record each, in order. *)
Lemma for_each_closed closed filesystems tr :
  forallb closed_ok closed = true ->
  exists rs tr',
    for_each (fs_line host) (flat_map closed_lines closed) (filesystems, None) tr =
    (Return ((filesystems ++ rs)%list, None), tr')
    /\ described (length filesystems) closed rs.
Proof.
  revert filesystems tr.
  induction closed as [|b closed IH]; intros filesystems tr Hok.
  - exists [], tr. rewrite app_nil_r. split; [reflexivity | exact I].
  - cbn [forallb] in Hok. apply andb_prop in Hok as [Hb Hok].
    unfold closed_ok in Hb. apply andb_prop in Hb as [Hb Hblank].
    apply String.eqb_eq in Hblank.
    destruct (for_each_block filesystems b tr Hb) as (r & tr1 & Hblock & Hdesc).
    destruct (IH (filesystems ++ [r])%list tr1 Hok) as (rs & tr2 & Hrest & Hdescs).
    exists (r :: rs), tr2. split.
    + cbn [flat_map]. unfold closed_lines at 1. rewrite !for_each_app, Hblock.
      cbn [for_each app]. unfold mbind at 1, M_bind at 1.
      rewrite (fs_line_blank filesystems r (b_close b) tr1 Hblank).
      unfold mret, M_ret. rewrite Hrest, <- app_assoc. reflexivity.
    + cbn [described]. split; [exact Hdesc|].
      rewrite length_app in Hdescs. cbn [length] in Hdescs.
      replace (S (length filesystems)) with (length filesystems + 1)%nat by lia.
      exact Hdescs.
Qed.

Lemma query_usage_returns u fs tr :
  exists tr', query_usage host u fs tr = (Return tt, tr').
Proof.
  unfold query_usage, try_except, mbind, M_bind.
  destruct (run_shell host false _ tr) as [[p|e] tr']; eauto.
Qed.

Lemma for_each_query_usage filesystems tr :
  exists tr', for_each (query_usage host) filesystems tt tr = (Return tt, tr').
Proof.
  revert tr. induction filesystems as [|fs l IH]; intros tr; cbn [for_each].
  - eauto.
  - unfold mbind, M_bind.
    destruct (query_usage_returns tt fs tr) as (tr1 & ->). apply IH.
Qed.

End Listing.

(** *** Every listing is a sequence of blocks *)

Lemma no_close_app open l1 l2 :
  no_close open (l1 ++ l2)%list =
  no_close open l1 && no_close (open || existsb opens_record l1) l2.
Proof.
  revert open. induction l1 as [|raw l1 IH]; intros open; cbn [app no_close existsb].
  - rewrite orb_false_r. reflexivity.
  - destruct (opens_record raw); cbn [orb].
    + rewrite IH, orb_true_r. reflexivity.
    + destruct (open && String.eqb (Py.strip raw) EmptyString); [reflexivity|].
      apply IH.
Qed.

(** The first blank line that closes a record. *)
Lemma split_first_close open lines :
  no_close open lines = false ->
  exists pre blank rest,
    lines = (pre ++ blank :: rest)%list
    /\ no_close open pre = true
    /\ open || existsb opens_record pre = true
    /\ Py.strip blank = EmptyString.
Proof.
  revert open. induction lines as [|raw lines IH]; intros open; cbn [no_close].
  - discriminate.
  - destruct (opens_record raw) eqn:Hopen.
    + intros H. destruct (IH true H) as (pre & blank & rest & -> & Hpre & _ & Hblank).
      exists (raw :: pre), blank, rest. cbn [no_close existsb app]. rewrite Hopen.
      rewrite orb_true_r. auto.
    + destruct (open && String.eqb (Py.strip raw) EmptyString) eqn:Hclose.
      * intros _. apply andb_prop in Hclose as [-> Hblank].
        apply String.eqb_eq in Hblank.
        exists [], raw, lines. auto.
      * intros H. destruct (IH open H) as (pre & blank & rest & -> & Hpre & Hopened & Hblank).
        exists (raw :: pre), blank, rest. cbn [no_close existsb app].
        rewrite Hopen, Hclose. auto.
Qed.

Lemma not_exists_idle lines :
  existsb opens_record lines = false -> idle lines = true.
Proof.
  induction lines as [|raw lines IH]; cbn [existsb idle forallb]; [reflexivity|].
  intros H. apply orb_false_elim in H as [-> H]. exact (IH H).
Qed.

(** The last line that opens a record. *)
Lemma split_last_opening lines :
  existsb opens_record lines = true ->
  exists before label body,
    lines = (before ++ label :: body)%list
    /\ opens_record label = true
    /\ idle body = true.
Proof.
  induction lines as [|raw lines IH]; cbn [existsb]; [discriminate|].
  destruct (existsb opens_record lines) eqn:Hlater.
  - intros _. destruct (IH eq_refl) as (before & label & body & -> & Hlabel & Hbody).
    exists (raw :: before), label, body. auto.
  - rewrite orb_false_r. intros Hraw.
    exists [], raw, lines. auto using not_exists_idle.
Qed.

Lemma no_close_idle body :
  idle body = true -> no_close true body = true ->
  forallb (fun raw => negb (opens_record raw)
                      && negb (String.eqb (Py.strip raw) EmptyString)) body = true.
Proof.
  induction body as [|raw body IH]; cbn [idle forallb no_close]; [reflexivity|].
  intros H. apply andb_prop in H as [Hraw Hidle].
  apply negb_true_iff in Hraw. rewrite Hraw. cbn [andb negb].
  destruct (String.eqb (Py.strip raw) EmptyString); [discriminate|].
  intros H. exact (IH Hidle H).
Qed.

(** Lines that close no record and open one form a block that is open. *)
Lemma block_of_lines lines blank :
  no_close false lines = true ->
  existsb opens_record lines = true ->
  exists b, block_lines b = lines /\ block_ok b = true /\ b_close b = blank.
Proof.
  intros Hclose Hopens.
  destruct (split_last_opening lines Hopens) as (before & label & body & -> & Hlabel & Hbody).
  rewrite no_close_app in Hclose. apply andb_prop in Hclose as [Hbefore Hrest].
  cbn [no_close] in Hrest. rewrite Hlabel in Hrest.
  exists {| b_before := before; b_label := label; b_body := body; b_close := blank |}.
  split; [reflexivity|]. split; [|reflexivity].
  unfold block_ok. cbn. rewrite Hbefore, Hlabel. cbn [andb].
  exact (no_close_idle body Hbody Hrest).
Qed.

(** Every list of lines is a listing: blocks that a blank line closes
    and an ending. *)
Lemma listing_complete lines :
  exists closed e,
    lines = listing_lines closed e
    /\ forallb closed_ok closed = true
    /\ ending_ok e = true.
Proof.
  remember (length lines) as n eqn:Hn.
  assert (Hle : length lines <= n) by lia. clear Hn.
  revert lines Hle. induction n as [|n IH]; intros lines Hle.
  - destruct lines; [|cbn in Hle; lia].
    exists [], (Idle []). auto.
  - destruct (no_close false lines) eqn:Hclose.
    + destruct (existsb opens_record lines) eqn:Hopens.
      * destruct (block_of_lines lines EmptyString Hclose Hopens) as (b & Hb & Hok & _).
        exists [], (Open b). cbn. auto.
      * exists [], (Idle lines). cbn. auto using not_exists_idle.
    + destruct (split_first_close false lines Hclose)
        as (pre & blank & rest & -> & Hpre & Hopened & Hblank).
      cbn [orb] in Hopened.
      destruct (block_of_lines pre blank Hpre Hopened) as (b & Hb & Hok & Hb_close).
      destruct (IH rest) as (closed & e & -> & Hclosed & He).
      { rewrite length_app in Hle. cbn [length] in Hle. lia. }
      exists (b :: closed), e. split; [|split; [|exact He]].
      * unfold listing_lines. cbn [flat_map].
        replace (closed_lines b) with (pre ++ [blank])%list
          by (unfold closed_lines; rewrite Hb, Hb_close; reflexivity).
        rewrite <- !app_assoc. reflexivity.
      * cbn [forallb]. unfold closed_ok at 1.
        rewrite Hok, Hb_close, Hblank, Hclosed. reflexivity.
Qed.

Section ListingTheorem.
Context (host : Host).

(** C3 (as amended).  The parser works on every line without its
    surrounding whitespace.  When the listing tool exits with zero and
    its output consists of blocks, each opened by a line that begins
    with [Label:] and has at least four tokens, each closed by a blank
    line or, the last one, by the end of the output, and of lines
    between the blocks that close no record (a record that such lines
    open is replaced by the next block's and counts for nothing), the
    collector returns one record per block, in order.  The [n]-th
    block (from 0) gives the id [n + 1], the label and UUID of its
    opening line (second token without quotes, fourth token), as
    devices the lines between its opening line and its end
    that begin with [Total devices:], [devid] or [Device location:] and
    contain [devid], without their surrounding whitespace and in
    order, and the status [degraded] if a line of the block begins with
    [*** Some devices missing], [active] otherwise; the sizes are zero.
    A line of a block that opens no record and is none of these changes
    nothing.  Every output has this form ([listing_complete]). *)
Theorem get_btrfs_filesystems_blocks tr p closed e :
  host_run host tr (Shell "btrfs filesystem show") = Return p ->
  returncode p = 0%Z ->
  Py.split "010" (stdout p) = listing_lines closed e ->
  forallb closed_ok closed = true ->
  ending_ok e = true ->
  exists rs tr',
    get_btrfs_filesystems host tr = (Return rs, tr')
    /\ described 0 (all_blocks closed e) rs.
Proof.
  intros Hp Hrc Hsplit Hclosed Hend.
  destruct (for_each_closed host closed []
              (tr ++ [Spawn (Shell "btrfs filesystem show")])%list Hclosed)
    as (rs & tr1 & Hrun & Hdesc).
  cbn [app length] in Hrun, Hdesc.
  assert (Hparse : exists rs' tr2,
             parse_filesystems host (listing_lines closed e)
               (tr ++ [Spawn (Shell "btrfs filesystem show")])%list
             = (Return rs', tr2)
             /\ described 0 (all_blocks closed e) rs').
  { unfold parse_filesystems, listing_lines, all_blocks, mbind, M_bind.
    rewrite for_each_app, Hrun.
    destruct e as [b|trailing]; cbn [ending_lines ending_ok] in *.
    - destruct (for_each_block host rs b tr1 Hend) as (r & tr2 & Hblock & Hr).
      rewrite Hblock. exists (rs ++ [r])%list, tr2. split; [reflexivity|].
      apply described_app; [exact Hdesc|].
      rewrite <- (described_length 0 closed rs Hdesc). cbn. split; [exact Hr | exact I].
    - rewrite (for_each_idle host rs trailing tr1 Hend).
      exists rs, tr1. split; [reflexivity|]. rewrite app_nil_r. exact Hdesc. }
  destruct Hparse as (rs' & tr2 & Hparse & Hdesc').
  destruct (for_each_query_usage host rs' tr2) as (tr3 & Husage).
  exists rs', tr3. split; [|exact Hdesc'].
  unfold get_btrfs_filesystems, try_except, mbind, M_bind.
  rewrite (run_shell_completed host false _ tr p Hp). cbn [andb].
  apply Z.eqb_eq in Hrc. rewrite Hrc. cbn [negb].
  rewrite Hsplit, Hparse, Husage. reflexivity.
Qed.

End ListingTheorem.

Lemma get_btrfs_filesystems_blocks_witness :
  exists rs tr',
    get_btrfs_filesystems two_filesystems_host [] = (Return rs, tr')
    /\ described 0 [data_block; none_block] rs.
Proof.
  exact (get_btrfs_filesystems_blocks two_filesystems_host []
           (completed 0 two_filesystems EmptyString)
           [data_block; none_block] (Idle [EmptyString])
           eq_refl eq_refl eq_refl eq_refl eq_refl).
Defined.

(** C3 (as stated) fails.  (1) A line that contains [devid] while a
    record is open is not appended when it begins otherwise.  (2) A line
    that begins with [Label:] and has fewer than four tokens opens no
    record, so nothing is appended at the end of the input.  (3) A
    device line is not stored verbatim: the tab before [devid] in the
    tool's output is removed. *)
Lemma parser_not_as_stated :
  (exists r,
      fst (parse_filesystems unmounted_host
             ["Label: none  uuid: 9b2e7d13-2222-4f0a-b7a9-5c0de4b8f002";
              "path /dev/sdc1 devid 1"; EmptyString] []) = Return [r]
      /\ fs_devices r = [])
  /\ fst (parse_filesystems unmounted_host ["Label: backup"] []) = Return []
  /\ (exists r,
         fst (parse_filesystems unmounted_host
                ["Label: none  uuid: 9b2e7d13-2222-4f0a-b7a9-5c0de4b8f002";
                 String "009" "devid    1 size 20.00GiB used 4.00GiB path /dev/sdc1";
                 EmptyString] []) = Return [r]
         /\ fs_devices r = ["devid    1 size 20.00GiB used 4.00GiB path /dev/sdc1"]).
Proof.
  split; [|split].
  - eexists. split; reflexivity.
  - reflexivity.
  - eexists. split; reflexivity.
Qed.

(** ** Snapshot collector *)

Lemma split_no_sep sep s : has_char sep s = false -> Py.split sep s = [s].
Proof.
  induction s as [|c s IH]; cbn [has_char Py.split]; [reflexivity|].
  intros H. apply orb_false_elim in H as [Hc Hs].
  rewrite Hc, (IH Hs). reflexivity.
Qed.

Lemma split_app_sep sep h t :
  has_char sep h = false ->
  Py.split sep (h ++ String sep t) = h :: Py.split sep t.
Proof.
  induction h as [|c h IH]; simpl.
  - intros _. rewrite Ascii.eqb_refl. reflexivity.
  - intros H. apply orb_false_elim in H as [Hc Hh].
    rewrite Hc, (IH Hh). reflexivity.
Qed.

(** The lines of a text are the lines it was joined from. *)
Lemma split_join_lines first rest :
  forallb (fun l => negb (has_char "010" l)) (first :: rest) = true ->
  Py.split "010" (Py.join nl (first :: rest)) = first :: rest.
Proof.
  revert first. induction rest as [|l rest IH]; intros first H;
    cbn [forallb] in H; apply andb_prop in H as [Hfirst Hrest];
    apply negb_true_iff in Hfirst.
  - cbn [Py.join]. apply split_no_sep. exact Hfirst.
  - change (Py.join nl (first :: l :: rest))
      with (first ++ String "010" (Py.join nl (l :: rest))).
    rewrite (split_app_sep _ _ _ Hfirst), (IH l Hrest). reflexivity.
Qed.

Lemma snapshot_line_spec config snapshots line :
  snapshot_line config snapshots line = (snapshots ++ spec_snapshot config line)%list.
Proof.
  unfold snapshot_line, spec_snapshot, snapshot_of_fields.
  destruct (Py.split "|" (Py.strip line)) as [|f1 [|f2 [|f3 [|f4 [|f5 [|f6 r]]]]]];
    cbn [length Nat.leb map nth]; try (rewrite app_nil_r; reflexivity).
  destruct (String.eqb (Py.strip f3) "-"); reflexivity.
Qed.

Lemma fold_snapshot_lines config lines snapshots :
  fold_left (snapshot_line config) lines snapshots =
  (snapshots ++ flat_map (spec_snapshot config) lines)%list.
Proof.
  revert snapshots. induction lines as [|l lines IH]; intros snapshots;
    cbn [fold_left flat_map].
  - rewrite app_nil_r. reflexivity.
  - rewrite IH, snapshot_line_spec, <- app_assoc. reflexivity.
Qed.

Lemma parse_snapshots_lines config snapshots header lines :
  forallb (fun l => negb (has_char "010" l)) (header :: lines) = true ->
  parse_snapshots config snapshots (Py.join nl (header :: lines)) =
  (snapshots ++ flat_map (spec_snapshot config) lines)%list.
Proof.
  intros Hlines. unfold parse_snapshots.
  rewrite (split_join_lines header lines Hlines).
  cbn [tail]. apply fold_snapshot_lines.
Qed.

Section Snapshots.
Context (host : Host).

(** C7 (as amended).  When the listing of a configuration, as the
    command executor returns it (the standard output of a successful
    run without its surrounding whitespace), is a header line followed
    by data lines, the collector adds to the snapshots collected so
    far, for each data line in order and nothing for the header: one
    snapshot for a line with at least six fields, with id, type,
    pre-number, date, user and description from the first to the
    sixth field, each without its surrounding whitespace, and no
    pre-number when the third field so taken is [-]; nothing for a
    line with fewer fields.  The data line
    [1|single|-|2024-01-01|root|init snapshot] under a header gives
    exactly one snapshot, without pre-number. *)
Theorem snapshots_of_config_spec config snapshots tr p header lines :
  host_run host tr (Shell ("snapper -c " ++ config ++ " list")) = Return p ->
  returncode p = 0%Z ->
  Py.strip (stdout p) = Py.join nl (header :: lines) ->
  forallb (fun l => negb (has_char "010" l)) (header :: lines) = true ->
  snapshots_of_config host snapshots config tr =
    (Return (snapshots ++ flat_map (spec_snapshot config) lines)%list,
     (tr ++ [Spawn (Shell ("snapper -c " ++ config ++ " list"))])%list)
  /\ fst (get_snapshots snapper_host []) =
     Return [{| snap_id := "1"; snap_type := "single"; snap_pre_num := None;
                snap_description := "init snapshot"; snap_date := "2024-01-01";
                snap_user_name := "root"; snap_used_space := 0;
                snap_config := "root" |}].
Proof.
  intros Hp Hrc Hout Hlines. split; [|reflexivity].
  unfold snapshots_of_config, try_except, mbind, M_bind.
  rewrite (run_command_returns host _ tr p Hp), Hrc. cbn [Z.eqb].
  rewrite Hout. unfold mret, M_ret.
  rewrite (parse_snapshots_lines config snapshots header lines Hlines). reflexivity.
Qed.

End Snapshots.

Lemma snapshots_of_config_spec_witness :
  snapshots_of_config padded_host [] "root" [] =
  (Return
     [{| snap_id := "1"; snap_type := "single"; snap_pre_num := None;
         snap_description := "init snapshot"; snap_date := "2024-01-01";
         snap_user_name := "root"; snap_used_space := 0; snap_config := "root" |};
      {| snap_id := "3"; snap_type := "post"; snap_pre_num := Some "2";
         snap_description := "after update"; snap_date := "2024-01-02";
         snap_user_name := "root"; snap_used_space := 0; snap_config := "root" |}],
   [Spawn (Shell "snapper -c root list")]).
Proof.
  exact (proj1 (snapshots_of_config_spec padded_host "root" [] []
                  (completed 0 padded_listing EmptyString)
                  "# | Type | Pre # | Date | User | Description"
                  ["1|single|-|2024-01-01|root|init snapshot";
                   "2 | pre | | 2024-01-02 | root";
                   " 3 | post | 2 | 2024-01-02 | root | after update | number"]
                  eq_refl eq_refl eq_refl eq_refl)).
Defined.

(** C7 (as stated) fails: the fields are not mapped as the split gives
    them.  For a data line with padded fields the id is [1], not the
    first field [1 ] with its blank, and the pre-number is absent
    although the third field is [ - ], not the literal [-]. *)
Lemma padded_fields_trimmed :
  parse_snapshots "root" []
    (Py.join nl ["# | Type | Pre # | Date | User | Description";
                 "1 | single | - | 2024-01-01 | root | init snapshot"]) =
  [{| snap_id := "1"; snap_type := "single"; snap_pre_num := None;
      snap_description := "init snapshot"; snap_date := "2024-01-01";
      snap_user_name := "root"; snap_used_space := 0; snap_config := "root" |}]
  /\ literal_snapshot "root" "1 | single | - | 2024-01-01 | root | init snapshot" =
  [{| snap_id := "1 "; snap_type := " single "; snap_pre_num := Some " - ";
      snap_description := " init snapshot"; snap_date := " 2024-01-01 ";
      snap_user_name := " root "; snap_used_space := 0; snap_config := "root" |}]
  /\ parse_snapshots "root" []
       (Py.join nl ["# | Type | Pre # | Date | User | Description";
                    "1 | single | - | 2024-01-01 | root | init snapshot"]) <>
     flat_map (literal_snapshot "root")
       ["1 | single | - | 2024-01-01 | root | init snapshot"].
Proof. repeat split. vm_compute. discriminate. Qed.

(** ** Device inventory collector *)

Lemma collect_app {A} (l1 l2 : list (PyResult A)) :
  collect (l1 ++ l2)%list = (a ← collect l1; b ← collect l2; Return (a ++ b)%list).
Proof.
  induction l1 as [|r l1 IH]; cbn [collect app]; unfold mbind, PyResult_bind.
  - destruct (collect l2); reflexivity.
  - destruct r as [a|e]; [|reflexivity]. rewrite IH. unfold mbind, PyResult_bind.
    destruct (collect l1); [|reflexivity]. destruct (collect l2); reflexivity.
Qed.

(** The name of a record is the parent's name followed by the node's. *)
Lemma device_name_concat parent attrs :
  py_str (device_name parent attrs) =
  parent ++ py_str (dict_get attrs "name" (PStr EmptyString)).
Proof. unfold device_name. destruct parent; reflexivity. Qed.

Lemma for_devices_collect f g (l : list device) :
  Forall (fun d => f d = collect (map record_of (g d))) l ->
  for_devices f l = collect (map record_of (flat_map g l)).
Proof.
  induction 1 as [|d l Hd _ IH]; cbn [for_devices flat_map map]; [reflexivity|].
  rewrite map_app, collect_app, Hd.
  fold (for_devices f l). rewrite IH. reflexivity.
Qed.

Lemma extract_device_preorder d :
  forall parent, extract_device parent d = collect (map record_of (preorder parent d)).
Proof.
  induction d as [attrs children IH] using device_tree_ind. intros parent.
  cbn [extract_device preorder map collect]. unfold record_of at 1. cbn [fst snd].
  rewrite (for_devices_collect
             (extract_device (py_str (device_name parent attrs)))
             (preorder (py_str (device_name parent attrs))) children).
  - reflexivity.
  - eapply Forall_impl; [exact IH|]. intros d Hd. apply Hd.
Qed.

Lemma extract_devices_collect blockdevices parent :
  extract_devices blockdevices parent =
  collect (map record_of (flat_map (preorder parent) blockdevices)).
Proof.
  unfold extract_devices. apply for_devices_collect. apply Forall_forall.
  intros d _. apply extract_device_preorder.
Qed.

Lemma collect_length {A} (l : list (PyResult A)) out :
  collect l = Return out -> length out = length l.
Proof.
  revert out. induction l as [|r l IH]; intros out; cbn [collect].
  - intros [= <-]. reflexivity.
  - unfold mbind, PyResult_bind. destruct r as [a|e]; [|discriminate].
    destruct (collect l) as [rest|e]; [|discriminate].
    intros [= <-]. cbn [length]. rewrite (IH rest eq_refl). reflexivity.
Qed.

(** C6 (as amended).  [extract_devices] is the depth-first traversal:
    it gives the records of the nodes in preorder, a child after its
    parent and named by the parent's record name followed by its own
    name, unless the size of a node cannot be converted; the list it
    returns has one record per node.  For the tree [sda] with the
    child [sda1] the records are named [sda] and [sdasda1], in that
    order, the second with the type, mount point, file system type,
    model and serial of [sda1] and its size in bytes; a child named
    [1] gives the record [sda1]. *)
Theorem extract_devices_preorder :
  (forall blockdevices parent,
      extract_devices blockdevices parent =
      collect (map record_of (flat_map (preorder parent) blockdevices)))
  /\ (forall blockdevices parent records,
         extract_devices blockdevices parent = Return records ->
         length records = length (flat_map (preorder parent) blockdevices))
  /\ (forall parent attrs,
         py_str (device_name parent attrs) =
         parent ++ py_str (dict_get attrs "name" (PStr EmptyString)))
  /\ extract_devices [sda] EmptyString =
     Return [{| dev_name := PStr "sda"; dev_size := 10737418240;
                dev_type := PStr "disk"; dev_mount_point := PNone;
                dev_fstype := PNone; dev_model := PStr "Virtual disk";
                dev_serial := PStr "0123" |};
             {| dev_name := PStr "sdasda1"; dev_size := 5368709120;
                dev_type := PStr "part"; dev_mount_point := PStr "/";
                dev_fstype := PStr "btrfs"; dev_model := PNone;
                dev_serial := PNone |}]
  /\ (r ← extract_devices [sda_numbered] EmptyString; Return (map dev_name r)) =
     Return [PStr "sda"; PStr "sda1"].
Proof.
  split; [|split; [|split; [|split]]].
  - apply extract_devices_collect.
  - intros blockdevices parent records H.
    rewrite extract_devices_collect in H.
    rewrite (collect_length _ _ H), length_map. reflexivity.
  - apply device_name_concat.
  - vm_compute. reflexivity.
  - vm_compute. reflexivity.
Qed.

Lemma extract_devices_preorder_witness :
  length [{| dev_name := PStr "sda"; dev_size := 10737418240;
             dev_type := PStr EmptyString; dev_mount_point := PStr EmptyString;
             dev_fstype := PStr EmptyString; dev_model := PStr EmptyString;
             dev_serial := PStr EmptyString |};
          {| dev_name := PStr "sda1"; dev_size := 5368709120;
             dev_type := PStr EmptyString; dev_mount_point := PStr EmptyString;
             dev_fstype := PStr EmptyString; dev_model := PStr EmptyString;
             dev_serial := PStr EmptyString |}] =
  length (flat_map (preorder EmptyString) [sda_numbered]).
Proof.
  refine (proj1 (proj2 extract_devices_preorder) [sda_numbered] EmptyString _ _).
  vm_compute. reflexivity.
Defined.

(** C6 (as stated) fails: for the tree [sda] with the child [sda1] no
    record is named [sda1]; the child's record is named [sdasda1]. *)
Lemma no_record_named_sda1 :
  exists records,
    extract_devices [sda] EmptyString = Return records
    /\ map dev_name records = [PStr "sda"; PStr "sdasda1"]
    /\ ~ In (PStr "sda1") (map dev_name records).
Proof.
  eexists. split; [vm_compute; reflexivity|]. split; [reflexivity|].
  cbn. intros [H|[H|[]]]; discriminate H.
Qed.

(** ** Sizes *)

(** *** The sign of a float *)

Lemma binary_round_aux_nonneg m e l :
  nonneg_float (binary_round_aux Float.prec Float.emax false m e l).
Proof.
  unfold binary_round_aux.
  destruct (shr_fexp Float.prec Float.emax m e l) as [mrs' e'].
  destruct (shr_fexp Float.prec Float.emax _ e' loc_Exact) as [mrs'' e''].
  destruct (shr_m mrs''); cbn; auto.
  destruct (e'' <=? Float.emax - Float.prec)%Z; cbn; auto.
Qed.

Lemma binary_round_aux_opp s m e l :
  binary_round_aux Float.prec Float.emax (negb s) m e l =
  SFopp (binary_round_aux Float.prec Float.emax s m e l).
Proof.
  unfold binary_round_aux.
  destruct (shr_fexp Float.prec Float.emax m e l) as [mrs' e'].
  destruct (shr_fexp Float.prec Float.emax _ e' loc_Exact) as [mrs'' e''].
  destruct (shr_m mrs''); cbn; auto.
  destruct (e'' <=? Float.emax - Float.prec)%Z; reflexivity.
Qed.

Lemma of_decimal_opp m e10 :
  Float.of_decimal true m e10 = SFopp (Float.of_decimal false m e10).
Proof.
  unfold Float.of_decimal, Float.of_ratio.
  destruct (0 <=? e10)%Z.
  - destruct (m * 10 ^ e10 =? 0)%Z; [reflexivity|].
    destruct (SFdiv_core_binary _ _ _ _ _ _) as [[q e] l].
    exact (binary_round_aux_opp false q e l).
  - destruct (m =? 0)%Z; [reflexivity|].
    destruct (SFdiv_core_binary _ _ _ _ _ _) as [[q e] l].
    exact (binary_round_aux_opp false q e l).
Qed.

Lemma of_decimal_nonneg m e10 : nonneg_float (Float.of_decimal false m e10).
Proof.
  unfold Float.of_decimal, Float.of_ratio.
  destruct (0 <=? e10)%Z.
  - destruct (m * 10 ^ e10 =? 0)%Z; [reflexivity|].
    destruct (SFdiv_core_binary _ _ _ _ _ _) as [[q e] l].
    apply binary_round_aux_nonneg.
  - destruct (m =? 0)%Z; [reflexivity|].
    destruct (SFdiv_core_binary _ _ _ _ _ _) as [[q e] l].
    apply binary_round_aux_nonneg.
Qed.

(** What [parse_decimal] reads does not depend on the sign, which it
    hands to [of_decimal]. *)
Lemma parse_decimal_of_decimal neg s x :
  Float.parse_decimal neg s = Some x ->
  exists m e10, x = Float.of_decimal neg m e10
                /\ Float.parse_decimal (negb neg) s = Some (Float.of_decimal (negb neg) m e10).
Proof.
  unfold Float.parse_decimal.
  destruct (Float.read_digits s 0 0) as [[ip ni] s1].
  match goal with
  | |- context [let '(_, _) := ?t in _] => destruct t as [[m nf] s2]
  end.
  destruct (ni + nf =? 0)%Z; [discriminate|].
  match goal with
  | |- context [let '(_, _) := ?t in _] => destruct t as [ex s3]
  end.
  destruct s3; [|discriminate]. intros [= <-]. eauto.
Qed.

Lemma parse_decimal_none neg s :
  Float.parse_decimal neg s = None -> Float.parse_decimal (negb neg) s = None.
Proof.
  unfold Float.parse_decimal.
  destruct (Float.read_digits s 0 0) as [[ip ni] s1].
  match goal with
  | |- context [let '(_, _) := ?t in _] => destruct t as [[m nf] s2]
  end.
  destruct (ni + nf =? 0)%Z; [reflexivity|].
  match goal with
  | |- context [let '(_, _) := ?t in _] => destruct t as [ex s3]
  end.
  destruct s3; [discriminate | reflexivity].
Qed.

Lemma parse_decimal_opp s :
  Float.parse_decimal true s = option_map SFopp (Float.parse_decimal false s).
Proof.
  destruct (Float.parse_decimal false s) as [x|] eqn:Hx.
  - destruct (parse_decimal_of_decimal false s x Hx) as (m & e10 & -> & Ht).
    cbn [negb] in Ht. rewrite Ht. cbn [option_map]. rewrite of_decimal_opp. reflexivity.
  - exact (parse_decimal_none false s Hx).
Qed.

(** A number begins with a digit or a point. *)
Lemma parse_decimal_starts neg s x :
  Float.parse_decimal neg s = Some x ->
  exists c s', s = String c s' /\ starts_number c = true.
Proof.
  unfold Float.parse_decimal, starts_number.
  destruct s as [|c s']; [cbn; discriminate|].
  intros H. exists c, s'. split; [reflexivity|].
  destruct (Py.is_digit c) eqn:Hc; [reflexivity|].
  cbn [Float.read_digits] in H. rewrite Hc in H.
  destruct (Ascii.eqb_spec c ".") as [->|Hne]; [reflexivity|].
  exfalso. destruct c as [[] [] [] [] [] [] [] []]; cbn in H; try discriminate H.
  contradiction.
Qed.

Lemma parse_decimal_sign neg s sg m e :
  Float.parse_decimal neg s = Some (S754_finite sg m e) -> sg = neg.
Proof.
  intros H. destruct (parse_decimal_of_decimal neg s _ H) as (m' & e10 & Heq & _).
  destruct neg.
  - rewrite of_decimal_opp in Heq. pose proof (of_decimal_nonneg m' e10) as Hn.
    destruct (Float.of_decimal false m' e10); cbn in Heq, Hn; try discriminate Heq.
    injection Heq as -> _ _. subst. reflexivity.
  - pose proof (of_decimal_nonneg m' e10) as Hn. rewrite <- Heq in Hn. exact Hn.
Qed.

Lemma of_int_nonneg z : (0 < z)%Z -> nonneg_float (Float.of_int z).
Proof.
  destruct z as [|p|p]; try lia. intros _.
  unfold Float.of_int, binary_normalize, binary_round.
  destruct (shl_align _ _ _) as [mz ez]. apply binary_round_aux_nonneg.
Qed.

Lemma mul_nonneg x y :
  nonneg_float x -> nonneg_float y -> nonneg_float (Float.mul x y).
Proof.
  unfold Float.mul.
  destruct x as [sx|sx| |sx mx ex], y as [sy|sy| |sy my ey]; cbn;
    try (intros -> ->; reflexivity); try (intros; exact I).
  intros -> ->. apply binary_round_aux_nonneg.
Qed.

Lemma mul_opp x y : Float.mul (SFopp x) y = SFopp (Float.mul x y).
Proof.
  unfold Float.mul.
  destruct x as [sx|sx| |sx mx ex], y as [sy|sy| |sy my ey]; cbn;
    try reflexivity; try (destruct sx, sy; reflexivity).
  rewrite <- binary_round_aux_opp. destruct sx, sy; reflexivity.
Qed.

Lemma to_int_nonneg x z :
  nonneg_float x -> Float.to_int x = Return z -> (0 <= z)%Z.
Proof.
  destruct x as [s|s| |s m e]; cbn; try discriminate.
  - intros _ [= <-]. lia.
  - intros -> [= <-]. destruct (0 <=? e)%Z eqn:He.
    + apply Z.leb_le in He. apply Z.mul_nonneg_nonneg; [lia|].
      apply Z.pow_nonneg. lia.
    + apply Z.leb_gt in He. apply Z.div_pos; [lia|].
      apply Z.pow_pos_nonneg; lia.
Qed.

Lemma to_int_opp x : Float.to_int (SFopp x) = opp_result (Float.to_int x).
Proof.
  destruct x as [s|s| |s m e]; cbn; try reflexivity.
  destruct s; cbn; f_equal; lia.
Qed.

(** A product that is below zero as an integer has a finite factor
    below zero. *)
Lemma to_int_mul_negative num y z :
  nonneg_float y ->
  Float.to_int (Float.mul num y) = Return z -> (z < 0)%Z ->
  exists m e, num = S754_finite true m e.
Proof.
  intros Hy Hz Hneg.
  destruct num as [s|s| |[] m e]; try (eexists _, _; reflexivity); exfalso.
  - unfold Float.mul in Hz. destruct y as [sy|sy| |sy my ey]; cbn in Hz;
      try discriminate Hz; injection Hz as <-; lia.
  - unfold Float.mul in Hz. destruct y as [sy|sy| |sy my ey]; cbn in Hz; discriminate Hz.
  - unfold Float.mul in Hz. destruct y as [sy|sy| |sy my ey]; cbn in Hz; discriminate Hz.
  - pose proof (to_int_nonneg _ _ (mul_nonneg (S754_finite false m e) y eq_refl Hy) Hz).
    lia.
Qed.
(** *** The first characters of a size entry *)

Lemma blank_is_space c : Float.is_blank c = true -> Py.is_space c = true.
Proof. destruct c as [[] [] [] [] [] [] [] []]; intros H; try discriminate H; reflexivity. Qed.

Lemma starts_number_not_space c : starts_number c = true -> Py.is_space c = false.
Proof. destruct c as [[] [] [] [] [] [] [] []]; intros H; try discriminate H; reflexivity. Qed.

Lemma starts_number_upper c :
  starts_number c = true -> Py.upper_char c = String c EmptyString.
Proof. destruct c as [[] [] [] [] [] [] [] []]; intros H; try discriminate H; reflexivity. Qed.

Lemma starts_number_plain c :
  starts_number c = true ->
  Ascii.eqb c "_" = false /\ Float.read_sign (String c EmptyString) = (false, String c EmptyString).
Proof.
  destruct c as [[] [] [] [] [] [] [] []]; intros H; try discriminate H; split; reflexivity.
Qed.

(** The characters that [upper] turns into a minus sign, a digit or a
    point are these themselves. *)
Lemma upper_char_head c h t :
  Py.upper_char c = String h t ->
  Ascii.eqb h "-" || starts_number h = true ->
  c = h /\ t = EmptyString.
Proof.
  destruct c as [[] [] [] [] [] [] [] []]; cbn; intros [= <- <-] H;
    try discriminate H; split; reflexivity.
Qed.

Lemma space_upper c :
  Py.is_space c = true -> Py.upper_char c = String c EmptyString.
Proof. destruct c as [[] [] [] [] [] [] [] []]; intros H; try discriminate H; reflexivity. Qed.

Lemma upper_char_not_space c :
  Py.is_space c = false ->
  exists h t, Py.upper_char c = String h t /\ Py.is_space h = false.
Proof.
  destruct c as [[] [] [] [] [] [] [] []]; intros H; try discriminate H;
    eexists _, _; split; reflexivity.
Qed.

Lemma lstrip_upper s : Py.lstrip (Py.upper s) = Py.upper (Py.lstrip s).
Proof.
  induction s as [|c s IH]; [reflexivity|]. cbn [Py.upper Py.lstrip].
  destruct (Py.is_space c) eqn:Hc.
  - rewrite (space_upper c Hc).
    change (Py.lstrip (String c (Py.upper s)) = Py.upper (Py.lstrip s)).
    cbn [Py.lstrip]. rewrite Hc. exact IH.
  - destruct (upper_char_not_space c Hc) as (h & t & Hu & Hh).
    cbn [Py.upper]. rewrite Hu.
    change (Py.lstrip (String h (t ++ Py.upper s)) = String h (t ++ Py.upper s)).
    cbn [Py.lstrip]. rewrite Hh. reflexivity.
Qed.

Lemma lstrip_head s a r : Py.lstrip s = String a r -> Py.is_space a = false.
Proof.
  induction s as [|c s IH]; cbn [Py.lstrip]; [discriminate|].
  destruct (Py.is_space c) eqn:Hc; [exact IH|]. intros [= <- _]. exact Hc.
Qed.

Lemma rstrip_cons a s :
  Py.is_space a = false -> Py.rstrip (String a s) = String a (Py.rstrip s).
Proof. intros Ha. cbn [Py.rstrip]. rewrite Ha. destruct (Py.rstrip s); reflexivity. Qed.

Lemma rstrip_blanks_cons a s :
  Float.is_blank a = false ->
  Float.rstrip_blanks (String a s) = String a (Float.rstrip_blanks s).
Proof.
  intros Ha. cbn [Float.rstrip_blanks]. rewrite Ha.
  destruct (Float.rstrip_blanks s); reflexivity.
Qed.

(** What is left of a string after the whitespace at its end is
    taken off, or when it is cut, is a prefix of the string. *)
Lemma rstrip_prefix s : exists t, s = Py.rstrip s ++ t.
Proof.
  induction s as [|c s [t IH]]; [exists EmptyString; reflexivity|].
  cbn [Py.rstrip]. destruct (Py.rstrip s) as [|d r].
  - destruct (Py.is_space c); [exists (String c s) | exists s]; reflexivity.
  - exists t. rewrite IH at 1. reflexivity.
Qed.

Lemma rstrip_blanks_prefix s : exists t, s = Float.rstrip_blanks s ++ t.
Proof.
  induction s as [|c s [t IH]]; [exists EmptyString; reflexivity|].
  cbn [Float.rstrip_blanks]. destruct (Float.rstrip_blanks s) as [|d r].
  - destruct (Float.is_blank c); [exists (String c s) | exists s]; reflexivity.
  - exists t. rewrite IH at 1. reflexivity.
Qed.

Lemma substring_prefix n s : exists t, s = String.substring 0 n s ++ t.
Proof.
  revert n. induction s as [|c s IH]; intros [|n]; cbn [String.substring].
  - exists EmptyString. reflexivity.
  - exists EmptyString. reflexivity.
  - exists (String c s). reflexivity.
  - destruct (IH n) as [t Ht]. exists t. rewrite Ht at 1. reflexivity.
Qed.

Lemma prefix_two s p t a b r :
  s = p ++ t -> p = String a (String b r) -> exists r', s = String a (String b r').
Proof. intros -> ->. cbn [String.append]. eauto. Qed.

Lemma prefix_head s p t a r :
  s = p ++ t -> p = String a r -> exists r', s = String a r'.
Proof. intros -> ->. cbn [String.append]. eauto. Qed.

Lemma upper_two y c r :
  starts_number c = true ->
  Py.upper y = String "-" (String c r) -> exists r', y = String "-" (String c r').
Proof.
  intros Hc. destruct y as [|a y]; [discriminate|]. cbn [Py.upper].
  destruct (Py.upper_char a) as [|h t] eqn:Ha;
    [destruct a as [[] [] [] [] [] [] [] []]; discriminate Ha|].
  cbn [String.append]. intros [= -> H].
  destruct (upper_char_head a "-" t Ha eq_refl) as [-> ->]. cbn [String.append] in H.
  destruct y as [|b y]; [discriminate|]. cbn [Py.upper] in H.
  destruct (Py.upper_char b) as [|h' t'] eqn:Hb;
    [destruct b as [[] [] [] [] [] [] [] []]; discriminate Hb|].
  cbn [String.append] in H. injection H as -> _.
  destruct (upper_char_head b c t' Hb) as [-> _]; [rewrite Hc; apply orb_true_r|].
  eauto.
Qed.

(** Underscores are no part of the first characters of a number. *)
Lemma remove_underscores_head prev s a t :
  Py.is_digit prev = false ->
  Float.remove_underscores prev s = Some (String a t) ->
  exists s', s = String a s' /\ Float.remove_underscores a s' = Some t.
Proof.
  intros Hprev. destruct s as [|c s]; cbn [Float.remove_underscores].
  - destruct (Ascii.eqb prev "_"); discriminate.
  - destruct (Ascii.eqb c "_"); [rewrite Hprev; discriminate|].
    destruct (_ && _); [discriminate|].
    destruct (Float.remove_underscores c s) as [t'|] eqn:Ht; [|discriminate].
    cbn. intros [= <- <-]. exists s. split; [reflexivity | exact Ht].
Qed.

Lemma remove_underscores_number prev c y :
  Ascii.eqb prev "_" = false -> starts_number c = true ->
  Float.remove_underscores prev (String c y) =
  option_map (String c) (Float.remove_underscores c y).
Proof.
  intros Hprev Hc. cbn [Float.remove_underscores].
  rewrite (proj1 (starts_number_plain c Hc)), Hprev. reflexivity.
Qed.

Lemma read_sign_minus t t' : Float.read_sign t = (true, t') -> t = String "-" t'.
Proof.
  destruct t as [|c t]; [discriminate|].
  destruct c as [[] [] [] [] [] [] [] []]; cbn; intros H; try discriminate H.
  injection H as <-. reflexivity.
Qed.

Lemma read_sign_number c t :
  starts_number c = true -> Float.read_sign (String c t) = (false, String c t).
Proof.
  destruct c as [[] [] [] [] [] [] [] []]; intros H; try discriminate H; reflexivity.
Qed.
(** *** A size below zero *)

Lemma after_minus_some l x :
  after_minus l = Some x ->
  exists c x', x = String c x' /\ starts_number c = true /\ l = String "-" x.
Proof.
  destruct l as [|a [|c l]]; cbn [after_minus]; try discriminate;
    destruct a as [[] [] [] [] [] [] [] []]; try discriminate.
  destruct (starts_number c) eqn:Hc; [|discriminate]. intros [= <-]. eauto.
Qed.

Lemma after_minus_number c x : starts_number c = true -> after_minus (String c x) = None.
Proof.
  destruct c as [[] [] [] [] [] [] [] []]; intros H; try discriminate H; reflexivity.
Qed.

(** [float] gives a finite number below zero only for a string that
    begins, after its blanks, with a minus sign and a number. *)
Lemma of_string_negative w m e :
  Float.of_string w = Return (S754_finite true m e) ->
  exists c y, Float.strip_blanks w = String "-" (String c y) /\ starts_number c = true.
Proof.
  unfold Float.of_string.
  destruct (Float.remove_underscores "000" (Float.strip_blanks w)) as [t|] eqn:Ht;
    [|discriminate].
  destruct (Float.read_sign t) as [neg t'] eqn:Hsign.
  destruct (_ || _); [discriminate|].
  destruct (String.eqb _ "NAN"); [discriminate|].
  destruct (Float.parse_decimal neg t') as [x|] eqn:Hx; [|discriminate].
  intros [= ->].
  pose proof (parse_decimal_sign neg t' _ _ _ Hx) as <-.
  destruct (parse_decimal_starts true t' _ Hx) as (c & t'' & -> & Hc).
  apply read_sign_minus in Hsign. subst t.
  destruct (remove_underscores_head "000" _ _ _ eq_refl Ht) as (s1 & Hs1 & Ht1).
  destruct (remove_underscores_head "-" _ _ _ eq_refl Ht1) as (s2 & Hs2 & _).
  rewrite Hs1, Hs2. eauto.
Qed.

Lemma parse_size_loop_negative t us z :
  Forall (fun u => (0 < snd u)%Z) us ->
  parse_size_loop t us = Return z -> (z < 0)%Z ->
  exists m e, Float.of_string (Py.drop_last t) = Return (S754_finite true m e).
Proof.
  induction 1 as [|[unit multiplier] us Hpos _ IH]; cbn [parse_size_loop].
  - intros [= <-]. lia.
  - destruct (Py.endswith t unit); [|exact IH].
    unfold mbind, PyResult_bind.
    destruct (Float.of_string (Py.drop_last t)) as [num|e] eqn:Hnum.
    + destruct (Float.to_int _) as [v|e] eqn:Hv.
      * intros [= <-] Hneg.
        destruct (to_int_mul_negative num _ v (of_int_nonneg multiplier Hpos) Hv Hneg)
          as (m & e & ->).
        eauto.
      * destruct e; try discriminate. intros [= <-]. lia.
    + destruct e; try discriminate. intros [= <-]. lia.
Qed.

Lemma units_positive : Forall (fun u : string * Z => (0 < snd u)%Z) units.
Proof. unfold units. repeat constructor. Qed.

(** [parse_size] gives a size below zero only for an entry with a
    minus sign before its number. *)
Lemma parse_size_negative s z :
  parse_size (PStr s) = Return z -> (z < 0)%Z ->
  exists x, after_minus (Py.lstrip s) = Some x.
Proof.
  cbn [parse_size]. destruct (_ || _); [intros [= <-]; lia|].
  intros Hloop Hneg.
  destruct (parse_size_loop_negative _ _ _ units_positive Hloop Hneg) as (m & e & Hnum).
  destruct (of_string_negative _ _ _ Hnum) as (c & y & Hstrip & Hc).
  unfold Float.strip_blanks in Hstrip.
  destruct (rstrip_blanks_prefix (Float.lstrip_blanks (Py.drop_last (Py.strip (Py.upper s)))))
    as [t1 H1].
  destruct (prefix_two _ _ _ _ _ _ H1 Hstrip) as [r1 Hl].
  (* the string that [float] is given begins with no blank *)
  unfold Py.drop_last in Hl.
  set (t := Py.strip (Py.upper s)) in *.
  set (w := String.substring 0 (String.length t - 1) t) in *.
  assert (Hw : exists r, w = String "-" (String c r)).
  { destruct w as [|a w'] eqn:Ew; [discriminate Hl|].
    destruct (substring_prefix (String.length t - 1) t) as [t2 H2].
    fold w in H2. rewrite Ew in H2.
    destruct (prefix_head _ _ _ _ _ H2 eq_refl) as [r2 Ht].
    unfold t, Py.strip in Ht.
    destruct (rstrip_prefix (Py.lstrip (Py.upper s))) as [t3 H3].
    destruct (prefix_head _ _ _ _ _ H3 Ht) as [r3 Hu].
    pose proof (lstrip_head _ _ _ Hu) as Ha.
    assert (Hb : Float.is_blank a = false).
    { destruct (Float.is_blank a) eqn:Hb; [|reflexivity].
      rewrite (blank_is_space a Hb) in Ha. discriminate Ha. }
    cbn [Float.lstrip_blanks] in Hl. rewrite Hb in Hl. eauto. }
  destruct Hw as [r Hw].
  destruct (substring_prefix (String.length t - 1) t) as [t2 H2]. fold w in H2.
  destruct (prefix_two _ _ _ _ _ _ H2 Hw) as [r2 Ht].
  unfold t, Py.strip in Ht.
  destruct (rstrip_prefix (Py.lstrip (Py.upper s))) as [t3 H3].
  destruct (prefix_two _ _ _ _ _ _ H3 Ht) as [r3 Hu].
  rewrite lstrip_upper in Hu.
  destruct (upper_two _ _ _ Hc Hu) as [r4 Hs].
  rewrite Hs. cbn [after_minus]. rewrite Hc. eauto.
Qed.

(** *** The size with and without the minus sign *)

Lemma of_string_raises w e : Float.of_string w = Raise e -> e = Float.not_a_float w.
Proof.
  unfold Float.of_string.
  destruct (Float.remove_underscores _ _); [|intros [= <-]; reflexivity].
  destruct (Float.read_sign _) as [neg t'].
  destruct (_ || _); [discriminate|].
  destruct (String.eqb _ _); [discriminate|].
  destruct (Float.parse_decimal neg t'); [discriminate|].
  intros [= <-]. reflexivity.
Qed.

Lemma of_string_minus c w :
  starts_number c = true ->
  Float.of_string (String "-" (String c w)) =
  match Float.of_string (String c w) with
  | Return y => Return (SFopp y)
  | Raise _ => Raise (Float.not_a_float (String "-" (String c w)))
  end.
Proof.
  intros Hc.
  assert (Hblank : Float.is_blank c = false).
  { destruct (Float.is_blank c) eqn:Hb; [|reflexivity].
    pose proof (blank_is_space c Hb) as H.
    rewrite (starts_number_not_space c Hc) in H. discriminate H. }
  unfold Float.of_string, Float.strip_blanks.
  change (Float.lstrip_blanks (String "-" (String c w))) with (String "-" (String c w)).
  cbn [Float.lstrip_blanks]. rewrite Hblank.
  rewrite (rstrip_blanks_cons "-" _ eq_refl), (rstrip_blanks_cons c _ Hblank).
  set (y := Float.rstrip_blanks w).
  change (Float.remove_underscores "000" (String "-" (String c y)))
    with (option_map (String "-") (Float.remove_underscores "-" (String c y))).
  rewrite !(remove_underscores_number _ c y) by (reflexivity || exact Hc).
  destruct (Float.remove_underscores c y) as [t|]; cbn [option_map]; [|reflexivity].
  change (Float.read_sign (String "-" (String c t))) with (true, String c t).
  rewrite (read_sign_number c t Hc).
  destruct (_ || _); [reflexivity|].
  destruct (String.eqb _ "NAN"); [reflexivity|].
  rewrite parse_decimal_opp.
  destruct (Float.parse_decimal false (String c t)); reflexivity.
Qed.

Lemma drop_last_cons a b s :
  Py.drop_last (String a (String b s)) = String a (Py.drop_last (String b s)).
Proof.
  unfold Py.drop_last. cbn [String.length Nat.sub]. rewrite !Nat.sub_0_r.
  reflexivity.
Qed.

(** The test [s.endswith(a)] for a one-character [a] looks at the last
    character. *)
Lemma endswith_char c s a :
  Py.endswith (String c s) (String a EmptyString) =
  match s with
  | EmptyString => Ascii.eqb c a
  | String _ _ => Py.endswith s (String a EmptyString)
  end.
Proof.
  unfold Py.endswith. cbn [String.length Nat.leb].
  destruct s as [|c' s'].
  - cbn. destruct (Ascii.eqb c a); reflexivity.
  - cbn [String.length Nat.sub Nat.leb andb]. rewrite Nat.sub_0_r.
    cbn [String.substring]. reflexivity.
Qed.

Lemma units_letters :
  Forall (fun u : string * Z =>
            exists a, fst u = String a EmptyString /\ starts_number a = false) units.
Proof. unfold units. repeat constructor; eexists; split; reflexivity. Qed.

Lemma parse_size_loop_minus c u us :
  starts_number c = true ->
  Forall (fun u : string * Z =>
            exists a, fst u = String a EmptyString /\ starts_number a = false) us ->
  parse_size_loop (String "-" (String c u)) us =
  opp_result (parse_size_loop (String c u) us).
Proof.
  intros Hc. induction 1 as [|[unit multiplier] us (a & Hunit & Ha) _ IH];
    cbn [parse_size_loop]; [reflexivity|].
  cbn [fst] in Hunit. subst unit. rewrite (endswith_char "-" (String c u) a).
  destruct (Py.endswith (String c u) (String a EmptyString)) eqn:Hend; [|exact IH].
  destruct u as [|c' u].
  { rewrite endswith_char in Hend. apply Ascii.eqb_eq in Hend. subst a.
    rewrite Hc in Ha. discriminate Ha. }
  rewrite (drop_last_cons "-" c), (drop_last_cons c c').
  rewrite (of_string_minus c _ Hc). unfold mbind, PyResult_bind.
  destruct (Float.of_string (String c (Py.drop_last (String c' u)))) as [y|e] eqn:Hy.
  - rewrite mul_opp, to_int_opp.
    destruct (Float.to_int (Float.mul y (Float.of_int multiplier))) as [z|[]];
      reflexivity.
  - rewrite (of_string_raises _ _ Hy). reflexivity.
Qed.

(** An entry with a minus sign before its number has the size of the
    entry without the sign, negated. *)
Lemma parse_size_minus s x :
  after_minus (Py.lstrip s) = Some x ->
  parse_size (PStr s) = opp_result (parse_size (PStr x)).
Proof.
  intros H. destruct (after_minus_some _ _ H) as (c & x' & -> & Hc & Hl).
  pose proof (starts_number_not_space c Hc) as Hspace.
  assert (Hs : negb (truthy (PStr s)) || String.eqb s "0" = false).
  { destruct s as [|a s']; [discriminate Hl|]. cbn [truthy negb orb].
    apply String.eqb_neq. intros E. rewrite E in Hl. discriminate Hl. }
  assert (Ht : Py.strip (Py.upper s) = String "-" (String c (Py.rstrip (Py.upper x')))).
  { unfold Py.strip. rewrite lstrip_upper, Hl. cbn [Py.upper].
    rewrite (starts_number_upper c Hc).
    change (Py.upper_char "-" ++ (String c EmptyString ++ Py.upper x'))
      with (String "-" (String c (Py.upper x'))).
    rewrite (rstrip_cons "-" _ eq_refl), (rstrip_cons c _ Hspace). reflexivity. }
  assert (Hx : Py.strip (Py.upper (String c x')) = String c (Py.rstrip (Py.upper x'))).
  { unfold Py.strip. cbn [Py.upper]. rewrite (starts_number_upper c Hc).
    change (String c EmptyString ++ Py.upper x') with (String c (Py.upper x')).
    cbn [Py.lstrip]. rewrite Hspace. exact (rstrip_cons c _ Hspace). }
  cbn [parse_size]. rewrite Hs, Ht, Hx.
  rewrite (parse_size_loop_minus c _ units Hc units_letters).
  destruct (negb (truthy (PStr (String c x'))) || String.eqb (String c x') "0") eqn:Hzero;
    [|reflexivity].
  cbn [truthy negb orb] in Hzero. apply String.eqb_eq in Hzero.
  injection Hzero as -> ->. reflexivity.
Qed.

(** C9's arithmetic: the size that [parse_size] returns for an entry. *)
Lemma parse_size_entry v z : parse_size v = Return z -> size_of_entry v z.
Proof.
  intros Hz. unfold size_of_entry.
  destruct v as [|s]; cbn [without_minus].
  - cbn in Hz. injection Hz as <-. lia.
  - destruct (after_minus (Py.lstrip s)) as [x|] eqn:Hminus.
    + rewrite (parse_size_minus s x Hminus) in Hz.
      destruct (parse_size (PStr x)) as [z'|e] eqn:Hx; [|discriminate Hz].
      injection Hz as <-. exists z'. split; [reflexivity | split; [|reflexivity]].
      destruct (Z.lt_ge_cases z' 0) as [Hneg|Hpos]; [|exact Hpos]. exfalso.
      destruct (parse_size_negative x z' Hx Hneg) as [x2 H2].
      destruct (after_minus_some _ _ Hminus) as (c & x' & -> & Hc & _).
      cbn [Py.lstrip] in H2. rewrite (starts_number_not_space c Hc) in H2.
      rewrite (after_minus_number c x' Hc) in H2. discriminate H2.
    + destruct (Z.lt_ge_cases z 0) as [Hneg|Hpos]; [|exact Hpos]. exfalso.
      destruct (parse_size_negative s z Hz Hneg) as [x Hx]. congruence.
Qed.

(** C5 fails on the code at these inputs: the size parser raises
    [OverflowError] for a string whose number is infinite as a float,
    written [inf] or too large for a float; only [ValueError] is caught.
    The example [1.5G] of the claim and the strings without a number or
    a unit give what the claim says. *)
Theorem parse_size_overflow :
  parse_size (PStr "infG") =
    Raise (OverflowError "cannot convert float infinity to integer")
  /\ parse_size (PStr "1e400K") =
    Raise (OverflowError "cannot convert float infinity to integer")
  /\ parse_size (PStr "1.5G") = Return 1610612736%Z
  /\ parse_size (PStr EmptyString) = Return 0%Z
  /\ parse_size (PStr "0") = Return 0%Z
  /\ parse_size (PStr "abcG") = Return 0%Z
  /\ parse_size (PStr "nanG") = Return 0%Z
  /\ parse_size (PStr "12") = Return 0%Z.
Proof. repeat split; vm_compute; reflexivity. Qed.

(** No other exception leaves the size parser. *)
Lemma parse_size_loop_raises t us e :
  parse_size_loop t us = Raise e -> exists msg, e = OverflowError msg.
Proof.
  induction us as [|[unit multiplier] us IH]; cbn [parse_size_loop]; [discriminate|].
  destruct (Py.endswith t unit); [|exact IH].
  unfold mbind, PyResult_bind.
  destruct (Float.of_string (Py.drop_last t)) as [num|e'] eqn:Hnum.
  - destruct (Float.mul num (Float.of_int multiplier)) as [s|s| |s m ex];
      cbn; try discriminate. intros [= <-]. eauto.
  - rewrite (of_string_raises _ _ Hnum). discriminate.
Qed.

Lemma parse_size_raises v e :
  parse_size v = Raise e -> exists msg, e = OverflowError msg.
Proof.
  destruct v as [|s]; cbn [parse_size]; [discriminate|].
  destruct (_ || _); [discriminate|]. apply parse_size_loop_raises.
Qed.

(** ** Sizes of the block devices *)

(** The records that the collector builds have the sizes of the
    entries of their nodes. *)
Lemma collect_records_sized nodes :
  forall out, collect (map record_of nodes) = Return out ->
  Forall2 (fun node r => size_of_entry (size_entry node) (dev_size r)) nodes out.
Proof.
  induction nodes as [|[parent attrs] nodes IH]; cbn [map collect]; intros out.
  - intros [= <-]. constructor.
  - unfold mbind, PyResult_bind.
    destruct (record_of (parent, attrs)) as [r|e] eqn:Hr; [|discriminate].
    destruct (collect (map record_of nodes)) as [rest|e]; [|discriminate].
    intros [= <-]. constructor; [|exact (IH rest eq_refl)].
    unfold record_of, device_record, mbind, PyResult_bind in Hr. cbn [fst snd] in Hr.
    destruct (parse_size (dict_get attrs "size" (PStr "0"))) as [size|e] eqn:Hsize;
      [|discriminate].
    injection Hr as <-. exact (parse_size_entry _ _ Hsize).
Qed.

Section DeviceSizes.
Context (host : Host) (json_loads : string -> PyResult (option (list device))).

(** C9 (as amended).  The collector always returns a list.  When the
    listing is the tree [forest], the list is empty or has one record
    per node of the tree, in the order of the traversal, and the size
    of a record is not below zero, unless the size entry of its node
    begins, after its leading whitespace, with a minus sign and then a
    digit or a point: the size is then the size of the entry without
    the minus sign, which is not below zero, negated. *)
Theorem block_device_sizes tr :
  exists out tr',
    get_block_devices host json_loads tr = (Return out, tr')
    /\ forall p forest,
         host_run host tr (Shell lsblk_command) = Return p ->
         json_loads (stdout p) = Return (Some forest) ->
         out = []
         \/ Forall2 (fun node r => size_of_entry (size_entry node) (dev_size r))
              (flat_map (preorder EmptyString) forest) out.
Proof.
  unfold lsblk_command.
  unfold get_block_devices, try_except, mbind, M_bind, run_shell, lift. cbn [andb].
  destruct (host_run host tr _) as [p|e];
    [|eexists _, _; split; [reflexivity | discriminate]].
  destruct (returncode p =? 0)%Z; cbn [negb];
    [|eexists _, _; split; [reflexivity | intros; left; reflexivity]].
  destruct (json_loads (stdout p)) as [[forest|]|e] eqn:Hjson;
    try (eexists _, _; split; [reflexivity | intros; left; reflexivity]).
  destruct (extract_devices forest EmptyString) as [out|e] eqn:Hout;
    [|eexists _, _; split; [reflexivity | intros; left; reflexivity]].
  eexists _, _. split; [reflexivity|].
  intros p' forest' [= <-] Hjson'. rewrite Hjson in Hjson'. injection Hjson' as <-.
  right. rewrite extract_devices_collect in Hout.
  exact (collect_records_sized _ _ Hout).
Qed.

End DeviceSizes.

Lemma block_device_sizes_witness :
  exists out tr',
    get_block_devices (const_host (completed 0 sda_json EmptyString)) sda_loads [] =
    (Return out, tr')
    /\ (out = []
        \/ Forall2 (fun node r => size_of_entry (size_entry node) (dev_size r))
             (flat_map (preorder EmptyString) [sda]) out).
Proof.
  destruct (block_device_sizes (const_host (completed 0 sda_json EmptyString))
              sda_loads []) as (out & tr' & Heq & Hsizes).
  exists out, tr'. split; [exact Heq|].
  exact (Hsizes (completed 0 sda_json EmptyString) [sda] eq_refl eq_refl).
Defined.

(** C9 (as stated) fails: a size entry with a minus sign gives a record
    with a size below zero. *)
Lemma negative_size_emitted :
  exists r tr',
    get_block_devices (const_host (completed 0 EmptyString EmptyString))
      (fun _ => Return (Some [negative_device])) [] = (Return [r], tr')
    /\ dev_size r = (-1024)%Z.
Proof. eexists _, _. split; vm_compute; reflexivity. Qed.

(** * Further properties *)

(** ** Tokens and the search in the mount table *)

Lemma split_ws_tokens s : Forall (fun w => w <> EmptyString) (Py.split_ws s).
Proof.
  induction s as [|c s IH]; cbn [Py.split_ws]; [apply List.Forall_nil|].
  destruct (Py.is_space c); [exact IH|].
  destruct s as [|c' s']; [apply List.Forall_cons; [discriminate | apply List.Forall_nil]|].
  destruct (Py.is_space c').
  - apply List.Forall_cons; [discriminate | exact IH].
  - destruct (Py.split_ws (String c' s')) as [|w ws].
    + apply List.Forall_cons; [discriminate | apply List.Forall_nil].
    + apply List.Forall_cons; [discriminate|]. inversion IH; assumption.
Qed.

Lemma split_ws_head_truthy line target rest :
  Py.split_ws line = target :: rest -> truthy (PStr target) = true.
Proof.
  intros H. pose proof (split_ws_tokens line) as Hall. rewrite H in Hall.
  inversion Hall as [|? ? Hne _]. destruct target; [contradiction | reflexivity].
Qed.

Lemma find_mount_point_none uuid lines :
  forallb (fun line => negb (Py.contains uuid line)) lines = true ->
  find_mount_point uuid lines = NotMounted.
Proof.
  induction lines as [|line lines IH]; cbn [forallb find_mount_point]; [reflexivity|].
  intros H. apply andb_prop in H as [Hline Hrest].
  apply negb_true_iff in Hline. rewrite Hline. exact (IH Hrest).
Qed.

Lemma find_mount_point_first uuid before line after :
  forallb (fun l => negb (Py.contains uuid l)) before = true ->
  Py.contains uuid line = true ->
  find_mount_point uuid (before ++ line :: after)%list =
  match Py.split_ws line with
  | target :: _ => Mounted target
  | [] => NoToken
  end.
Proof.
  intros Hbefore Hline.
  induction before as [|l before IH]; cbn [find_mount_point app].
  - rewrite Hline. reflexivity.
  - cbn [forallb] in Hbefore. apply andb_prop in Hbefore as [Hl Hrest].
    apply negb_true_iff in Hl. rewrite Hl. exact (IH Hrest).
Qed.

Lemma contains_empty_line uuid :
  Py.contains uuid EmptyString = match uuid with EmptyString => true | _ => false end.
Proof. destruct uuid; reflexivity. Qed.

Section MoreActions.
Context (host : Host).

(** ** Mount *)

(** X1.  When the lookup of the request's UUID prints a device path
    (its exit status is not looked at) and the directory can be made,
    [api_mount] makes the directory [/mnt/btrfs_] followed by the first
    eight characters of the UUID, then starts the mount of the path on
    that directory, and answers from the exit status of the mount: the
    success message with status 200, or [Mount failed: ] with the
    standard error and status 500.  These are the three host events of
    the call, in this order: after a failed mount nothing is removed. *)
Theorem api_mount_resolved data uuid tr p q :
  dict_get data "uuid" PNone = PStr uuid ->
  host_run host tr (Argv (blkid_command uuid)) = Return p ->
  Py.strip (stdout p) <> EmptyString ->
  host_makedirs host (tr ++ [Spawn (Argv (blkid_command uuid))])%list
    (mount_directory uuid) = Return tt ->
  host_run host
    (tr ++ [Spawn (Argv (blkid_command uuid)); MakeDirs (mount_directory uuid)])%list
    (Argv ["mount"; Py.strip (stdout p); mount_directory uuid]) = Return q ->
  api_mount host data tr =
    (Return (answer q ("Successfully mounted " ++ Py.strip (stdout p) ++ " to "
                       ++ mount_directory uuid)
               "Mount failed: "),
     (tr ++ [Spawn (Argv (blkid_command uuid));
             MakeDirs (mount_directory uuid);
             Spawn (Argv ["mount"; Py.strip (stdout p); mount_directory uuid])])%list).
Proof.
  unfold blkid_command, mount_directory. intros Hu Hp Hpath Hdir Hq.
  unfold api_mount, try_except, mbind, M_bind, makedirs, run_argv. rewrite Hu.
  cbn [argv_strings option_map py_str]. rewrite Hp.
  destruct (Py.strip (stdout p)) as [|c path] eqn:Hstrip; [contradiction|].
  cbn [truthy negb]. rewrite Hdir.
  rewrite <- app_assoc. cbn [app]. rewrite Hq. unfold answer.
  destruct (returncode q =? 0)%Z; unfold mret, M_ret;
    rewrite <- app_assoc; reflexivity.
Qed.

(** X2.  When the directory cannot be made, [api_mount] answers with
    the text of the exception and status 500, and starts no mount. *)
Theorem api_mount_no_directory data uuid tr p e :
  dict_get data "uuid" PNone = PStr uuid ->
  host_run host tr (Argv (blkid_command uuid)) = Return p ->
  Py.strip (stdout p) <> EmptyString ->
  host_makedirs host (tr ++ [Spawn (Argv (blkid_command uuid))])%list
    (mount_directory uuid) = Raise e ->
  api_mount host data tr =
    (Return (fail (exn_str e) 500),
     (tr ++ [Spawn (Argv (blkid_command uuid)); MakeDirs (mount_directory uuid)])%list).
Proof.
  unfold blkid_command, mount_directory. intros Hu Hp Hpath Hdir.
  unfold api_mount, try_except, mbind, M_bind, makedirs, run_argv. rewrite Hu.
  cbn [argv_strings option_map py_str]. rewrite Hp.
  destruct (Py.strip (stdout p)) as [|c path] eqn:Hstrip; [contradiction|].
  cbn [truthy negb]. rewrite Hdir. unfold mret, M_ret.
  rewrite <- app_assoc. reflexivity.
Qed.

(** X3.  A request without [uuid] (or with a null one) is answered by
    [api_mount] with status 500 and the text of the [TypeError] of the
    argument vector, before any host event. *)
Theorem api_mount_without_uuid data tr :
  dict_get data "uuid" PNone = PNone ->
  api_mount host data tr =
    (Return (fail "expected str, bytes or os.PathLike object, not NoneType" 500), tr).
Proof.
  intros Hu. unfold api_mount, try_except, mbind, M_bind, run_argv. rewrite Hu.
  reflexivity.
Qed.

(** ** Unmount *)

Lemma split_cons sep s : exists first rest, Py.split sep s = first :: rest.
Proof.
  induction s as [|c s (first & rest & IH)]; cbn [Py.split]; [eauto|].
  destruct (Ascii.eqb c sep); [eauto|]. rewrite IH. eauto.
Qed.

Lemma api_umount_lookup data tr p :
  host_run host tr (Argv findmnt_command) = Return p ->
  api_umount host data tr =
    let uuid := dict_get data "uuid" PNone in
    let tr1 := (tr ++ [Spawn (Argv findmnt_command)])%list in
    match lookup_mount_point uuid (mount_lines p) with
    | Raise e => (Return (fail (exn_str e) 500), tr1)
    | Return NoToken => (Return (fail index_error 500), tr1)
    | Return NotMounted =>
        (Return (fail ("No mounted filesystem found with UUID " ++ py_str uuid) 404), tr1)
    | Return (Mounted mount_point) =>
        if negb (truthy (PStr mount_point)) then
          (Return (fail ("No mounted filesystem found with UUID " ++ py_str uuid) 404), tr1)
        else
          match host_run host tr1 (Argv ["umount"; mount_point]) with
          | Return q =>
              (Return (answer q ("Successfully unmounted " ++ mount_point)
                         "Unmount failed: "),
               (tr1 ++ [Spawn (Argv ["umount"; mount_point])])%list)
          | Raise e =>
              (Return (fail (exn_str e) 500),
               (tr1 ++ [Spawn (Argv ["umount"; mount_point])])%list)
          end
    end.
Proof.
  intros Hp. unfold api_umount, try_except, mbind, M_bind, run_argv, lift, mount_lines.
  cbn [map argv_strings option_map findmnt_command].
  unfold findmnt_command in Hp. rewrite Hp.
  cbv zeta. unfold findmnt_command.
  destruct (lookup_mount_point _ _) as [[mount_point| |]|e]; try reflexivity.
  destruct (truthy (PStr mount_point)); cbn [negb]; [|reflexivity].
  clear Hp. destruct (host_run host (tr ++ _)%list _) as [q|e]; [|reflexivity].
  unfold answer. destruct (returncode q =? 0)%Z; reflexivity.
Qed.

(** X4.  When no line of the mount table, without the whitespace
    around the table, contains the request's UUID, [api_umount] answers
    with status 404 and starts no unmount: the query of the table is
    the only host event. *)
Theorem api_umount_not_mounted data uuid tr p :
  dict_get data "uuid" PNone = PStr uuid ->
  host_run host tr (Argv findmnt_command) = Return p ->
  forallb (fun line => negb (Py.contains uuid line)) (mount_lines p) = true ->
  api_umount host data tr =
    (Return (fail ("No mounted filesystem found with UUID " ++ uuid) 404),
     (tr ++ [Spawn (Argv findmnt_command)])%list).
Proof.
  intros Hu Hp Hlines. rewrite (api_umount_lookup data tr p Hp). cbv zeta.
  rewrite Hu. cbn [lookup_mount_point].
  rewrite (find_mount_point_none uuid _ Hlines). reflexivity.
Qed.

(** X5.  [api_umount] unmounts the first token of the first line of the
    mount table that contains the UUID anywhere, be it in the mount
    point, whatever lines follow, and answers from the exit status of
    the unmount. *)
Theorem api_umount_first_match data uuid tr p before line after target rest q :
  dict_get data "uuid" PNone = PStr uuid ->
  host_run host tr (Argv findmnt_command) = Return p ->
  mount_lines p = (before ++ line :: after)%list ->
  forallb (fun l => negb (Py.contains uuid l)) before = true ->
  Py.contains uuid line = true ->
  Py.split_ws line = target :: rest ->
  host_run host (tr ++ [Spawn (Argv findmnt_command)])%list
    (Argv ["umount"; target]) = Return q ->
  api_umount host data tr =
    (Return (answer q ("Successfully unmounted " ++ target) "Unmount failed: "),
     (tr ++ [Spawn (Argv findmnt_command); Spawn (Argv ["umount"; target])])%list).
Proof.
  intros Hu Hp Hlines Hbefore Hline Htokens Hq.
  rewrite (api_umount_lookup data tr p Hp). cbv zeta.
  rewrite Hu, Hlines. cbn [lookup_mount_point].
  rewrite (find_mount_point_first uuid before line after Hbefore Hline), Htokens.
  rewrite (split_ws_head_truthy line target rest Htokens). cbn [negb].
  rewrite Hq, <- app_assoc. reflexivity.
Qed.

(** X6.  On an empty mount table [api_umount] answers with status 404
    for every UUID but the empty string: the empty string is found in
    the one empty line, which has no first token, and the answer is
    the text of the [IndexError] with status 500. *)
Theorem api_umount_empty_table data uuid tr p :
  dict_get data "uuid" PNone = PStr uuid ->
  host_run host tr (Argv findmnt_command) = Return p ->
  Py.strip (stdout p) = EmptyString ->
  api_umount host data tr =
    (Return (if String.eqb uuid EmptyString then fail index_error 500
             else fail ("No mounted filesystem found with UUID " ++ uuid) 404),
     (tr ++ [Spawn (Argv findmnt_command)])%list).
Proof.
  intros Hu Hp Hblank. rewrite (api_umount_lookup data tr p Hp). cbv zeta.
  rewrite Hu. unfold mount_lines. rewrite Hblank.
  cbn [lookup_mount_point Py.split find_mount_point].
  rewrite contains_empty_line. destruct uuid; reflexivity.
Qed.

(** X7.  A request without [uuid] still makes [api_umount] query the
    mount table; the search then raises [TypeError] at the first line
    (there always is one), which is answered with status 500, and
    nothing is unmounted. *)
Theorem api_umount_without_uuid data tr p :
  dict_get data "uuid" PNone = PNone ->
  host_run host tr (Argv findmnt_command) = Return p ->
  api_umount host data tr =
    (Return (fail "'in <string>' requires string as left operand, not NoneType" 500),
     (tr ++ [Spawn (Argv findmnt_command)])%list).
Proof.
  intros Hu Hp. rewrite (api_umount_lookup data tr p Hp). cbv zeta.
  rewrite Hu. unfold mount_lines.
  destruct (split_cons "010" (Py.strip (stdout p))) as (first & rest & ->).
  reflexivity.
Qed.

(** ** Adding a device *)

(** X8.  When the lookup of the file system's UUID prints nothing,
    [api_add_device] answers with status 404 after this one command:
    the mount table is not read and no device is added. *)
Theorem api_add_device_unknown data fs_uuid tr p :
  dict_get data "fs_uuid" PNone = PStr fs_uuid ->
  host_run host tr (Argv (blkid_command fs_uuid)) = Return p ->
  Py.strip (stdout p) = EmptyString ->
  api_add_device host data tr =
    (Return (fail ("Filesystem with UUID " ++ fs_uuid ++ " not found") 404),
     (tr ++ [Spawn (Argv (blkid_command fs_uuid))])%list).
Proof.
  unfold blkid_command. intros Hu Hp Hblank.
  unfold api_add_device, try_except, mbind, M_bind, run_argv. rewrite Hu.
  cbn [argv_strings option_map]. rewrite Hp, Hblank. reflexivity.
Qed.

Lemma api_add_device_lookup data fs_uuid tr p m :
  dict_get data "fs_uuid" PNone = PStr fs_uuid ->
  host_run host tr (Argv (blkid_command fs_uuid)) = Return p ->
  Py.strip (stdout p) <> EmptyString ->
  host_run host (tr ++ [Spawn (Argv (blkid_command fs_uuid))])%list
    (Argv findmnt_command) = Return m ->
  api_add_device host data tr =
    let device := dict_get data "device" PNone in
    let tr2 := (tr ++ [Spawn (Argv (blkid_command fs_uuid));
                       Spawn (Argv findmnt_command)])%list in
    match find_mount_point fs_uuid (mount_lines m) with
    | NoToken => (Return (fail index_error 500), tr2)
    | NotMounted =>
        (Return (fail ("Filesystem with UUID " ++ fs_uuid ++ " is not mounted") 400), tr2)
    | Mounted fs_mount_point =>
        if negb (truthy (PStr fs_mount_point)) then
          (Return (fail ("Filesystem with UUID " ++ fs_uuid ++ " is not mounted") 400), tr2)
        else
          match device with
          | PNone =>
              (Return (fail "expected str, bytes or os.PathLike object, not NoneType" 500),
               tr2)
          | PStr d =>
              match host_run host tr2 (Argv ["btrfs"; "device"; "add"; d; fs_mount_point]) with
              | Return q =>
                  (Return (answer q ("Successfully added " ++ d ++ " to Btrfs filesystem")
                             "Adding device failed: "),
                   (tr2 ++ [Spawn (Argv ["btrfs"; "device"; "add"; d; fs_mount_point])])%list)
              | Raise e =>
                  (Return (fail (exn_str e) 500),
                   (tr2 ++ [Spawn (Argv ["btrfs"; "device"; "add"; d; fs_mount_point])])%list)
              end
          end
    end.
Proof.
  unfold blkid_command. intros Hu Hp Hpath Hm.
  unfold api_add_device, try_except, mbind, M_bind, run_argv, lift, mount_lines.
  rewrite Hu. cbn [map argv_strings option_map findmnt_command py_str].
  rewrite Hp.
  destruct (Py.strip (stdout p)) as [|c path] eqn:Hstrip; [contradiction|].
  cbn [truthy negb]. unfold findmnt_command in Hm. rewrite Hm.
  cbv zeta. unfold findmnt_command. cbn [lookup_mount_point].
  rewrite <- app_assoc. cbn [app].
  destruct (find_mount_point _ _) as [fs_mount_point| |]; try reflexivity.
  destruct fs_mount_point as [|c' fs_mount_point]; [reflexivity|]. cbn [negb].
  destruct (dict_get data "device" PNone) as [|d]; cbn [argv_strings option_map];
    [reflexivity|].
  clear Hp Hm.
  destruct (host_run host (tr ++ _)%list (Argv ["btrfs"; _; _; _; _])) as [q|e];
    [|reflexivity].
  unfold answer. destruct (returncode q =? 0)%Z; reflexivity.
Qed.

(** X9.  When the file system is known and no line of the mount table
    contains its UUID, [api_add_device] answers with status 400 after
    the two lookups, and adds no device. *)
Theorem api_add_device_not_mounted data fs_uuid tr p m :
  dict_get data "fs_uuid" PNone = PStr fs_uuid ->
  host_run host tr (Argv (blkid_command fs_uuid)) = Return p ->
  Py.strip (stdout p) <> EmptyString ->
  host_run host (tr ++ [Spawn (Argv (blkid_command fs_uuid))])%list
    (Argv findmnt_command) = Return m ->
  forallb (fun line => negb (Py.contains fs_uuid line)) (mount_lines m) = true ->
  api_add_device host data tr =
    (Return (fail ("Filesystem with UUID " ++ fs_uuid ++ " is not mounted") 400),
     (tr ++ [Spawn (Argv (blkid_command fs_uuid)); Spawn (Argv findmnt_command)])%list).
Proof.
  intros Hu Hp Hpath Hm Hlines.
  rewrite (api_add_device_lookup data fs_uuid tr p m Hu Hp Hpath Hm). cbv zeta.
  rewrite (find_mount_point_none fs_uuid _ Hlines). reflexivity.
Qed.

(** X10.  When the file system is known and mounted, [api_add_device]
    runs [btrfs device add] with the request's device and the first
    token of the first line of the mount table that contains the UUID,
    as the third command after the two lookups, and answers from its
    exit status.  The device path that the first lookup has printed is
    used for nothing but the test that it is there. *)
Theorem api_add_device_mounted data device fs_uuid tr p m before line after target rest q :
  dict_get data "device" PNone = PStr device ->
  dict_get data "fs_uuid" PNone = PStr fs_uuid ->
  host_run host tr (Argv (blkid_command fs_uuid)) = Return p ->
  Py.strip (stdout p) <> EmptyString ->
  host_run host (tr ++ [Spawn (Argv (blkid_command fs_uuid))])%list
    (Argv findmnt_command) = Return m ->
  mount_lines m = (before ++ line :: after)%list ->
  forallb (fun l => negb (Py.contains fs_uuid l)) before = true ->
  Py.contains fs_uuid line = true ->
  Py.split_ws line = target :: rest ->
  host_run host
    (tr ++ [Spawn (Argv (blkid_command fs_uuid)); Spawn (Argv findmnt_command)])%list
    (Argv ["btrfs"; "device"; "add"; device; target]) = Return q ->
  api_add_device host data tr =
    (Return (answer q ("Successfully added " ++ device ++ " to Btrfs filesystem")
               "Adding device failed: "),
     (tr ++ [Spawn (Argv (blkid_command fs_uuid)); Spawn (Argv findmnt_command);
             Spawn (Argv ["btrfs"; "device"; "add"; device; target])])%list).
Proof.
  intros Hd Hu Hp Hpath Hm Hlines Hbefore Hline Htokens Hq.
  rewrite (api_add_device_lookup data fs_uuid tr p m Hu Hp Hpath Hm). cbv zeta.
  rewrite Hlines, (find_mount_point_first fs_uuid before line after Hbefore Hline), Htokens.
  rewrite (split_ws_head_truthy line target rest Htokens). cbn [negb].
  rewrite Hd, Hq, <- app_assoc. reflexivity.
Qed.

(** X11.  A request without [device] for a mounted file system is
    answered with status 500 and the text of the [TypeError] of the
    argument vector, after the two lookups: no device is added. *)
Theorem api_add_device_without_device data fs_uuid tr p m before line after target rest :
  dict_get data "device" PNone = PNone ->
  dict_get data "fs_uuid" PNone = PStr fs_uuid ->
  host_run host tr (Argv (blkid_command fs_uuid)) = Return p ->
  Py.strip (stdout p) <> EmptyString ->
  host_run host (tr ++ [Spawn (Argv (blkid_command fs_uuid))])%list
    (Argv findmnt_command) = Return m ->
  mount_lines m = (before ++ line :: after)%list ->
  forallb (fun l => negb (Py.contains fs_uuid l)) before = true ->
  Py.contains fs_uuid line = true ->
  Py.split_ws line = target :: rest ->
  api_add_device host data tr =
    (Return (fail "expected str, bytes or os.PathLike object, not NoneType" 500),
     (tr ++ [Spawn (Argv (blkid_command fs_uuid)); Spawn (Argv findmnt_command)])%list).
Proof.
  intros Hd Hu Hp Hpath Hm Hlines Hbefore Hline Htokens.
  rewrite (api_add_device_lookup data fs_uuid tr p m Hu Hp Hpath Hm). cbv zeta.
  rewrite Hlines, (find_mount_point_first fs_uuid before line after Hbefore Hline), Htokens.
  rewrite (split_ws_head_truthy line target rest Htokens). cbn [negb].
  rewrite Hd. reflexivity.
Qed.

(** ** Snapshots and new file systems *)

(** X12.  [api_delete_snapshot] passes [str(id)] to the tool and answers
    from its exit status; a request without [id] is not refused: the
    tool is asked to delete the snapshot [None]. *)
Theorem api_delete_snapshot_command data config tr p :
  dict_get data "config" PNone = PStr config ->
  host_run host tr
    (Argv ["snapper"; "-c"; config; "delete"; py_str (dict_get data "id" PNone)])
    = Return p ->
  api_delete_snapshot host data tr =
    (Return (answer p ("Successfully deleted snapshot " ++ py_str (dict_get data "id" PNone)
                       ++ " from config " ++ config)
               "Deletion failed: "),
     (tr ++ [Spawn (Argv ["snapper"; "-c"; config; "delete";
                          py_str (dict_get data "id" PNone)])])%list).
Proof.
  intros Hc Hp. unfold api_delete_snapshot, try_except, mbind, M_bind, run_argv.
  rewrite Hc. cbn [argv_strings option_map py_str]. rewrite Hp.
  unfold answer. destruct (returncode p =? 0)%Z; reflexivity.
Qed.

(** X13.  [api_create_btrfs] runs [mkfs.btrfs] on the device alone when
    the label of the request is absent, null or empty, and with
    [-L label] before the device when it is a string that is not
    empty; it answers from the exit status. *)
Theorem api_create_btrfs_label data device tr p :
  dict_get data "device" PNone = PStr device ->
  (truthy (dict_get data "label" (PStr EmptyString)) = false ->
   host_run host tr (Argv ["mkfs.btrfs"; device]) = Return p ->
   api_create_btrfs host data tr =
     (Return (answer p ("Successfully created Btrfs filesystem on " ++ device)
                "Creation failed: "),
      (tr ++ [Spawn (Argv ["mkfs.btrfs"; device])])%list))
  /\ (forall label,
         dict_get data "label" (PStr EmptyString) = PStr label ->
         label <> EmptyString ->
         host_run host tr (Argv ["mkfs.btrfs"; "-L"; label; device]) = Return p ->
         api_create_btrfs host data tr =
           (Return (answer p ("Successfully created Btrfs filesystem on " ++ device)
                      "Creation failed: "),
            (tr ++ [Spawn (Argv ["mkfs.btrfs"; "-L"; label; device])])%list)).
Proof.
  intros Hd. split.
  - intros Hlabel Hp. unfold api_create_btrfs, try_except, mbind, M_bind, run_argv.
    rewrite Hd, Hlabel. cbn [app argv_strings option_map py_str]. rewrite Hp.
    unfold answer. destruct (returncode p =? 0)%Z; reflexivity.
  - intros label Hlabel Hne Hp.
    unfold api_create_btrfs, try_except, mbind, M_bind, run_argv.
    rewrite Hd, Hlabel. destruct label as [|c label]; [contradiction|].
    cbn [truthy app argv_strings option_map py_str]. rewrite Hp.
    unfold answer. destruct (returncode p =? 0)%Z; reflexivity.
Qed.

(** X14.  [api_create_snapshot] describes the snapshot as
    [Created via Web UI] when the request has no [description]; a
    null description is not replaced by this text: the request is
    answered with status 500 and the text of the [TypeError] of the
    argument vector, and no snapshot is created. *)
Theorem api_create_snapshot_description data config tr :
  dict_get data "config" PNone = PStr config ->
  (forall p,
      data !! "description" = None ->
      host_run host tr
        (Argv ["snapper"; "-c"; config; "create"; "--description"; "Created via Web UI"])
        = Return p ->
      api_create_snapshot host data tr =
        (Return (answer p ("Successfully created snapshot in config " ++ config)
                   "Creation failed: "),
         (tr ++ [Spawn (Argv ["snapper"; "-c"; config; "create"; "--description";
                              "Created via Web UI"])])%list))
  /\ (data !! "description" = Some PNone ->
      api_create_snapshot host data tr =
        (Return (fail "expected str, bytes or os.PathLike object, not NoneType" 500), tr)).
Proof.
  intros Hc. split.
  - intros p Hdesc Hp. unfold api_create_snapshot, try_except, mbind, M_bind, run_argv.
    rewrite Hc. unfold dict_get at 1. rewrite Hdesc.
    cbn [argv_strings option_map py_str]. rewrite Hp.
    unfold answer. destruct (returncode p =? 0)%Z; reflexivity.
  - intros Hdesc. unfold api_create_snapshot, try_except, mbind, M_bind, run_argv.
    rewrite Hc. unfold dict_get at 1. rewrite Hdesc. reflexivity.
Qed.

End MoreActions.

(** ** Examples of the actions *)

Lemma api_mount_resolved_witness :
  api_mount mounted_host {[ "uuid" := PStr example_uuid ]} [] =
  (Return (Message "Successfully mounted /dev/sdb1 to /mnt/btrfs_0c3e4a55", 200%Z),
   [Spawn (Argv (blkid_command example_uuid));
    MakeDirs "/mnt/btrfs_0c3e4a55";
    Spawn (Argv ["mount"; "/dev/sdb1"; "/mnt/btrfs_0c3e4a55"])]).
Proof.
  refine (api_mount_resolved mounted_host {[ "uuid" := PStr example_uuid ]}
            example_uuid [] (completed 0 ("/dev/sdb1" ++ nl) EmptyString)
            (completed 0 EmptyString EmptyString) eq_refl eq_refl _ eq_refl eq_refl).
  vm_compute. discriminate.
Defined.

Lemma api_mount_no_directory_witness :
  api_mount readonly_host {[ "uuid" := PStr example_uuid ]} [] =
  (Return (Error "[Errno 30] Read-only file system: '/mnt'", 500%Z),
   [Spawn (Argv (blkid_command example_uuid)); MakeDirs "/mnt/btrfs_0c3e4a55"]).
Proof.
  refine (api_mount_no_directory readonly_host {[ "uuid" := PStr example_uuid ]}
            example_uuid [] (completed 0 ("/dev/sdb1" ++ nl) EmptyString)
            (OSError "[Errno 30] Read-only file system: '/mnt'")
            eq_refl eq_refl _ eq_refl).
  vm_compute. discriminate.
Defined.

Lemma api_mount_without_uuid_witness :
  api_mount mounted_host {[ "device" := PStr "/dev/sdb1" ]} [] =
  (Return (Error "expected str, bytes or os.PathLike object, not NoneType", 500%Z), []).
Proof.
  exact (api_mount_without_uuid mounted_host {[ "device" := PStr "/dev/sdb1" ]} []
           eq_refl).
Defined.

Lemma api_umount_not_mounted_witness :
  api_umount known_host {[ "uuid" := PStr example_uuid ]} [] =
  (Return (Error "No mounted filesystem found with UUID 0c3e4a55-7b0e-4d4e-9f59-2f1d6c0a1b77",
           404%Z),
   [Spawn (Argv findmnt_command)]).
Proof.
  exact (api_umount_not_mounted known_host {[ "uuid" := PStr example_uuid ]}
           example_uuid [] (completed 0 ("/home /dev/sda3" ++ nl) EmptyString)
           eq_refl eq_refl eq_refl).
Defined.

Lemma api_umount_first_match_witness :
  api_umount mounted_host {[ "uuid" := PStr example_uuid ]} [] =
  (Return (Message "Successfully unmounted /mnt/data", 200%Z),
   [Spawn (Argv findmnt_command); Spawn (Argv ["umount"; "/mnt/data"])]).
Proof.
  exact (api_umount_first_match mounted_host {[ "uuid" := PStr example_uuid ]}
           example_uuid [] (completed 0 example_table EmptyString)
           ["/home /dev/sda3"]
           ("/mnt/data /dev/disk/by-uuid/" ++ example_uuid)
           ["/srv/" ++ example_uuid ++ " /dev/sdc1"]
           "/mnt/data" ["/dev/disk/by-uuid/" ++ example_uuid]
           (completed 0 EmptyString EmptyString)
           eq_refl eq_refl eq_refl eq_refl eq_refl eq_refl eq_refl).
Defined.

Lemma api_umount_empty_table_witness :
  api_umount unmounted_host {[ "uuid" := PStr EmptyString ]} [] =
  (Return (Error "list index out of range", 500%Z), [Spawn (Argv findmnt_command)]).
Proof.
  exact (api_umount_empty_table unmounted_host {[ "uuid" := PStr EmptyString ]}
           EmptyString [] (completed 1 EmptyString "not found")
           eq_refl eq_refl eq_refl).
Defined.

Lemma api_umount_without_uuid_witness :
  api_umount mounted_host ∅ [] =
  (Return (Error "'in <string>' requires string as left operand, not NoneType", 500%Z),
   [Spawn (Argv findmnt_command)]).
Proof.
  exact (api_umount_without_uuid mounted_host ∅ []
           (completed 0 example_table EmptyString) eq_refl eq_refl).
Defined.

Lemma api_add_device_unknown_witness :
  api_add_device unmounted_host
    (<[ "device" := PStr "/dev/sdd" ]> {[ "fs_uuid" := PStr example_uuid ]}) [] =
  (Return (Error "Filesystem with UUID 0c3e4a55-7b0e-4d4e-9f59-2f1d6c0a1b77 not found",
           404%Z),
   [Spawn (Argv (blkid_command example_uuid))]).
Proof.
  exact (api_add_device_unknown unmounted_host
           (<[ "device" := PStr "/dev/sdd" ]> {[ "fs_uuid" := PStr example_uuid ]})
           example_uuid [] (completed 1 EmptyString "not found")
           eq_refl eq_refl eq_refl).
Defined.

Lemma api_add_device_not_mounted_witness :
  api_add_device known_host
    (<[ "device" := PStr "/dev/sdd" ]> {[ "fs_uuid" := PStr example_uuid ]}) [] =
  (Return (Error "Filesystem with UUID 0c3e4a55-7b0e-4d4e-9f59-2f1d6c0a1b77 is not mounted",
           400%Z),
   [Spawn (Argv (blkid_command example_uuid)); Spawn (Argv findmnt_command)]).
Proof.
  refine (api_add_device_not_mounted known_host
            (<[ "device" := PStr "/dev/sdd" ]> {[ "fs_uuid" := PStr example_uuid ]})
            example_uuid [] (completed 0 ("/dev/sdb1" ++ nl) EmptyString)
            (completed 0 ("/home /dev/sda3" ++ nl) EmptyString)
            eq_refl eq_refl _ eq_refl eq_refl).
  vm_compute. discriminate.
Defined.

Lemma api_add_device_mounted_witness :
  api_add_device mounted_host
    (<[ "device" := PStr "/dev/sdd" ]> {[ "fs_uuid" := PStr example_uuid ]}) [] =
  (Return (Message "Successfully added /dev/sdd to Btrfs filesystem", 200%Z),
   [Spawn (Argv (blkid_command example_uuid)); Spawn (Argv findmnt_command);
    Spawn (Argv ["btrfs"; "device"; "add"; "/dev/sdd"; "/mnt/data"])]).
Proof.
  refine (api_add_device_mounted mounted_host
            (<[ "device" := PStr "/dev/sdd" ]> {[ "fs_uuid" := PStr example_uuid ]})
            "/dev/sdd" example_uuid [] (completed 0 ("/dev/sdb1" ++ nl) EmptyString)
            (completed 0 example_table EmptyString)
            ["/home /dev/sda3"]
            ("/mnt/data /dev/disk/by-uuid/" ++ example_uuid)
            ["/srv/" ++ example_uuid ++ " /dev/sdc1"]
            "/mnt/data" ["/dev/disk/by-uuid/" ++ example_uuid]
            (completed 0 EmptyString EmptyString)
            eq_refl eq_refl eq_refl _ eq_refl eq_refl eq_refl eq_refl eq_refl eq_refl).
  vm_compute. discriminate.
Defined.

Lemma api_add_device_without_device_witness :
  api_add_device mounted_host {[ "fs_uuid" := PStr example_uuid ]} [] =
  (Return (Error "expected str, bytes or os.PathLike object, not NoneType", 500%Z),
   [Spawn (Argv (blkid_command example_uuid)); Spawn (Argv findmnt_command)]).
Proof.
  refine (api_add_device_without_device mounted_host
            {[ "fs_uuid" := PStr example_uuid ]}
            example_uuid [] (completed 0 ("/dev/sdb1" ++ nl) EmptyString)
            (completed 0 example_table EmptyString)
            ["/home /dev/sda3"]
            ("/mnt/data /dev/disk/by-uuid/" ++ example_uuid)
            ["/srv/" ++ example_uuid ++ " /dev/sdc1"]
            "/mnt/data" ["/dev/disk/by-uuid/" ++ example_uuid]
            eq_refl eq_refl eq_refl _ eq_refl eq_refl eq_refl eq_refl eq_refl).
  vm_compute. discriminate.
Defined.

Lemma api_delete_snapshot_command_witness :
  api_delete_snapshot mounted_host {[ "config" := PStr "root" ]} [] =
  (Return (Error "Deletion failed: Invalid snapshot 'None'.", 500%Z),
   [Spawn (Argv ["snapper"; "-c"; "root"; "delete"; "None"])]).
Proof.
  exact (api_delete_snapshot_command mounted_host {[ "config" := PStr "root" ]}
           "root" [] (completed 1 EmptyString "Invalid snapshot 'None'.")
           eq_refl eq_refl).
Defined.

Lemma api_create_btrfs_label_witness :
  api_create_btrfs mounted_host
    (<[ "label" := PNone ]> {[ "device" := PStr "/dev/sdd" ]}) [] =
  (Return (Message "Successfully created Btrfs filesystem on /dev/sdd", 200%Z),
   [Spawn (Argv ["mkfs.btrfs"; "/dev/sdd"])]).
Proof.
  exact (proj1 (api_create_btrfs_label mounted_host
                  (<[ "label" := PNone ]> {[ "device" := PStr "/dev/sdd" ]})
                  "/dev/sdd" [] (completed 0 EmptyString EmptyString) eq_refl)
           eq_refl eq_refl).
Defined.

Lemma api_create_snapshot_description_witness :
  api_create_snapshot mounted_host
    (<[ "description" := PNone ]> {[ "config" := PStr "root" ]}) [] =
  (Return (Error "expected str, bytes or os.PathLike object, not NoneType", 500%Z), []).
Proof.
  exact (proj2 (api_create_snapshot_description mounted_host
                  (<[ "description" := PNone ]> {[ "config" := PStr "root" ]})
                  "root" [] eq_refl)
           eq_refl).
Defined.
(** ** Every action answers *)







Section Answers.
Context (host : Host).












End Answers.
(** ** More on the change of RAID profile *)

Section MoreChangeRaid.
Context (host : Host).

(** X16.  When the resize command exits with zero, [api_change_raid]
    answers with the success message of the resize path and status
    200, and the balance command is not run. *)
Theorem api_change_raid_resized data profile filesystem tr p :
  dict_get data "profile" PNone = PStr profile ->
  In profile valid_profiles ->
  dict_get data "filesystem" PNone = PStr filesystem ->
  host_run host tr (Argv (resize_command profile filesystem)) = Return p ->
  returncode p = 0%Z ->
  api_change_raid host data tr =
    (Return (ok (changed_profile profile)),
     (tr ++ [Spawn (Argv (resize_command profile filesystem))])%list).
Proof.
  unfold resize_command. intros Hprofile Hvalid Hfs Hp Hrc.
  unfold api_change_raid, try_except, mbind, M_bind, run_argv.
  rewrite Hprofile, Hfs, (is_valid_profile_In profile Hvalid).
  cbn [negb py_str argv_strings option_map]. rewrite Hp, Hrc. reflexivity.
Qed.

(** X17.  [api_change_raid] answers a request whose profile is none of
    the six valid ones (or absent) with status 400 and the text
    [Invalid RAID profile: ] followed by the profile, before any host
    event; and it gives status 400 in no other case. *)
Theorem api_change_raid_refusal data tr :
  (is_valid_profile (dict_get data "profile" PNone) = false ->
   api_change_raid host data tr =
     (Return (fail ("Invalid RAID profile: " ++ py_str (dict_get data "profile" PNone))
                400), tr))
  /\ (forall text tr',
         api_change_raid host data tr = (Return (Error text, 400%Z), tr') ->
         is_valid_profile (dict_get data "profile" PNone) = false /\ tr' = tr).
Proof.
  split.
  - intros H. unfold api_change_raid, try_except. rewrite H. reflexivity.
  - intros text tr'. unfold api_change_raid, try_except, mbind, M_bind.
    destruct (is_valid_profile (dict_get data "profile" PNone)); cbn [negb].
    + destruct (run_argv host _ tr) as [[result|e] tr1]; [|discriminate].
      destruct (returncode result =? 0)%Z; [discriminate|].
      destruct (run_argv host _ tr1) as [[result_alt|e] tr2]; [|discriminate].
      destruct (returncode result_alt =? 0)%Z; discriminate.
    + intros [= _ <-]. split; reflexivity.
Qed.

End MoreChangeRaid.

(** ** What holds of every file system inventory *)



Section Inventory.
Context (host : Host).







End Inventory.

Lemma api_change_raid_resized_witness :
  api_change_raid mounted_host
    (<[ "filesystem" := PStr "/mnt/data" ]> {[ "profile" := PStr "raid1" ]}) [] =
  (Return (Message "Successfully changed RAID profile to raid1", 200%Z),
   [Spawn (Argv (resize_command "raid1" "/mnt/data"))]).
Proof.
  refine (api_change_raid_resized mounted_host
            (<[ "filesystem" := PStr "/mnt/data" ]> {[ "profile" := PStr "raid1" ]})
            "raid1" "/mnt/data" [] (completed 0 EmptyString EmptyString)
            eq_refl _ eq_refl eq_refl eq_refl).
  simpl. tauto.
Defined.
(** ** A size that cannot be converted empties the device inventory *)

Lemma for_devices_raises f (l : list device) :
  Exists (fun d => exists e, f d = Raise e) l ->
  exists e, for_devices f l = Raise e.
Proof.
  induction 1 as [d l [e Hd]|d l _ [e IH]]; cbn [for_devices];
    unfold mbind, PyResult_bind.
  - rewrite Hd. eauto.
  - fold (for_devices f l). rewrite IH. destruct (f d); eauto.
Qed.

Lemma extract_device_raises d :
  some_size_raises d = true -> forall parent, exists e, extract_device parent d = Raise e.
Proof.
  induction d as [attrs children IH] using device_tree_ind.
  cbn [some_size_raises extract_device]. intros H parent.
  unfold device_record, mbind, PyResult_bind.
  unfold size_raises in H.
  destruct (parse_size (dict_get attrs "size" (PStr "0"))) as [size|e]; [|eauto].
  cbn [orb] in H.
  destruct (for_devices_raises
              (extract_device (py_str (device_name parent attrs))) children) as [e He].
  - apply existsb_exists in H as (c & Hin & Hc).
    apply List.Exists_exists. exists c. split; [exact Hin|].
    rewrite List.Forall_forall in IH. exact (IH c Hin Hc _).
  - rewrite He. eauto.
Qed.

Section Spoiled.
Context (host : Host) (json_loads : string -> PyResult (option (list device))).

(** X19.  When the size entry of one node of the listing's tree, at any
    depth, makes [parse_size] raise, [get_block_devices] returns the
    empty list: the records of all other devices are lost with it. *)
Theorem get_block_devices_spoiled tr p forest :
  host_run host tr (Shell lsblk_command) = Return p ->
  returncode p = 0%Z ->
  json_loads (stdout p) = Return (Some forest) ->
  existsb some_size_raises forest = true ->
  get_block_devices host json_loads tr =
    (Return [], (tr ++ [Spawn (Shell lsblk_command)])%list).
Proof.
  unfold lsblk_command. intros Hp Hrc Hjson Hbad.
  unfold get_block_devices, try_except, mbind, M_bind, lift.
  rewrite (run_shell_completed host false _ tr p Hp). cbn [andb].
  rewrite Hrc, Hjson. cbn [Z.eqb negb].
  destruct (for_devices_raises (extract_device EmptyString) forest) as [e He].
  - apply existsb_exists in Hbad as (d & Hin & Hd).
    apply List.Exists_exists. exists d. split; [exact Hin|].
    exact (extract_device_raises d Hd EmptyString).
  - unfold extract_devices. rewrite He. reflexivity.
Qed.

End Spoiled.

(** ** More on the size parser *)

(** X20.  [parse_size] returns a number or raises the [OverflowError] of
    the conversion of an infinite float; it raises nothing else, on no
    input. *)
Theorem parse_size_only_overflow v :
  (exists z, parse_size v = Return z)
  \/ parse_size v = Raise (OverflowError "cannot convert float infinity to integer").
Proof.
  destruct (parse_size v) as [z|e] eqn:H; [left; eauto|right].
  destruct v as [|s]; cbn [parse_size] in H; [discriminate|].
  destruct (_ || _); [discriminate|].
  revert H. generalize (Py.strip (Py.upper s)). intros t.
  induction units as [|[unit multiplier] us IH]; cbn [parse_size_loop]; [discriminate|].
  destruct (Py.endswith t unit); [|exact IH].
  unfold mbind, PyResult_bind.
  destruct (Float.of_string (Py.drop_last t)) as [num|e'] eqn:Hnum.
  - destruct (Float.mul num (Float.of_int multiplier)) as [sg|sg| |sg m ex];
      cbn; try discriminate. intros [= <-]. reflexivity.
  - rewrite (of_string_raises _ _ Hnum). discriminate.
Qed.

Lemma upper_char_digit c :
  Py.is_digit c = true -> Py.upper_char c = String c EmptyString.
Proof.
  destruct c as [[] [] [] [] [] [] [] []]; try discriminate; intros _; reflexivity.
Qed.

Lemma upper_digits s : forallb Py.is_digit (list_ascii_of_string s) = true -> Py.upper s = s.
Proof.
  induction s as [|c s IH]; cbn [list_ascii_of_string forallb Py.upper]; [reflexivity|].
  intros H. apply andb_prop in H as [Hc Hs].
  rewrite (upper_char_digit c Hc), (IH Hs). reflexivity.
Qed.

Lemma digit_not_space c : Py.is_digit c = true -> Py.is_space c = false.
Proof.
  destruct c as [[] [] [] [] [] [] [] []]; try discriminate; intros _; reflexivity.
Qed.

Lemma rstrip_digits s :
  forallb Py.is_digit (list_ascii_of_string s) = true -> Py.rstrip s = s.
Proof.
  induction s as [|c s IH]; cbn [list_ascii_of_string forallb Py.rstrip]; [reflexivity|].
  intros H. apply andb_prop in H as [Hc Hs].
  rewrite (IH Hs), (digit_not_space c Hc). destruct s; reflexivity.
Qed.

Lemma strip_digits s :
  forallb Py.is_digit (list_ascii_of_string s) = true -> Py.strip s = s.
Proof.
  intros H. unfold Py.strip.
  assert (Hl : Py.lstrip s = s).
  { destruct s as [|c s]; [reflexivity|]. cbn [list_ascii_of_string forallb] in H.
    apply andb_prop in H as [Hc _]. cbn [Py.lstrip].
    rewrite (digit_not_space c Hc). reflexivity. }
  rewrite Hl. exact (rstrip_digits s H).
Qed.

Lemma endswith_digits s a :
  forallb Py.is_digit (list_ascii_of_string s) = true ->
  Py.is_digit a = false ->
  Py.endswith s (String a EmptyString) = false.
Proof.
  intros Hs Ha. induction s as [|c s IH]; [reflexivity|].
  cbn [list_ascii_of_string forallb] in Hs. apply andb_prop in Hs as [Hc Hs].
  rewrite endswith_char. destruct s as [|c' s']; [|exact (IH Hs)].
  destruct (Ascii.eqb_spec c a) as [->|]; [congruence | reflexivity].
Qed.

(** X21.  A size written with digits only, without a unit letter, is
    parsed as 0. *)
Theorem parse_size_plain_number s :
  forallb Py.is_digit (list_ascii_of_string s) = true ->
  parse_size (PStr s) = Return 0%Z.
Proof.
  intros H. cbn [parse_size]. destruct (_ || _); [reflexivity|].
  rewrite (upper_digits s H), (strip_digits s H).
  unfold units. cbn [parse_size_loop].
  rewrite !(endswith_digits s) by (exact H || reflexivity). reflexivity.
Qed.

(** ** Examples of the sizes *)

Lemma get_block_devices_spoiled_witness :
  get_block_devices (const_host (completed 0 EmptyString EmptyString))
    (fun _ => Return (Some [sda; huge_partition])) [] =
  (Return [], [Spawn (Shell lsblk_command)]).
Proof.
  refine (get_block_devices_spoiled (const_host (completed 0 EmptyString EmptyString))
            (fun _ => Return (Some [sda; huge_partition])) []
            (completed 0 EmptyString EmptyString) [sda; huge_partition]
            eq_refl eq_refl eq_refl _).
  vm_compute. reflexivity.
Defined.

Lemma parse_size_plain_number_witness : parse_size (PStr "1073741824") = Return 0%Z.
Proof. exact (parse_size_plain_number "1073741824" eq_refl). Defined.
(** ** What holds of every snapshot list *)




Section SnapshotList.
Context (host : Host).






End SnapshotList.

(** ** Example of the snapshot list *)


(** ** System information *)

Lemma split_ws_error s :
  Py.split_ws ("Error: " ++ s) = "Error:" :: Py.split_ws s.
Proof. reflexivity. Qed.

Lemma floats_length l out : floats l = Return out -> length out = length l.
Proof.
  revert out. induction l as [|x l IH]; intros out; cbn [floats].
  - intros [= <-]. reflexivity.
  - unfold mbind, PyResult_bind.
    destruct (Float.of_string x); [|discriminate].
    destruct (floats l) as [fs|]; [|discriminate].
    intros [= <-]. cbn [length]. rewrite (IH fs eq_refl). reflexivity.
Qed.

Lemma format_uptime_parts d h m r :
  (0 <= h < 24)%Z -> (0 <= m < 60)%Z -> (0 <= r < 60)%Z ->
  format_uptime (86400 * d + 3600 * h + 60 * m + r) =
  int_str d ++ "d " ++ int_str h ++ "h " ++ int_str m ++ "m".
Proof.
  intros Hh Hm Hr. unfold format_uptime.
  assert (Hd : ((86400 * d + 3600 * h + 60 * m + r) / 86400 = d)%Z).
  { symmetry. apply (Z.div_unique_pos _ _ d (3600 * h + 60 * m + r)); lia. }
  assert (Hmod : ((86400 * d + 3600 * h + 60 * m + r) mod 86400 = 3600 * h + 60 * m + r)%Z).
  { symmetry. apply (Z.mod_unique_pos _ _ d); lia. }
  assert (Hmod' : ((86400 * d + 3600 * h + 60 * m + r) mod 3600 = 60 * m + r)%Z).
  { symmetry. apply (Z.mod_unique_pos _ _ (24 * d + h)); lia. }
  rewrite Hd, Hmod, Hmod'.
  replace ((3600 * h + 60 * m + r) / 3600)%Z with h
    by (apply (Z.div_unique_pos _ _ h (60 * m + r)); lia).
  replace ((60 * m + r) / 60)%Z with m
    by (apply (Z.div_unique_pos _ _ m r); lia).
  reflexivity.
Qed.

Section SystemInfo.
Context (host : Host).

(** X23.  [get_system_info] has no handler: when the command for the
    uptime exits non-zero, the error text that [run_command] returns is
    parsed as a number and [ValueError] leaves the function; when it
    prints nothing, it is [IndexError].  In both cases the load is not
    read. *)
Theorem get_system_info_uptime_unreadable tr p1 p2 :
  host_run host tr (Shell "hostname") = Return p1 ->
  host_run host (tr ++ [Spawn (Shell "hostname")])%list (Shell "cat /proc/uptime")
    = Return p2 ->
  (returncode p2 <> 0%Z ->
   exists msg,
     get_system_info host tr =
       (Raise (ValueError msg),
        (tr ++ [Spawn (Shell "hostname"); Spawn (Shell "cat /proc/uptime")])%list))
  /\ (returncode p2 = 0%Z -> Py.strip (stdout p2) = EmptyString ->
      get_system_info host tr =
        (Return SysIndexError,
         (tr ++ [Spawn (Shell "hostname"); Spawn (Shell "cat /proc/uptime")])%list)).
Proof.
  intros H1 H2. split.
  - intros Hrc. apply Z.eqb_neq in Hrc.
    unfold get_system_info, mbind, M_bind.
    rewrite (run_command_returns host _ tr p1 H1).
    rewrite (run_command_returns host _ _ p2 H2), Hrc.
    rewrite split_ws_error. unfold lift, PyResult_bind.
    rewrite <- app_assoc. eexists. reflexivity.
  - intros Hrc Hblank.
    unfold get_system_info, mbind, M_bind.
    rewrite (run_command_returns host _ tr p1 H1).
    rewrite (run_command_returns host _ _ p2 H2), Hrc, Hblank.
    cbn [Z.eqb Py.split_ws]. unfold mret, M_ret. rewrite <- app_assoc. reflexivity.
Qed.

(** X24.  When the first field of the uptime is a number whose integer
    part is [d] days, [h] hours, [m] minutes and [r] seconds, with [h]
    below 24 and [m] and [r] below 60, and the first fields of the load
    (three at most) are numbers, [get_system_info] returns the uptime
    text [<d>d <h>h <m>m], these numbers of the load, at most three,
    and as host name the output of [hostname], or the error text of
    [run_command] when that command exits non-zero; it runs the three
    commands in this order. *)
Theorem get_system_info_uptime tr p1 p2 p3 first rest x d h m r loads :
  host_run host tr (Shell "hostname") = Return p1 ->
  host_run host (tr ++ [Spawn (Shell "hostname")])%list (Shell "cat /proc/uptime")
    = Return p2 ->
  returncode p2 = 0%Z ->
  Py.split_ws (Py.strip (stdout p2)) = first :: rest ->
  Float.of_string first = Return x ->
  Float.to_int x = Return (86400 * d + 3600 * h + 60 * m + r)%Z ->
  (0 <= h < 24)%Z -> (0 <= m < 60)%Z -> (0 <= r < 60)%Z ->
  host_run host (tr ++ [Spawn (Shell "hostname"); Spawn (Shell "cat /proc/uptime")])%list
    (Shell "cat /proc/loadavg") = Return p3 ->
  returncode p3 = 0%Z ->
  floats (firstn 3 (Py.split_ws (Py.strip (stdout p3)))) = Return loads ->
  get_system_info host tr =
    (Return (SysInfo
               {| sys_hostname := if (returncode p1 =? 0)%Z then Py.strip (stdout p1)
                                  else "Error: " ++ stderr p1;
                  sys_uptime := int_str d ++ "d " ++ int_str h ++ "h " ++ int_str m ++ "m";
                  sys_loadavg := loads |}),
     (tr ++ [Spawn (Shell "hostname"); Spawn (Shell "cat /proc/uptime");
             Spawn (Shell "cat /proc/loadavg")])%list)
  /\ (length loads <= 3)%nat.
Proof.
  intros H1 H2 Hrc2 Htokens Hx Hsec Hh Hm Hr H3 Hrc3 Hloads. split.
  - unfold get_system_info, mbind, M_bind.
    rewrite (run_command_returns host _ tr p1 H1).
    rewrite (run_command_returns host _ _ p2 H2), Hrc2. cbn [Z.eqb].
    rewrite Htokens. unfold lift, PyResult_bind. rewrite Hx, Hsec.
    rewrite <- app_assoc. cbn [app].
    rewrite (run_command_returns host _ _ p3 H3), Hrc3. cbn [Z.eqb].
    rewrite Hloads, (format_uptime_parts d h m r Hh Hm Hr).
    unfold mret, M_ret. rewrite <- app_assoc. reflexivity.
  - rewrite (floats_length _ _ Hloads), length_firstn. lia.
Qed.

End SystemInfo.

(** ** Examples of the system information *)

Lemma get_system_info_uptime_unreadable_witness :
  exists msg,
    get_system_info no_proc_host [] =
    (Raise (ValueError msg),
     [Spawn (Shell "hostname"); Spawn (Shell "cat /proc/uptime")]).
Proof.
  refine (proj1 (get_system_info_uptime_unreadable no_proc_host []
                   (completed 0 ("nas" ++ nl) EmptyString)
                   (completed 1 EmptyString "not found") eq_refl eq_refl) _).
  discriminate.
Defined.

Lemma get_system_info_uptime_witness :
  exists loads,
    get_system_info proc_host [] =
    (Return (SysInfo {| sys_hostname := "nas"; sys_uptime := "1d 2h 3m";
                        sys_loadavg := loads |}),
     [Spawn (Shell "hostname"); Spawn (Shell "cat /proc/uptime");
      Spawn (Shell "cat /proc/loadavg")])
    /\ (length loads <= 3)%nat.
Proof.
  eexists.
  refine (get_system_info_uptime proc_host []
            (completed 0 ("nas" ++ nl) EmptyString)
            (completed 0 ("93784.12 1234.50" ++ nl) EmptyString)
            (completed 0 ("0.52 0.58 0.59 1/467 12345" ++ nl) EmptyString)
            "93784.12" ["1234.50"] _ 1 2 3 4 _
            eq_refl eq_refl eq_refl eq_refl _ _ _ _ _ eq_refl eq_refl _);
    try lia; vm_compute; reflexivity.
Defined.
(** ** Letter case of a size *)

Lemma upper_char_fixed c : Py.upper (Py.upper_char c) = Py.upper_char c.
Proof. destruct c as [[] [] [] [] [] [] [] []]; reflexivity. Qed.

Lemma upper_char_cons c : exists a t, Py.upper_char c = String a t.
Proof.
  unfold Py.upper_char. destruct (_ && _)%N; [eauto|].
  destruct (_ && _)%N; [eauto|]. destruct (_ =? _)%N; eauto.
Qed.

Lemma upper_char_zero c : Py.upper_char c = "0" -> c = "0"%char.
Proof. destruct c as [[] [] [] [] [] [] [] []]; intros H; try discriminate H; reflexivity. Qed.

Lemma append_assoc_string (a b c : string) : (a ++ b) ++ c = a ++ (b ++ c).
Proof.
  induction a as [|x a IH]; [reflexivity|].
  change (String x ((a ++ b) ++ c) = String x (a ++ (b ++ c))). rewrite IH. reflexivity.
Qed.

Lemma append_empty_string (a : string) : a ++ EmptyString = a.
Proof.
  induction a as [|x a IH]; [reflexivity|].
  change (String x (a ++ EmptyString) = String x a). rewrite IH. reflexivity.
Qed.

Lemma upper_app a b : Py.upper (a ++ b) = Py.upper a ++ Py.upper b.
Proof.
  induction a as [|c a IH]; [reflexivity|].
  change (Py.upper_char c ++ Py.upper (a ++ b)
          = (Py.upper_char c ++ Py.upper a) ++ Py.upper b).
  rewrite IH, append_assoc_string. reflexivity.
Qed.

Lemma upper_fixed s : Py.upper (Py.upper s) = Py.upper s.
Proof.
  induction s as [|c s IH]; [reflexivity|]. cbn [Py.upper].
  rewrite upper_app, upper_char_fixed, IH. reflexivity.
Qed.

Lemma upper_is_zero s : String.eqb (Py.upper s) "0" = String.eqb s "0".
Proof.
  destruct (String.eqb_spec s "0") as [->|Hne]; [reflexivity|].
  apply String.eqb_neq. intros H. apply Hne. clear Hne.
  destruct s as [|c s]; [discriminate H|]. cbn [Py.upper] in H.
  destruct (upper_char_cons c) as (a & t & Hc). rewrite Hc in H.
  destruct s as [|c' s].
  - cbn [Py.upper] in H. rewrite append_empty_string in H.
    rewrite <- Hc in H. rewrite (upper_char_zero c H). reflexivity.
  - cbn [Py.upper] in H. destruct (upper_char_cons c') as (a' & t' & Hc').
    rewrite Hc' in H. cbn in H. injection H as _ H.
    destruct t; discriminate H.
Qed.

(** X25.  [parse_size] does not distinguish the letter case: a string
    and its upper-case form are parsed alike. *)
Theorem parse_size_any_case s :
  parse_size (PStr (Py.upper s)) = parse_size (PStr s).
Proof.
  cbn [parse_size]. rewrite upper_fixed, upper_is_zero.
  destruct s as [|c s]; [reflexivity|]. cbn [Py.upper].
  destruct (upper_char_cons c) as (a & t & ->). reflexivity.
Qed.
